(** * xtgeo.grid3d.grid : the corner-point [Grid] class

    A shallow embedding of [src/xtgeo/grid3d/grid.py].  The class keeps
    three flat native buffers (pillar coordinates, corner depths, active
    mask) behind SWIG pointers, the grid dimensions, a stored active-cell
    count and a lazily filled index cache.  Every method is a thin
    wrapper that prepares arguments, calls one routine of the native
    library [_cxtgeo] and stores results back on [self].

    Conventions of the embedding:
    - Python [int] is [Z]; a Python [float] (and C [double]) is read as
      the rational [Q] it stands for, and arithmetic on floats is exact;
      the conversion [float(int)] rounds to the nearest [double] and
      overflows as Python's does;
    - a SWIG pointer attribute is [option (list _)]: [None] is Python's
      [None] (a NULL pointer on the C side), [Some l] is a live buffer
      with content [l]; a native routine that writes through a pointer
      is a function returning the new content;
    - a method is a function from the grid before the call to the grid
      after the call paired with an [outcome]; a raised exception does
      not undo assignments or native writes made before it. *)

From Stdlib Require Import ZArith QArith List String Bool Lia Sorted.
Import ListNotations.

Local Open Scope string_scope.
Local Open Scope Z_scope.

(** ** Python values, exceptions and outcomes *)

(** The dynamically typed arguments that the methods inspect with
    [isinstance] or [is True]. *)
Inductive pyval : Type :=
| PyNone
| PyBool (b : bool)
| PyInt (z : Z)
| PyFloat (q : Q)
| PyStr (s : string).

(** [isinstance(v, int)]: [bool] is a subclass of [int]. *)
Definition isinstance_int (v : pyval) : bool :=
  match v with
  | PyInt _ | PyBool _ => true
  | _ => false
  end.

(** [isinstance(v, float)]. *)
Definition isinstance_float (v : pyval) : bool :=
  match v with
  | PyFloat _ => true
  | _ => false
  end.

(** [v is True]: identity with the singleton [True]. *)
Definition is_True (v : pyval) : bool :=
  match v with
  | PyBool true => true
  | _ => false
  end.

(** The integer that an instance of [int] holds; [True] and [False]
    are the integers 1 and 0. *)
Definition int_value (v : pyval) : Z :=
  match v with
  | PyInt z => z
  | PyBool b => if b then 1 else 0
  | _ => 0
  end.

(** The C [double] that SWIG extracts from a Python [float]. *)
Definition float_value (v : pyval) : Q :=
  match v with
  | PyFloat q => q
  | _ => 0%Q
  end.

(** The exception classes raised in [grid.py] or by the built-ins and
    the numpy indexing it calls; the payload is the message. *)
Inductive exn : Type :=
| ValueError (msg : string)
| IndexError (msg : string)
| RuntimeWarning (msg : string)
| OverflowError (msg : string)
| PyException (msg : string).

(** [issubclass(type(e), Warning)]. *)
Definition is_warning (e : exn) : bool :=
  match e with
  | RuntimeWarning _ => true
  | _ => false
  end.

(** How a call ends: it returns a value, raises, or the native library
    faults (a NULL or undersized buffer handed to C). *)
Inductive outcome (A : Type) : Type :=
| Return (a : A)
| Raise (e : exn)
| Fault.

Arguments Return {A} a.
Arguments Raise {A} e.
Arguments Fault {A}.

Definition bind {A B : Type} (o : outcome A) (f : A -> outcome B) : outcome B :=
  match o with
  | Return a => f a
  | Raise e => Raise e
  | Fault => Fault
  end.

Notation "x <- o ;; k" := (bind o (fun x => k))
  (at level 61, o at next level, right associativity).

(** A native call either completes with a result or faults. *)
Definition native (A : Type) : Type := option A.

Definition of_native {A : Type} (r : native A) : outcome A :=
  match r with
  | Some a => Return a
  | None => Fault
  end.

(** ** Conversion of an integer to a float *)

(** The width of the significand of a C [double] and its largest
    binary exponent. *)
Definition DBL_MANT_DIG : Z := 53.
Definition DBL_MAX_EXP : Z := 1024.

(** A non-negative integer rounded to [DBL_MANT_DIG] significant bits:
    the bits below are dropped and the rest goes to the nearest
    neighbour, a tie to the even one. *)
Definition round_half_even (a : Z) : Z :=
  let e := Z.max 0 (Z.log2 a + 1 - DBL_MANT_DIG) in
  let q := a / 2 ^ e in
  let r := a mod 2 ^ e in
  let half := 2 ^ (e - 1) in
  let up := (0 <? e) && ((half <? r) || ((r =? half) && Z.odd q)) in
  (if up then q + 1 else q) * 2 ^ e.

(** The [double] that Python makes of an integer: the nearest one, and
    none when the rounded magnitude reaches [2 ^ DBL_MAX_EXP]. *)
Definition double_of_int (z : Z) : option Q :=
  let m := round_half_even (Z.abs z) in
  if 2 ^ DBL_MAX_EXP <=? m then None else Some (inject_Z (Z.sgn z * m)).

(** [float(v)] for an [int] (or [bool]) argument, which raises
    [OverflowError] beyond the range of a [double]; other values are
    not converted by the code and stay as they are. *)
Definition pyfloat (v : pyval) : outcome pyval :=
  if isinstance_int v then
    match double_of_int (int_value v) with
    | Some q => Return (PyFloat q)
    | None => Raise (OverflowError "int too large to convert to float")
    end
  else Return v.

(** ** Buffers and numpy arrays *)

(** A SWIG pointer to a C array. *)
Definition carray (A : Type) : Type := option (list A).

(** [_cxtgeo.new_doublearray(n)]: a fresh array; the content of fresh
    memory is read as zeros. *)
Definition new_doublearray (n : Z) : list Q := repeat 0%Q (Z.to_nat n).

(** [_cxtgeo.doublearray_getitem(p, i)]. *)
Definition doublearray_getitem (p : list Q) (i : Z) : Q :=
  nth (Z.to_nat i) p 0%Q.

(** Sum of an integer array, [numpy.sum]. *)
Definition np_sum (l : list Z) : Z := fold_right Z.add 0 l.

(** [numpy.flatnonzero]: the positions of the non-zero entries, in
    increasing order. *)
Fixpoint flatnonzero_from (i : Z) (l : list Z) : list Z :=
  match l with
  | [] => []
  | x :: t =>
      if x =? 0 then flatnonzero_from (i + 1) t
      else i :: flatnonzero_from (i + 1) t
  end.

Definition flatnonzero (l : list Z) : list Z := flatnonzero_from 0 l.

(** One axis of a numpy index: negative positions count from the end,
    anything outside [-n, n) is an [IndexError]. *)
Definition np_axis (n idx : Z) : outcome Z :=
  if (0 <=? idx) && (idx <? n) then Return idx
  else if (- n <=? idx) && (idx <? 0) then Return (idx + n)
  else Raise (IndexError "index is out of bounds for axis").

(** ** Grid properties *)

(** The value array of a property: [int32] for discrete properties,
    [float64] otherwise. *)
Inductive ndarray : Type :=
| IntArray (l : list Z)
| FloatArray (l : list Q).

Inductive npscalar : Type :=
| NpInt (z : Z)
| NpFloat (q : Q).

(** [s == 0] on a numpy scalar. *)
Definition scalar_is_zero (s : npscalar) : bool :=
  match s with
  | NpInt z => z =? 0
  | NpFloat q => Qeq_bool q 0
  end.

Definition np_size (a : ndarray) : Z :=
  match a with
  | IntArray l => Z.of_nat (List.length l)
  | FloatArray l => Z.of_nat (List.length l)
  end.

Definition np_item (a : ndarray) (pos : Z) : npscalar :=
  match a with
  | IntArray l => NpInt (nth (Z.to_nat pos) l 0)
  | FloatArray l => NpFloat (nth (Z.to_nat pos) l 0%Q)
  end.

(** [numpy.zeros(n, dtype=numpy.int32)]. *)
Definition np_zeros_int (n : Z) : outcome ndarray :=
  if n <? 0 then Raise (ValueError "negative dimensions are not allowed")
  else Return (IntArray (repeat 0 (Z.to_nat n))).

Module GridProperty.

(** Modelled from the spec: the class [GridProperty] of
    [grid_property.py], which is not among the sources.  Section 4.6
    describes it as a per-cell array together with [ncol, nrow, nlay],
    a name and a discreteness flag; [grid.py] also fills the private
    attribute [_cvalues] with a native buffer before calling
    [_update_values]. *)
Record t : Type := Build {
  ncol : Z;
  nrow : Z;
  nlay : Z;
  name : string;
  discrete : bool;
  values : ndarray;
  _cvalues : carray Z
}.

Definition set_cvalues (p : t) (c : carray Z) : t :=
  Build (ncol p) (nrow p) (nlay p) (name p) (discrete p) (values p) c.

(** Modelled from the spec: [_update_values] refreshes [values] with a
    copy of the [ncol*nrow*nlay] entries behind [_cvalues] (section 3:
    the mask has one entry per cell).  A NULL or shorter buffer cannot
    be copied. *)
Definition _update_values (p : t) : outcome t :=
  let nnn := Z.to_nat (ncol p * nrow p * nlay p) in
  match _cvalues p with
  | None => Fault
  | Some c =>
      if (List.length c <? nnn)%nat then Fault
      else Return (Build (ncol p) (nrow p) (nlay p) (name p) (discrete p)
                         (IntArray (firstn nnn c)) (_cvalues p))
  end.

(** Modelled from the spec: [values3d] views [values] as an array of
    shape [(ncol, nrow, nlay)] in which cell [(i, j, k)] (0-based) sits
    at linear position [k*nrow*ncol + j*ncol + i] (section 3, first
    invariant); [values3d[i, j, k]] follows numpy's indexing rules. *)
Definition values3d (p : t) (i j k : Z) : outcome npscalar :=
  if negb (np_size (values p) =? ncol p * nrow p * nlay p)
  then Raise (ValueError "cannot reshape array")
  else
    i' <- np_axis (ncol p) i ;;
    j' <- np_axis (nrow p) j ;;
    k' <- np_axis (nlay p) k ;;
    Return (np_item (values p) (k' * nrow p * ncol p + j' * ncol p + i')).

End GridProperty.

(** ** The grid object *)

(** The instance attributes assigned in [Grid.__init__] (the logger and
    dialog handles carry no grid state and are left out). *)
Record Grid : Type := mkGrid {
  _ncol : Z;
  _nrow : Z;
  _nlay : Z;
  _nsubs : Z;
  _p_coord_v : carray Q;
  _p_zcorn_v : carray Q;
  _p_actnum_v : carray Z;
  _nactive : Z;
  _actnum_indices : option (list Z);
  _props : list GridProperty.t;
  _undef : Q;
  _undef_limit : Q
}.

Definition set_nlay (g : Grid) (n : Z) : Grid :=
  mkGrid (_ncol g) (_nrow g) n (_nsubs g) (_p_coord_v g) (_p_zcorn_v g)
         (_p_actnum_v g) (_nactive g) (_actnum_indices g) (_props g)
         (_undef g) (_undef_limit g).

Definition set_nsubs (g : Grid) (n : Z) : Grid :=
  mkGrid (_ncol g) (_nrow g) (_nlay g) n (_p_coord_v g) (_p_zcorn_v g)
         (_p_actnum_v g) (_nactive g) (_actnum_indices g) (_props g)
         (_undef g) (_undef_limit g).

Definition set_p_coord_v (g : Grid) (c : carray Q) : Grid :=
  mkGrid (_ncol g) (_nrow g) (_nlay g) (_nsubs g) c (_p_zcorn_v g)
         (_p_actnum_v g) (_nactive g) (_actnum_indices g) (_props g)
         (_undef g) (_undef_limit g).

Definition set_p_zcorn_v (g : Grid) (c : carray Q) : Grid :=
  mkGrid (_ncol g) (_nrow g) (_nlay g) (_nsubs g) (_p_coord_v g) c
         (_p_actnum_v g) (_nactive g) (_actnum_indices g) (_props g)
         (_undef g) (_undef_limit g).

Definition set_p_actnum_v (g : Grid) (c : carray Z) : Grid :=
  mkGrid (_ncol g) (_nrow g) (_nlay g) (_nsubs g) (_p_coord_v g)
         (_p_zcorn_v g) c (_nactive g) (_actnum_indices g) (_props g)
         (_undef g) (_undef_limit g).

Definition set_nactive (g : Grid) (n : Z) : Grid :=
  mkGrid (_ncol g) (_nrow g) (_nlay g) (_nsubs g) (_p_coord_v g)
         (_p_zcorn_v g) (_p_actnum_v g) n (_actnum_indices g) (_props g)
         (_undef g) (_undef_limit g).

Definition set_actnum_indices (g : Grid) (c : option (list Z)) : Grid :=
  mkGrid (_ncol g) (_nrow g) (_nlay g) (_nsubs g) (_p_coord_v g)
         (_p_zcorn_v g) (_p_actnum_v g) (_nactive g) c (_props g)
         (_undef g) (_undef_limit g).

Definition set_props (g : Grid) (l : list GridProperty.t) : Grid :=
  mkGrid (_ncol g) (_nrow g) (_nlay g) (_nsubs g) (_p_coord_v g)
         (_p_zcorn_v g) (_p_actnum_v g) (_nactive g) (_actnum_indices g) l
         (_undef g) (_undef_limit g).

(** A method call that may assign attributes of [self] or write native
    buffers: the grid after the call and how the call ended. *)
Definition run (A : Type) : Type := (Grid * outcome A)%type.

(** A [Polygons] argument is seen through [get_xyz_dataframe()], whose
    [X] and [Y] columns list the vertices with every polygon closed off
    by a row holding 999; any other object fails the [isinstance] test. *)
Inductive polyarg : Type :=
| Polygons (X Y : list Q)
| NotPolygons.

(** [range(n)]. *)
Definition range (n : nat) : list Z := map Z.of_nat (seq 0 n).

(** [_cxtgeo.new_intarray(n)]. *)
Definition new_intarray (n : Z) : list Z := repeat 0 (Z.to_nat n).

(** [numpy.flatnonzero] on either element type. *)
Definition np_flatnonzero (a : ndarray) : list Z :=
  match a with
  | IntArray l => flatnonzero l
  | FloatArray l => flatnonzero (map (fun q => if Qeq_bool q 0 then 0 else 1) l)
  end.

(** ** The methods of [Grid] *)

Section Methods.

(** The constants and routines of the native library [_cxtgeo] that
    the methods use.  A routine receives the pointers it is passed and
    returns its result together with the content of every buffer it
    may write; the verbosity argument, which only steers logging, is
    left out. *)
Variable UNDEF UNDEF_LIMIT : Q.

Variable grd3d_inact_by_dz :
  Z -> Z -> Z -> carray Q -> carray Z -> Q -> Z ->
  native (carray Q * carray Z).

Variable grd3d_inact_outside_pol :
  list Q -> list Q -> Z -> Z -> Z -> carray Q -> carray Q -> carray Z ->
  Z -> Z -> Z -> Z -> native (Z * carray Q * carray Q * carray Z).

Variable grd3d_collapse_inact :
  Z -> Z -> Z -> carray Q -> carray Z -> native (carray Q * carray Z).

(** The old depth and mask buffers are dropped by the caller, so only
    the two fresh arrays and the counter are returned. *)
Variable grd3d_reduce_onelayer :
  Z -> Z -> Z -> carray Q -> list Q -> carray Z -> list Z -> Z ->
  native (list Q * list Z * Z).

Variable grd3d_translate :
  Z -> Z -> Z -> Z -> Z -> Z -> Q -> Q -> Q -> carray Q -> carray Q ->
  native (Z * carray Q * carray Q).

(** Reads the grid buffers and fills the 24-entry output array. *)
Variable grd3d_corners :
  Z -> Z -> Z -> Z -> Z -> Z -> carray Q -> carray Q -> list Q ->
  native (list Q).

(** [Grid()] with no positional argument: nothing is imported. *)
Definition __init__ : Grid :=
  {| _ncol := 4;
     _nrow := 3;
     _nlay := 5;
     _nsubs := 0;
     _p_coord_v := None;
     _p_zcorn_v := None;
     _p_actnum_v := None;
     _nactive := -999;
     _actnum_indices := None;
     _props := [];
     _undef := UNDEF;
     _undef_limit := UNDEF_LIMIT |}.

(** The read-only dimension properties inherited from [Grid3D]. *)
Definition ncol (g : Grid) : Z := _ncol g.
Definition nrow (g : Grid) : Z := _nrow g.
Definition nlay (g : Grid) : Z := _nlay g.

Definition nactive (g : Grid) : Z := _nactive g.

Definition ntotal (g : Grid) : Z := _ncol g * _nrow g * _nlay g.

Definition props (g : Grid) : list GridProperty.t := _props g.

Definition propnames (g : Grid) : list string :=
  map GridProperty.name (_props g).

Definition get_prop_by_name (g : Grid) (name : string)
  : option GridProperty.t :=
  find (fun obj => String.eqb (GridProperty.name obj) name) (props g).

Definition get_actnum (g : Grid) (name : string) : outcome GridProperty.t :=
  let ntot := _ncol g * _nrow g * _nlay g in
  zeros <- np_zeros_int ntot ;;
  let act :=
    GridProperty.Build (_ncol g) (_nrow g) (_nlay g) name true zeros None in
  let act := GridProperty.set_cvalues act (_p_actnum_v g) in
  GridProperty._update_values act.

Definition actnum_indices (g : Grid) : run (list Z) :=
  match _actnum_indices g with
  | None =>
      match get_actnum g "ACTNUM" with
      | Return actnum =>
          let idx := np_flatnonzero (GridProperty.values actnum) in
          (set_actnum_indices g (Some idx), Return idx)
      | Raise e => (g, Raise e)
      | Fault => (g, Fault)
      end
  | Some idx => (g, Return idx)
  end.

(** The loop of the [props] setter: the first property whose
    dimensions differ from the grid's stops it. *)
Fixpoint props_check (g : Grid) (list : list GridProperty.t) : outcome unit :=
  match list with
  | [] => Return tt
  | l :: rest =>
      if negb (GridProperty.ncol l =? _ncol g)
         || negb (GridProperty.nrow l =? _nrow g)
         || negb (GridProperty.nlay l =? _nlay g)
      then Raise (IndexError ("Property NX NY NZ <" ++ GridProperty.name l
                              ++ "> does not match grid!"))
      else props_check g rest
  end.

Definition props_setter (g : Grid) (list : list GridProperty.t) : run unit :=
  match props_check g list with
  | Return _ => (set_props g list, Return tt)
  | Raise e => (g, Raise e)
  | Fault => (g, Fault)
  end.

Definition get_xyz_cell_corners (g : Grid) (ijk : Z * Z * Z) (mask : pyval)
  : outcome (option (list Q)) :=
  let '(i, j, k) := ijk in
  inactive <-
    (if is_True mask then
       actnum <- get_actnum g "ACTNUM" ;;
       iact <- GridProperty.values3d actnum (i - 1) (j - 1) (k - 1) ;;
       Return (scalar_is_zero iact)
     else Return false) ;;
  if inactive : bool then Return None
  else
    let pcorners := new_doublearray 24 in
    pcorners <- of_native
      (grd3d_corners i j k (ncol g) (nrow g) (nlay g)
                     (_p_coord_v g) (_p_zcorn_v g) pcorners) ;;
    let cornerlist := map (fun i => doublearray_getitem pcorners i) (range 24) in
    Return (Some cornerlist).

Definition inactivate_by_dz (g : Grid) (threshold : pyval) : run unit :=
  match (if isinstance_int threshold then pyfloat threshold
         else Return threshold) with
  | Raise e => (g, Raise e)
  | Fault => (g, Fault)
  | Return threshold =>
      if negb (isinstance_float threshold) then
        (g, Raise (ValueError "The threshold is not a float or int"))
      else
        let nflip := 1 in
        match grd3d_inact_by_dz (ncol g) (nrow g) (nlay g)
                                (_p_zcorn_v g) (_p_actnum_v g)
                                (float_value threshold) nflip with
        | Some (zcorn, actnum) =>
            (set_p_actnum_v (set_p_zcorn_v g zcorn) actnum, Return tt)
        | None => (g, Fault)
        end
  end.

Definition inactivate_inside (g : Grid) (poly : polyarg)
           (layer_range : option (Z * Z)) (inside force_close : bool)
  : run unit :=
  match poly with
  | NotPolygons =>
      (g, Raise (ValueError "Input polygon not a XTGeo Polygons instance"))
  | Polygons xc yc =>
      let '(k1, k2) :=
        match layer_range with
        | Some r => r
        | None => (1, nlay g)
        end in
      let method := if negb inside then 1 else 0 in
      let iforce := if force_close then 1 else 0 in
      match grd3d_inact_outside_pol xc yc (ncol g) (nrow g) (nlay g)
              (_p_coord_v g) (_p_zcorn_v g) (_p_actnum_v g)
              k1 k2 iforce method with
      | Some (ier, coord, zcorn, actnum) =>
          let g' :=
            set_p_actnum_v (set_p_zcorn_v (set_p_coord_v g coord) zcorn)
                           actnum in
          if ier =? 1 then
            (g', Raise (RuntimeWarning
                          "Problems with one or more polygons. Not closed?"))
          else (g', Return tt)
      | None => (g, Fault)
      end
  end.

Definition inactivate_outside (g : Grid) (poly : polyarg)
           (layer_range : option (Z * Z)) : run unit :=
  inactivate_inside g poly layer_range false false.

Definition collapse_inactive_cells (g : Grid) : run unit :=
  match grd3d_collapse_inact (ncol g) (nrow g) (nlay g)
                             (_p_zcorn_v g) (_p_actnum_v g) with
  | Some (zcorn, actnum) =>
      (set_p_actnum_v (set_p_zcorn_v g zcorn) actnum, Return tt)
  | None => (g, Fault)
  end.

Definition reduce_to_one_layer (g : Grid) : run unit :=
  let ptr_new_zcorn_v := new_doublearray (_ncol g * _nrow g * (1 + 1) * 4) in
  let ptr_new_actnum_v := new_intarray (_ncol g * _nrow g * 1) in
  match grd3d_reduce_onelayer (_ncol g) (_nrow g) (_nlay g)
          (_p_zcorn_v g) ptr_new_zcorn_v
          (_p_actnum_v g) ptr_new_actnum_v 0 with
  | Some (new_zcorn_v, new_actnum_v, new_num_act) =>
      let g := set_nlay g 1 in
      let g := set_p_zcorn_v g (Some new_zcorn_v) in
      let g := set_p_actnum_v g (Some new_actnum_v) in
      let g := set_nactive g new_num_act in
      let g := set_nsubs g 0 in
      let g := set_props g [] in
      (g, Return tt)
  | None => (g, Fault)
  end.

Definition translate_coordinates (g : Grid) (translate : Q * Q * Q)
           (flip : Z * Z * Z) : run unit :=
  let '(tx, ty, tz) := translate in
  let '(fx, fy, fz) := flip in
  match grd3d_translate (_ncol g) (_nrow g) (_nlay g) fx fy fz tx ty tz
                        (_p_coord_v g) (_p_zcorn_v g) with
  | Some (ier, coord, zcorn) =>
      let g' := set_p_zcorn_v (set_p_coord_v g coord) zcorn in
      if negb (ier =? 0) then
        (g', Raise (PyException "Something went wrong in translate"))
      else (g', Return tt)
  | None => (g, Fault)
  end.

End Methods.

(** ** The native routines, from the specification

    The C sources of [_cxtgeo] are not part of the Python package.  The
    routines below are written from the specification's description of
    the data layout (section 3) and of each operation (sections 4.3 to
    4.5); they are used where a property of a method depends on what the
    routine computes. *)

Module Cxtgeo.

Local Open Scope Q_scope.

(** Modelled from the spec: the sentinel for undefined geometry and a
    slightly smaller comparison threshold (section 3, [undef] and
    [undef_limit]); the values of the constants are not given there. *)
Definition UNDEF : Q := inject_Z (10 ^ 33).
Definition UNDEF_LIMIT : Q := inject_Z (99 * 10 ^ 31).

(** [x < y] on doubles. *)
Definition Qltb (x y : Q) : bool := negb (Qle_bool y x).

(** Reading entry [pos] of a buffer. *)
Definition dget (l : list Q) (pos : Z) : Q := nth (Z.to_nat pos) l 0.
Definition iget (l : list Z) (pos : Z) : Z := nth (Z.to_nat pos) l 0%Z.

(** Whether a buffer holds the [n] entries a routine is about to use. *)
Definition long_enough {A : Type} (l : list A) (n : Z) : bool :=
  (n <=? Z.of_nat (List.length l))%Z.

(** Modelled from the spec: sizes of the three buffers (section 3). *)
Definition ncoord (nx ny : Z) : Z := ((nx + 1) * (ny + 1) * 2 * 3)%Z.
Definition nzcorn (nx ny nz : Z) : Z := (nx * ny * (nz + 1) * 4)%Z.
Definition ntot (nx ny nz : Z) : Z := (nx * ny * nz)%Z.

(** Modelled from the spec: the four corner depths of layer boundary
    [kb] over the footprint with linear index [ib = j*nx + i] are the
    entries [4*(kb*nx*ny + ib) + c], [c = 0..3] (section 3). *)
Definition zcorn_pos (nx ny kb ib c : Z) : Z :=
  (4 * (kb * ny * nx + ib) + c)%Z.

(** Modelled from the spec: [cell_dz] is the average of the four
    vertical edge lengths of the cell, with the sign convention given
    by [nflip] (section 4.3).  [ic] is the linear cell index. *)
Definition cell_dz (nx ny : Z) (zcorn : list Q) (nflip ic : Z) : Q :=
  let edge c :=
    dget zcorn (4 * (ic + ny * nx) + c) - dget zcorn (4 * ic + c) in
  inject_Z nflip * ((edge 0%Z + edge 1%Z + edge 2%Z + edge 3%Z) / 4).

(** Modelled from the spec: the pass over the first [n] cells, from
    cell [ic] on, that clears the mask of every cell thinner than the
    threshold (section 4.4). *)
Fixpoint inact_by_dz_loop (nx ny : Z) (zcorn : list Q) (threshold : Q)
         (nflip : Z) (ic : Z) (n : nat) (actnum : list Z) : list Z :=
  match n, actnum with
  | S n', a :: rest =>
      (if Qltb (cell_dz nx ny zcorn nflip ic) threshold then 0%Z else a)
        :: inact_by_dz_loop nx ny zcorn threshold nflip (ic + 1) n' rest
  | _, _ => actnum
  end.

(** Modelled from the spec: [deactivate_thin_cells] (section 4.4):
    every cell whose unmasked [dz] is below the threshold gets mask 0;
    depths and all other mask entries stay. *)
Definition grd3d_inact_by_dz (nx ny nz : Z) (p_zcorn_v : carray Q)
           (p_actnum_v : carray Z) (threshold : Q) (nflip : Z)
  : native (carray Q * carray Z) :=
  match p_zcorn_v, p_actnum_v with
  | Some zcorn, Some actnum =>
      if long_enough zcorn (nzcorn nx ny nz)
         && long_enough actnum (ntot nx ny nz)
      then Some (Some zcorn,
                 Some (inact_by_dz_loop nx ny zcorn threshold nflip 0
                         (Z.to_nat (ntot nx ny nz)) actnum))
      else None
  | _, _ => None
  end.

(** Modelled from the spec: whether some layer of footprint [ib] is
    active (section 4.4, single-layer reduction). *)
Definition column_active (nx ny : Z) (nz : nat) (actnum : list Z) (ib : Z)
  : bool :=
  existsb (fun k => (iget actnum (k * ny * nx + ib) =? 1)%Z) (range nz).

(** Modelled from the spec: the mask of the single layer and the
    running count of its active cells, footprint by footprint. *)
Fixpoint reduce_actnum (nx ny : Z) (nz : nat) (actnum : list Z)
         (ibs : list Z) : list Z * Z :=
  match ibs with
  | [] => ([], 0%Z)
  | ib :: rest =>
      let '(mask, nact) := reduce_actnum nx ny nz actnum rest in
      if column_active nx ny nz actnum ib
      then (1%Z :: mask, (nact + 1)%Z)
      else (0%Z :: mask, nact)
  end.

(** Modelled from the spec: the four depths of boundary [kb], for
    every footprint in turn. *)
Definition boundary_depths (nx ny : Z) (zcorn : list Q) (kb : Z)
           (ibs : list Z) : list Q :=
  flat_map
    (fun ib => map (fun c => dget zcorn (zcorn_pos nx ny kb ib c)) (range 4))
    ibs.

(** Modelled from the spec: [reduce_to_single_layer] (section 4.4):
    the new depths are the top face of the first layer and the base
    face of the last layer of each footprint; the new mask entry is
    active if any layer of the footprint was; the active cells of the
    new mask are counted. *)
Definition grd3d_reduce_onelayer (nx ny nz : Z) (p_zcorn_v : carray Q)
           (new_zcorn_v : list Q) (p_actnum_v : carray Z)
           (new_actnum_v : list Z) (iflag : Z)
  : native (list Q * list Z * Z) :=
  match p_zcorn_v, p_actnum_v with
  | Some zcorn, Some actnum =>
      if long_enough zcorn (nzcorn nx ny nz)
         && long_enough actnum (ntot nx ny nz)
      then
        let ibs := range (Z.to_nat (nx * ny)) in
        let '(mask, nact) := reduce_actnum nx ny (Z.to_nat nz) actnum ibs in
        Some ((boundary_depths nx ny zcorn 0 ibs
                 ++ boundary_depths nx ny zcorn nz ibs)%list,
              mask, nact)
      else None
  | _, _ => None
  end.

(** Modelled from the spec: a flip is 1 or -1 (section 4.5). *)
Definition valid_flip (f : Z) : bool := ((f =? 1) || (f =? -1))%Z.

(** Modelled from the spec: shifting and flipping a run of pillar
    points, each three entries [(x, y, z)]; [axis] is the coordinate
    the next entry belongs to. *)
Fixpoint translate_points (fx fy fz : Z) (tx ty tz : Q) (axis : nat)
         (l : list Q) : list Q :=
  match l with
  | [] => []
  | v :: rest =>
      (match axis with
       | O => inject_Z fx * (v + tx)
       | S O => inject_Z fy * (v + ty)
       | _ => inject_Z fz * (v + tz)
       end)
        :: translate_points fx fy fz tx ty tz
             (match axis with S (S _) => O | _ => S axis end) rest
  end.

(** Modelled from the spec: [translate] and [flip] (section 4.5): the
    flips are checked to be 1 or -1 before anything is written; a bad
    flip is reported through a non-zero return code.  Otherwise every
    pillar point is shifted and flipped, and every corner depth is
    shifted and flipped along Z. *)
Definition grd3d_translate (nx ny nz fx fy fz : Z) (tx ty tz : Q)
           (p_coord_v p_zcorn_v : carray Q)
  : native (Z * carray Q * carray Q) :=
  if valid_flip fx && valid_flip fy && valid_flip fz then
    match p_coord_v, p_zcorn_v with
    | Some coord, Some zcorn =>
        if long_enough coord (ncoord nx ny)
           && long_enough zcorn (nzcorn nx ny nz)
        then Some (0%Z,
                   Some (translate_points fx fy fz tx ty tz 0 coord),
                   Some (map (fun z => inject_Z fz * (z + tz)) zcorn))
        else None
    | _, _ => None
    end
  else Some ((-1)%Z, p_coord_v, p_zcorn_v).

(** Modelled from the spec: the rows of the vertex table up to each
    row holding 999 form one polygon. *)
Fixpoint split_polygons (rows cur : list (Q * Q)) : list (list (Q * Q)) :=
  match rows with
  | [] =>
      match cur with
      | [] => []
      | _ => [rev cur]
      end
  | (x, y) :: rest =>
      if Qeq_bool x 999 then rev cur :: split_polygons rest []
      else split_polygons rest ((x, y) :: cur)
  end.

(** Two vertices coincide. *)
Definition same_point (a b : Q * Q) : bool :=
  Qeq_bool (fst a) (fst b) && Qeq_bool (snd a) (snd b).

(** Modelled from the spec: a polygon is closed when its last vertex
    repeats the first. *)
Definition is_closed (p : list (Q * Q)) : bool :=
  match p with
  | [] => false
  | first :: _ => same_point first (last p first)
  end.

(** Modelled from the spec: forced closing appends the first vertex
    (section 4.4, [force_close]). *)
Definition close_polygon (p : list (Q * Q)) : list (Q * Q) :=
  match p with
  | [] => []
  | first :: _ => (p ++ [first])%list
  end.

(** Modelled from the spec: the polygons that take part in the test
    and the error flag: an open polygon is closed when [iforce] is 1 and
    is otherwise left out and reported (sections 4.4 and 7). *)
Fixpoint usable_polygons (iforce : Z) (ps : list (list (Q * Q)))
  : list (list (Q * Q)) * Z :=
  match ps with
  | [] => ([], 0%Z)
  | p :: rest =>
      let '(ok, ier) := usable_polygons iforce rest in
      if is_closed p then (p :: ok, ier)
      else if (iforce =? 1)%Z then (close_polygon p :: ok, ier)
      else (ok, 1%Z)
  end.

(** Modelled from the spec: point-in-polygon by counting crossings;
    whether the ray from [(px, py)] towards larger X crosses edge
    [a b]. *)
Definition edge_crosses (px py : Q) (a b : Q * Q) : bool :=
  let '(x1, y1) := a in
  let '(x2, y2) := b in
  negb (Bool.eqb (Qltb py y1) (Qltb py y2))
  && Qltb px (x1 + (py - y1) * (x2 - x1) / (y2 - y1)).

(** Modelled from the spec: parity of the number of edges crossed. *)
Fixpoint crossings (px py : Q) (p : list (Q * Q)) : bool :=
  match p with
  | a :: (b :: _) as rest =>
      xorb (edge_crosses px py a b) (crossings px py rest)
  | _ => false
  end.

(** Modelled from the spec: inside some polygon of the set. *)
Definition inside_any (px py : Q) (polys : list (list (Q * Q))) : bool :=
  existsb (crossings px py) polys.

(** Modelled from the spec: pillar [(pi, pj)] owns the six entries from
    [6*(pj*(nx+1) + pi)]: top point, then bottom point (section 3). *)
Definition pillar_pos (nx pi pj : Z) : Z := (6 * (pj * (nx + 1) + pi))%Z.

(** Modelled from the spec: centre of the footprint of column
    [(i, j)] (0-based), taken as the mean of the top points of its four
    pillars (section 4.4, "footprint center"). *)
Definition footprint_centre (nx : Z) (coord : list Q) (i j : Z) : Q * Q :=
  let x pi pj := dget coord (pillar_pos nx pi pj) in
  let y pi pj := dget coord (pillar_pos nx pi pj + 1) in
  ((x i j + x (i + 1)%Z j + x i (j + 1)%Z + x (i + 1)%Z (j + 1)%Z) / 4,
   (y i j + y (i + 1)%Z j + y i (j + 1)%Z + y (i + 1)%Z (j + 1)%Z) / 4).

(** Modelled from the spec: the pass over the first [n] cells, from
    cell [ic] on, that clears the mask of the cells selected by the
    polygons within layers [k1..k2]. *)
Fixpoint inact_pol_loop (nx ny : Z) (coord : list Q)
         (polys : list (list (Q * Q))) (k1 k2 method : Z)
         (ic : Z) (n : nat) (actnum : list Z) : list Z :=
  match n, actnum with
  | S n', a :: rest =>
      let i := (ic mod nx)%Z in
      let j := ((ic / nx) mod ny)%Z in
      let k := (ic / (nx * ny) + 1)%Z in
      let '(cx, cy) := footprint_centre nx coord i j in
      let hit := inside_any cx cy polys in
      (if (k1 <=? k)%Z && (k <=? k2)%Z
          && (if (method =? 0)%Z then hit else negb hit)
       then 0%Z else a)
        :: inact_pol_loop nx ny coord polys k1 k2 method (ic + 1) n' rest
  | _, _ => actnum
  end.

(** Modelled from the spec: the mask after deactivating by the given
    polygons. *)
Definition inact_by_polygons (nx ny nz : Z) (coord : list Q)
           (polys : list (list (Q * Q))) (k1 k2 method : Z)
           (actnum : list Z) : list Z :=
  inact_pol_loop nx ny coord polys k1 k2 method 0
                 (Z.to_nat (ntot nx ny nz)) actnum.

(** Modelled from the spec: [deactivate_by_polygon] (section 4.4): in
    layers [k1..k2] (1-based, inclusive) a cell is deactivated when its
    footprint centre lies inside some polygon ([method] 0) or inside
    none ([method] 1).  An open polygon is closed first when [iforce] is
    1; otherwise it is malformed, is left out, and the routine reports 1
    while still applying the remaining polygons (sections 4.4 and 7). *)
Definition grd3d_inact_outside_pol (xc yc : list Q) (nx ny nz : Z)
           (p_coord_v p_zcorn_v : carray Q) (p_actnum_v : carray Z)
           (k1 k2 iforce method : Z)
  : native (Z * carray Q * carray Q * carray Z) :=
  match p_coord_v, p_zcorn_v, p_actnum_v with
  | Some coord, Some zcorn, Some actnum =>
      if long_enough coord (ncoord nx ny)
         && long_enough zcorn (nzcorn nx ny nz)
         && long_enough actnum (ntot nx ny nz)
      then
        let '(polys, ier) :=
          usable_polygons iforce (split_polygons (combine xc yc) []) in
        Some (ier, Some coord, Some zcorn,
              Some (inact_by_polygons nx ny nz coord polys k1 k2 method actnum))
      else None
  | _, _, _ => None
  end.

(** Modelled from the spec: the point of pillar [(pi, pj)] at depth
    [z], by linear interpolation between its top and bottom points; a
    depth outside the pillar's own range gives the undefined sentinel
    (section 4.3, numeric policy). *)
Definition pillar_point (nx : Z) (coord : list Q) (pi pj : Z) (z : Q)
  : list Q :=
  let pos := pillar_pos nx pi pj in
  let xt := dget coord pos in
  let yt := dget coord (pos + 1) in
  let zt := dget coord (pos + 2) in
  let xb := dget coord (pos + 3) in
  let yb := dget coord (pos + 4) in
  let zb := dget coord (pos + 5) in
  if (Qltb z zt && Qltb z zb) || (Qltb zt z && Qltb zb z)
  then [UNDEF; UNDEF; UNDEF]
  else if Qeq_bool zt zb then [xt; yt; z]
  else
    let t := (z - zt) / (zb - zt) in
    [Qred (xt + t * (xb - xt)); Qred (yt + t * (yb - yt)); z].

(** Modelled from the spec: corner [m] of cell [(i, j, k)] (1-based);
    corners 0 to 3 lie on the top face, 4 to 7 on the base face, each
    face in the order [(i, j)], [(i+1, j)], [(i, j+1)], [(i+1, j+1)] of
    its pillars (section 4.3). *)
Definition cell_corner (nx ny : Z) (coord zcorn : list Q) (i j k m : Z)
  : list Q :=
  let c := (m mod 4)%Z in
  let kb := (k - 1 + m / 4)%Z in
  let z := dget zcorn (zcorn_pos nx ny kb ((j - 1) * nx + (i - 1)) c) in
  pillar_point nx coord (i - 1 + c mod 2) (j - 1 + c / 2) z.

(** Modelled from the spec: [corners(i, j, k)] (section 4.3): the eight
    corner points as 24 numbers [x1, y1, z1, ..., x8, y8, z8]; a cell
    outside the grid gives the undefined sentinel throughout. *)
Definition grd3d_corners (i j k nx ny nz : Z) (p_coord_v p_zcorn_v : carray Q)
           (pcorners : list Q) : native (list Q) :=
  match p_coord_v, p_zcorn_v with
  | Some coord, Some zcorn =>
      if long_enough coord (ncoord nx ny)
         && long_enough zcorn (nzcorn nx ny nz)
      then
        if ((1 <=? i) && (i <=? nx) && (1 <=? j) && (j <=? ny)
            && (1 <=? k) && (k <=? nz))%Z
        then Some (flat_map (cell_corner nx ny coord zcorn i j k) (range 8))
        else Some (map (fun _ => UNDEF) pcorners)
      else None
  | _, _ => None
  end.

End Cxtgeo.

(** ** Grids as an import leaves them *)

(** A grid of [nx] by [ny] columns on vertical pillars spaced [dx] and
    [dy] apart, with horizontal layer boundaries at the given depths and
    all cells active: buffers sized and filled as the importers do, and
    the active count as reported by the import routine. *)
Definition layered_grid (nx ny : Z) (dx dy : Q) (depths : list Q) : Grid :=
  let nz := (Z.of_nat (List.length depths) - 1)%Z in
  let ztop := hd 0%Q depths in
  let zbot := last depths 0%Q in
  let pillar pj pi :=
    let x := (inject_Z pi * dx)%Q in
    let y := (inject_Z pj * dy)%Q in
    [x; y; ztop; x; y; zbot] in
  let coord :=
    flat_map (fun pj => flat_map (pillar pj) (range (Z.to_nat (nx + 1))))
             (range (Z.to_nat (ny + 1))) in
  let zcorn :=
    flat_map (fun z => repeat z (Z.to_nat (nx * ny * 4))) depths in
  let ntot := (nx * ny * nz)%Z in
  {| _ncol := nx;
     _nrow := ny;
     _nlay := nz;
     _nsubs := 0;
     _p_coord_v := Some coord;
     _p_zcorn_v := Some zcorn;
     _p_actnum_v := Some (repeat 1 (Z.to_nat ntot));
     _nactive := ntot;
     _actnum_indices := None;
     _props := [];
     _undef := Cxtgeo.UNDEF;
     _undef_limit := Cxtgeo.UNDEF_LIMIT |}.

(** One cell, 100 by 100 wide and 2 thick. *)
Definition thin_cell_grid : Grid := layered_grid 1 1 100 100 [0%Q; 2%Q].

(** Two by two columns, two layers of thickness 10. *)
Definition box_grid : Grid := layered_grid 2 2 100 100 [0%Q; 10%Q; 20%Q].

(** Two by one columns, a layer of thickness 2 over one of thickness 8. *)
Definition two_layer_grid : Grid := layered_grid 2 1 100 100 [0%Q; 2%Q; 10%Q].

(** [two_layer_grid] after [inactivate_by_dz(5)] under the native routine
    above: the two thin cells of the upper layer are inactive. *)
Definition thinned_grid : Grid :=
  fst (inactivate_by_dz Cxtgeo.grd3d_inact_by_dz two_layer_grid (PyInt 5)).



(** ** Vocabulary of the statements *)

(** Linear position of cell [(i, j, k)] (1-based, as in the public
    index arguments) in the mask. *)
Definition cell_index (g : Grid) (i j k : Z) : Z :=
  (k - 1) * _nrow g * _ncol g + (j - 1) * _ncol g + (i - 1).

Definition in_range (g : Grid) (i j k : Z) : Prop :=
  1 <= i <= _ncol g /\ 1 <= j <= _nrow g /\ 1 <= k <= _nlay g.

(** The mask entry of a cell. *)
Definition mask_at (actnum : list Z) (pos : Z) : Z :=
  nth (Z.to_nat pos) actnum 0.

(** A property whose dimensions are those of the grid. *)
Definition dims_match (g : Grid) (p : GridProperty.t) : bool :=
  (GridProperty.ncol p =? _ncol g)
  && (GridProperty.nrow p =? _nrow g)
  && (GridProperty.nlay p =? _nlay g).

(** Mask entries are 0 or 1. *)
Definition binary_mask (actnum : list Z) : Prop :=
  Forall (fun a => a = 0 \/ a = 1) actnum.

(** A flip triple with an entry other than 1 and -1. *)
Definition bad_flip (flip : Z * Z * Z) : Prop :=
  let '(fx, fy, fz) := flip in
  (fx <> 1 /\ fx <> -1) \/ (fy <> 1 /\ fy <> -1) \/ (fz <> 1 /\ fz <> -1).

(** The grid holds a depth buffer and a mask buffer, each at least as
    long as the dimensions require. *)
Definition has_depths_and_mask (g : Grid) (zcorn : list Q) (actnum : list Z)
  : Prop :=
  _p_zcorn_v g = Some zcorn
  /\ _p_actnum_v g = Some actnum
  /\ Cxtgeo.nzcorn (_ncol g) (_nrow g) (_nlay g) <= Z.of_nat (List.length zcorn)
  /\ Cxtgeo.ntot (_ncol g) (_nrow g) (_nlay g) <= Z.of_nat (List.length actnum).

(** The grid holds all three buffers, each long enough. *)
Definition populated (g : Grid) (coord zcorn : list Q) (actnum : list Z)
  : Prop :=
  _p_coord_v g = Some coord
  /\ Cxtgeo.ncoord (_ncol g) (_nrow g) <= Z.of_nat (List.length coord)
  /\ has_depths_and_mask g zcorn actnum.

(** The grid that [reduce_to_one_layer] leaves under the native routine
    of the specification. *)
Definition reduced_grid (g : Grid) (zcorn : list Q) (actnum : list Z) : Grid :=
  let ibs := range (Z.to_nat (_ncol g * _nrow g)) in
  let reduced :=
    Cxtgeo.reduce_actnum (_ncol g) (_nrow g) (Z.to_nat (_nlay g)) actnum ibs in
  mkGrid (_ncol g) (_nrow g) 1 0 (_p_coord_v g)
         (Some (Cxtgeo.boundary_depths (_ncol g) (_nrow g) zcorn 0 ibs
                ++ Cxtgeo.boundary_depths (_ncol g) (_nrow g) zcorn
                     (_nlay g) ibs)%list)
         (Some (fst reduced)) (snd reduced) (_actnum_indices g) []
         (_undef g) (_undef_limit g).

(** The polygons of a vertex table. *)
Definition polygons_of (xc yc : list Q) : list (list (Q * Q)) :=
  Cxtgeo.split_polygons (combine xc yc) [].

(** A property object of the given dimensions. *)
Definition sample_property (name : string) (nx ny nz : Z) : GridProperty.t :=
  GridProperty.Build nx ny nz name false
    (FloatArray (repeat 0%Q (Z.to_nat (nx * ny * nz)))) None.

(** A closed square around column (1, 1) of [box_grid] followed by an
    open outline around column (2, 2). *)
Definition mixed_polygons : polyarg :=
  Polygons [0; 100; 100; 0; 0; 999; 100; 200; 200; 100; 999]%Q
           [0; 0; 100; 100; 0; 999; 100; 100; 200; 200; 999]%Q.

From Stdlib Require Import Ascii DecimalString.

(** ** Further exceptions *)

(** What else a method of the grid classes can raise besides the
    classes of [exn]: [OSError] carries [errno], the message and the
    file name; [SystemExit] is what [sys.exit] raises. *)
Inductive raised : Type :=
| Builtin (e : exn)
| OSError (errno : Z) (strerror filename : string)
| KeyError (msg : string)
| AttributeError (msg : string)
| SystemExit (code : Z).

Inductive ended (A : Type) : Type :=
| Returns (a : A)
| Raises (e : raised)
| Faults.

Arguments Returns {A} a.
Arguments Raises {A} e.
Arguments Faults {A}.

Definition widen {A : Type} (o : outcome A) : ended A :=
  match o with
  | Return a => Returns a
  | Raise e => Raises (Builtin e)
  | Fault => Faults
  end.

(** ** Strings and paths *)

(** [str.lower] on one ASCII character. *)
Definition ascii_lower (c : Ascii.ascii) : Ascii.ascii :=
  let n := Ascii.nat_of_ascii c in
  if (65 <=? n)%nat && (n <=? 90)%nat then Ascii.ascii_of_nat (n + 32) else c.

(** [s.lower()] (ASCII text). *)
Fixpoint lower (s : string) : string :=
  match s with
  | EmptyString => EmptyString
  | String c t => String (ascii_lower c) (lower t)
  end.

(** [s.replace(c, '')] for a one-character [c]. *)
Fixpoint remove_char (c : Ascii.ascii) (s : string) : string :=
  match s with
  | EmptyString => EmptyString
  | String x t =>
      if Ascii.eqb x c then remove_char c t else String x (remove_char c t)
  end.

(** [p.rfind(c)]: the last position of [c], or -1. *)
Fixpoint rfind_from (c : Ascii.ascii) (p : list Ascii.ascii) (i last : Z) : Z :=
  match p with
  | [] => last
  | x :: t => rfind_from c t (i + 1) (if Ascii.eqb x c then i else last)
  end.

Definition rfind (p : string) (c : Ascii.ascii) : Z :=
  rfind_from c (list_ascii_of_string p) 0 (-1).

(** The loop of [os.path.splitext] that skips leading dots of the file
    name: whether one of the [n] characters from [filenameIndex] on is
    not a dot. *)
Fixpoint has_non_dot (p : list Ascii.ascii) (filenameIndex : Z) (n : nat)
  : bool :=
  match n with
  | O => false
  | S n' =>
      if negb (Ascii.eqb (nth (Z.to_nat filenameIndex) p "."%char) ".")
      then true
      else has_non_dot p (filenameIndex + 1) n'
  end.

(** [os.path.splitext] with the POSIX separator: the extension starts
    at the last dot of the last path component, unless that component
    has only dots before it. *)
Definition splitext (p : string) : string * string :=
  let sepIndex := rfind p "/" in
  let dotIndex := rfind p "." in
  if (sepIndex <? dotIndex)
     && has_non_dot (list_ascii_of_string p) (sepIndex + 1)
                    (Z.to_nat (dotIndex - (sepIndex + 1)))
  then (substring 0 (Z.to_nat dotIndex) p,
        substring (Z.to_nat dotIndex)
                  (String.length p - Z.to_nat dotIndex) p)
  else (p, "").

(** [x in l] for a list of strings. *)
Definition str_in (x : string) (l : list string) : bool :=
  existsb (String.eqb x) l.

(** ** Import from file *)

Section FromFile.

(** [os.path.isfile]: the file system as the call sees it. *)
Variable isfile : string -> bool.

(** The private import methods that [from_file] hands over to. *)
Variable _import_roff : Grid -> string -> Grid * ended unit.
Variable _import_ecl_output : Grid -> string -> Z -> Grid * ended unit.
Variable _import_ecl_run :
  Grid -> string -> option (list string) -> option (list string) ->
  option (list Z) -> Grid * ended unit.
Variable _import_ecl_grdecl : Grid -> string -> Grid * ended unit.

(** [from_file]; it returns [self], that is the grid after the call. *)
Definition from_file (g : Grid) (gfile fformat : string)
           (initprops restartprops : option (list string))
           (restartdates : option (list Z)) : Grid * ended unit :=
  let fflist := ["egrid"; "grid"; "grdecl"; "roff"; "eclipserun"; "guess"] in
  if negb (str_in fformat fflist) then
    (g, Raises (Builtin (ValueError
       ("Invalid fformat: <" ++ fformat ++ ">, options are "
        ++ "['egrid', 'grid', 'grdecl', 'roff', 'eclipserun', 'guess']"))))
  else
    let '(froot, fext) := splitext gfile in
    let fext := remove_char "." fext in
    let fext := lower fext in
    let fformat :=
      if String.eqb fformat "guess" then
        let fflist := ["egrid"; "grid"; "grdecl"; "roff"; "eclipserun"] in
        if negb (String.eqb fext "") && str_in fext fflist then fext
        else fformat
      else fformat in
    let completed : outcome string :=
      if String.eqb fext "" then
        useext <-
          (if String.eqb fformat "egrid" then Return ".EGRID"
           else if String.eqb fformat "grid" then Return ".GRID"
           else if String.eqb fformat "grdecl" then Return ".grdecl"
           else if String.eqb fformat "roff" then Return ".roff"
           else if String.eqb fformat "guess" then
             Raise (ValueError "Cannot guess format without file extension")
           else Return "") ;;
        Return (froot ++ useext)
      else Return gfile in
    match completed with
    | Raise e => (g, Raises (Builtin e))
    | Fault => (g, Faults)
    | Return gfile =>
        let test_gfile :=
          if String.eqb fformat "eclipserun" then gfile ++ ".EGRID"
          else gfile in
        if negb (isfile test_gfile) then
          (g, Raises (OSError 2 "No such file or directory" gfile))
        else if String.eqb fformat "roff" then _import_roff g gfile
        else if String.eqb fformat "grid" then _import_ecl_output g gfile 0
        else if String.eqb fformat "egrid" then _import_ecl_output g gfile 2
        else if String.eqb fformat "eclipserun" then
          _import_ecl_run g gfile initprops restartprops restartdates
        else if String.eqb fformat "grdecl" then _import_ecl_grdecl g gfile
        else (g, Raises (SystemExit 1))
    end.

End FromFile.

(** ** The private import methods *)

Definition set_ncol (g : Grid) (n : Z) : Grid :=
  mkGrid n (_nrow g) (_nlay g) (_nsubs g) (_p_coord_v g) (_p_zcorn_v g)
         (_p_actnum_v g) (_nactive g) (_actnum_indices g) (_props g)
         (_undef g) (_undef_limit g).

Definition set_nrow (g : Grid) (n : Z) : Grid :=
  mkGrid (_ncol g) n (_nlay g) (_nsubs g) (_p_coord_v g) (_p_zcorn_v g)
         (_p_actnum_v g) (_nactive g) (_actnum_indices g) (_props g)
         (_undef g) (_undef_limit g).

(** [\s] of [re] and the separators of [str.split()], for ASCII text:
    tab, line feed, vertical tab, form feed, carriage return, the four
    separator controls and the space. *)
Definition is_space (c : Ascii.ascii) : bool :=
  let n := Ascii.nat_of_ascii c in
  ((9 <=? n)%nat && (n <=? 13)%nat)
  || ((28 <=? n)%nat && (n <=? 32)%nat).

(** [re.search(r'^\s+$', line)]: the line is not empty and holds white
    space only. *)
Definition blank_line (line : string) : bool :=
  negb (String.eqb line "") && forallb is_space (list_ascii_of_string line).

(** [re.search(r'^--', line)]. *)
Definition comment_line (line : string) : bool := String.prefix "--" line.

(** The lines copied to the temporary file. *)
Definition kept_line (line : string) : bool :=
  negb (comment_line line || blank_line line).

(** [line.split()]: the maximal runs of non-space characters. *)
Fixpoint split_from (l cur : list Ascii.ascii) : list string :=
  match l with
  | [] =>
      match cur with
      | [] => []
      | _ => [string_of_list_ascii (rev cur)]
      end
  | c :: t =>
      if is_space c then
        match cur with
        | [] => split_from t []
        | _ => string_of_list_ascii (rev cur) :: split_from t []
        end
      else split_from t (c :: cur)
  end.

Definition split (line : string) : list string :=
  split_from (list_ascii_of_string line) [].

(** The loop that looks for the keyword: once a line starting with
    [SPECGRID] has been seen, the next line is split and the loop ends. *)
Fixpoint find_specgrid (xfile : list string) (found : bool)
  : bool * list string :=
  match xfile with
  | [] => (found, [])
  | line :: rest =>
      if found then (true, split line)
      else if String.prefix "SPECGRID" line then find_specgrid rest true
      else find_specgrid rest false
  end.

(** [mylist[i]]. *)
Definition getitem (mylist : list string) (i : nat) : outcome string :=
  match nth_error mylist i with
  | Some x => Return x
  | None => Raise (IndexError "list index out of range")
  end.

Section ImportMethods.

(** The header scans return what they leave in the three dimension
    pointers; the readers return the active count and the content of
    the three buffers they fill. *)
Variable grd3d_scan_ecl_grid_hd : Z -> string -> native (Z * Z * Z).
Variable grd3d_scan_ecl_egrid_hd : Z -> string -> native (Z * Z * Z).
Variable grd3d_import_ecl_grid :
  Z -> Z -> list Q -> list Q -> list Z -> string ->
  native (Z * list Q * list Q * list Z).
Variable grd3d_import_ecl_egrid :
  Z -> Z -> Z -> Z -> list Q -> list Q -> list Z -> string ->
  native (Z * list Q * list Q * list Z).

(** The GRDECL reader is handed the temporary file, here its lines. *)
Variable grd3d_import_grdecl :
  Z -> Z -> Z -> list Q -> list Q -> list Z -> list string ->
  native (Z * list Q * list Q * list Z).

(** The lines of a text file, each with its line end, and Python's
    [int] on a string. *)
Variable readlines : string -> list string.
Variable int : string -> outcome Z.

Definition _import_ecl_output (g : Grid) (gfile : string) (gtype : Z)
  : Grid * ended unit :=
  if (gtype =? 1) || (gtype =? 3) then (g, Returns tt)
  else
    let scanned :=
      if gtype =? 0 then grd3d_scan_ecl_grid_hd gtype gfile
      else if gtype =? 2 then grd3d_scan_ecl_egrid_hd gtype gfile
      else Some (0, 0, 0) in
    match scanned with
    | None => (g, Faults)
    | Some (ptr_ncol, ptr_nrow, ptr_nlay) =>
        let g := set_ncol g ptr_ncol in
        let g := set_nrow g ptr_nrow in
        let g := set_nlay g ptr_nlay in
        let ntot := _ncol g * _nrow g * _nlay g in
        let ncoord := (_ncol g + 1) * (_nrow g + 1) * 2 * 3 in
        let nzcorn := _ncol g * _nrow g * (_nlay g + 1) * 4 in
        let g := set_p_coord_v g (Some (new_doublearray ncoord)) in
        let g := set_p_zcorn_v g (Some (new_doublearray nzcorn)) in
        let g := set_p_actnum_v g (Some (new_intarray ntot)) in
        let imported :=
          if gtype =? 0 then
            grd3d_import_ecl_grid 0 ntot (new_doublearray ncoord)
              (new_doublearray nzcorn) (new_intarray ntot) gfile
          else if gtype =? 2 then
            grd3d_import_ecl_egrid 0 (_ncol g) (_nrow g) (_nlay g)
              (new_doublearray ncoord) (new_doublearray nzcorn)
              (new_intarray ntot) gfile
          else Some (0, new_doublearray ncoord, new_doublearray nzcorn,
                     new_intarray ntot) in
        match imported with
        | None => (g, Faults)
        | Some (nact, coord, zcorn, actnum) =>
            let g := set_p_coord_v g (Some coord) in
            let g := set_p_zcorn_v g (Some zcorn) in
            let g := set_p_actnum_v g (Some actnum) in
            let g := set_nactive g nact in
            let g := set_nsubs g 0 in
            (g, Returns tt)
        end
    end.

Definition _import_ecl_grdecl (g : Grid) (gfile : string)
  : Grid * ended unit :=
  let tmpfile := filter kept_line (readlines gfile) in
  let '(found, mylist) := find_specgrid tmpfile false in
  if negb found then (g, Returns tt)
  else
    let dims :=
      a <- getitem mylist 0 ;; ncol <- int a ;;
      b <- getitem mylist 1 ;; nrow <- int b ;;
      c <- getitem mylist 2 ;; nlay <- int c ;;
      Return (ncol, nrow, nlay) in
    match dims with
    | Raise e => (g, Raises (Builtin e))
    | Fault => (g, Faults)
    | Return (ncol, nrow, nlay) =>
        let g := set_ncol g ncol in
        let g := set_nrow g nrow in
        let g := set_nlay g nlay in
        let ntot := _ncol g * _nrow g * _nlay g in
        let ncoord := (_ncol g + 1) * (_nrow g + 1) * 2 * 3 in
        let nzcorn := _ncol g * _nrow g * (_nlay g + 1) * 4 in
        let g := set_p_coord_v g (Some (new_doublearray ncoord)) in
        let g := set_p_zcorn_v g (Some (new_doublearray nzcorn)) in
        let g := set_p_actnum_v g (Some (new_intarray ntot)) in
        match grd3d_import_grdecl (_ncol g) (_nrow g) (_nlay g)
                (new_doublearray ncoord) (new_doublearray nzcorn)
                (new_intarray ntot) tmpfile with
        | None => (g, Faults)
        | Some (nact, coord, zcorn, actnum) =>
            let g := set_p_coord_v g (Some coord) in
            let g := set_p_zcorn_v g (Some zcorn) in
            let g := set_p_actnum_v g (Some actnum) in
            let g := set_nactive g nact in
            let g := set_nsubs g 0 in
            (g, Returns tt)
        end
    end.

End ImportMethods.

(** ** Dictionaries *)

(** A Python [dict] as the list of its items in insertion order;
    assigning to a key that is present replaces its value in place. *)
Fixpoint dict_set {K V : Type} (eqb : K -> K -> bool) (d : list (K * V))
         (k : K) (v : V) : list (K * V) :=
  match d with
  | [] => [(k, v)]
  | (k', v') :: rest =>
      if eqb k' k then (k', v) :: rest
      else (k', v') :: dict_set eqb rest k v
  end.

Fixpoint dict_get {K V : Type} (eqb : K -> K -> bool) (d : list (K * V))
         (k : K) : option V :=
  match d with
  | [] => None
  | (k', v') :: rest => if eqb k' k then Some v' else dict_get eqb rest k
  end.

(** ** Index properties *)

(** [str(i)] for an integer. *)
Definition str (i : Z) : string := NilZero.string_of_int (Z.to_int i).

(** [range(a, b)]. *)
Definition range_between (a b : Z) : list Z :=
  map (fun n => a + Z.of_nat n) (seq 0 (Z.to_nat (b - a))).

(** [numpy.indices((ncol, nrow, nlay))[axis].flatten(order='F')]: the
    [axis] component of every index triple, the first index running
    fastest. *)
Definition np_indices_flat (ncol nrow nlay : Z) (axis : nat) : list Z :=
  flat_map
    (fun k =>
       flat_map
         (fun j =>
            map (fun i => match axis with O => i | S O => j | _ => k end)
                (range (Z.to_nat ncol)))
         (range (Z.to_nat nrow)))
    (range (Z.to_nat nlay)).

(** [a.min()] and [a.max()] of an integer array. *)
Definition np_min (a : list Z) : outcome Z :=
  match a with
  | [] => Raise (ValueError "zero-size array to reduction operation minimum which has no identity")
  | x :: t => Return (fold_left Z.min t x)
  end.

Definition np_max (a : list Z) : outcome Z :=
  match a with
  | [] => Raise (ValueError "zero-size array to reduction operation maximum which has no identity")
  | x :: t => Return (fold_left Z.max t x)
  end.

(** A property object together with the code table and code count
    that [get_indices] assigns to it after construction. *)
Record coded_property : Type := mkCoded {
  property : GridProperty.t;
  _codes : list (Z * string);
  _ncodes : Z
}.

(** The inner loop of [get_indices] over the codes. *)
Definition index_codes (lo hi : Z) : list (Z * string) * Z :=
  fold_left
    (fun acc i => (dict_set Z.eqb (fst acc) i (str i), snd acc + 1))
    (range_between lo hi) ([], 0).

(** One round of the loop over the three axes.  The result of
    [index.astype] is dropped, so the call has no effect; the
    constructor of [GridProperty], which is not among the sources, is
    taken to store its arguments as they are given. *)
Definition index_property (g : Grid) (axis : nat) (name : string)
  : outcome coded_property :=
  if (ncol g <? 0) || (nrow g <? 0) || (nlay g <? 0)
  then Raise (ValueError "negative dimensions are not allowed")
  else
    let index := np_indices_flat (ncol g) (nrow g) (nlay g) axis in
    let index := map (fun v => v + 1) index in
    let idx :=
      GridProperty.Build (_ncol g) (_nrow g) (_nlay g) name true
                         (IntArray index) None in
    lo <- np_min index ;;
    hi <- np_max index ;;
    let '(codes, ncodes) := index_codes lo (hi + 1) in
    Return (mkCoded idx codes ncodes).

Definition get_indices (g : Grid) (names : string * string * string)
  : outcome (list coded_property) :=
  let '(name0, name1, name2) := names in
  i_index <- index_property g 0 name0 ;;
  j_index <- index_property g 1 name1 ;;
  k_index <- index_property g 2 name2 ;;
  Return [i_index; j_index; k_index].

(** ** Grid geometrics *)

(** The two shapes [get_geometrics] returns. *)
Inductive geometrics : Type :=
| AsList (glist : list pyval)
| AsDict (gdict : list (string * pyval)).

Definition gkeys : list string :=
  ["xori"; "yori"; "zori"; "xmin"; "xmax"; "ymin"; "ymax";
   "zmin"; "zmax"; "avg_rotation"; "avg_dx"; "avg_dy";
   "avg_dz"; "grid_regularity_flag"].

(** [enumerate(l)]. *)
Definition enumerate {A : Type} (l : list A) : list (nat * A) :=
  combine (seq 0 (List.length l)) l.

Section Geometrics.

(** The routine reads the grid buffers and returns its quality flag
    with the values it leaves behind the thirteen double pointers. *)
Variable grd3d_geometrics :
  Z -> Z -> Z -> carray Q -> carray Q -> carray Z -> Z -> Z ->
  native (Z * list Q).

Definition get_geometrics (g : Grid) (allcells cellcenter return_dict : bool)
  : outcome geometrics :=
  let option1 := if allcells then 0 else 1 in
  let option2 := if negb cellcenter then 0 else 1 in
  r <- of_native
         (grd3d_geometrics (_ncol g) (_nrow g) (_nlay g)
                           (_p_coord_v g) (_p_zcorn_v g) (_p_actnum_v g)
                           option1 option2) ;;
  let '(quality, ptr_x) := r in
  let glist :=
    (map (fun i => PyFloat (nth i ptr_x 0%Q)) (seq 0 13)
     ++ [PyInt quality])%list in
  if return_dict then
    let gdict :=
      fold_left
        (fun gdict ik =>
           dict_set String.eqb gdict (snd ik) (nth (fst ik) glist PyNone))
        (enumerate gkeys) [] in
    Return (AsDict gdict)
  else Return (AsList glist).

End Geometrics.

(** ** The property collection *)

Module GridProperties.

(** A [GridProperty] instance as the collection sees it: its identity,
    the attributes of [GridProperty.t] and the [date] attribute that
    [append_props] reads.  [grid_property.py] is not among the sources;
    the class is taken to define no comparison of its own, so that
    [prop in self._props] is Python's default, identity. *)
Record pobject : Type := mkObject {
  oid : Z;
  fields : GridProperty.t;
  date : pyval
}.

Definition name (o : pobject) : string := GridProperty.name (fields o).

(** An entry of the list handed to [append_props]: a [GridProperty]
    instance or some other object. *)
Inductive element : Type :=
| Property (o : pobject)
| Other.

(** What [_names] can hold: the setter stores its argument as it is, a
    list of names or a string. *)
Inductive names_value : Type :=
| NameList (l : list string)
| NameStr (s : string).

Record t : Type := mk {
  _ncol : Z;
  _nrow : Z;
  _nlay : Z;
  _props : list pobject;
  _names : names_value;
  _dates : list pyval
}.

Definition __init__ (ncol nrow nlay : Z) : t :=
  mk ncol nrow nlay [] (NameList []) [].

(** [len(v)]. *)
Definition names_len (v : names_value) : nat :=
  match v with
  | NameList l => List.length l
  | NameStr s => String.length s
  end.

(** [len(set(v))]. *)
Definition names_distinct (v : names_value) : nat :=
  match v with
  | NameList l => List.length (nodup string_dec l)
  | NameStr s => List.length (nodup Ascii.ascii_dec (list_ascii_of_string s))
  end.

(** [self._names.append(x)]. *)
Definition names_append (v : names_value) (x : string) : ended names_value :=
  match v with
  | NameList l => Returns (NameList (l ++ [x])%list)
  | NameStr _ =>
      Raises (AttributeError "'str' object has no attribute 'append'")
  end.

Definition set_names (s : t) (v : names_value) : t :=
  mk (_ncol s) (_nrow s) (_nlay s) (_props s) v (_dates s).

(** The [names] property. *)
Definition names (s : t) : names_value := _names s.

(** The [names] setter.  In its first branch the [return] sits inside
    the loop, so the loop body runs for the first property only. *)
Definition names_setter (s : t) (nameslist : names_value) : t * ended unit :=
  match (if (names_len nameslist =? 0)%nat then _props s else []) with
  | prop :: _ =>
      match names_append (_names s) (name prop) with
      | Returns v => (set_names s v, Returns tt)
      | Raises e => (s, Raises e)
      | Faults => (s, Faults)
      end
  | [] =>
      if negb (names_len nameslist =? List.length (_props s))%nat then
        (s, Raises (Builtin (ValueError
              "Number of names does not match number of properties")))
      else if (names_distinct nameslist <? names_len nameslist)%nat then
        (s, Raises (Builtin (ValueError
              "List of names contains duplicates; names must be unique")))
      else (set_names s nameslist, Returns tt)
  end.

(** The [props] and [dates] properties: [None] when empty. *)
Definition props (s : t) : option (list pobject) :=
  match _props s with
  | [] => None
  | l => Some l
  end.

Definition dates (s : t) : option (list pyval) :=
  match _dates s with
  | [] => None
  | l => Some l
  end.

Definition get_prop_by_name (s : t) (name : string) (raiseserror : bool)
  : ended (option pobject) :=
  match find (fun prop => String.eqb (GridProperties.name prop) name)
             (_props s) with
  | Some prop => Returns (Some prop)
  | None =>
      if raiseserror then
        Raises (Builtin (ValueError
                  ("Cannot find property with name <" ++ name ++ ">")))
      else Returns None
  end.

Definition __getitem__ (s : t) (name : string) : ended pobject :=
  match get_prop_by_name s name false with
  | Returns (Some prop) => Returns prop
  | Returns None => Raises (KeyError ("Key " ++ name ++ " does not exist"))
  | Raises e => Raises e
  | Faults => Faults
  end.

(** [prop in self._props]. *)
Definition present (prop : pobject) (l : list pobject) : bool :=
  existsb (fun o => oid o =? oid prop) l.

Fixpoint append_props (s : t) (proplist : list element) : t * ended unit :=
  match proplist with
  | [] => (s, Returns tt)
  | Property prop :: rest =>
      if negb (present prop (_props s)) then
        let s := mk (_ncol s) (_nrow s) (_nlay s)
                    (_props s ++ [prop])%list (_names s) (_dates s) in
        match names_append (_names s) (name prop) with
        | Returns v =>
            let s := set_names s v in
            let s := mk (_ncol s) (_nrow s) (_nlay s) (_props s) (_names s)
                        (_dates s ++ [date prop])%list in
            let s := mk (GridProperty.ncol (fields prop))
                        (GridProperty.nrow (fields prop))
                        (GridProperty.nlay (fields prop))
                        (_props s) (_names s) (_dates s) in
            append_props s rest
        | Raises e => (s, Raises e)
        | Faults => (s, Faults)
        end
      else append_props s rest
  | Other :: _ =>
      (s, Raises (Builtin (ValueError
            "Input property is not a valid GridProperty object")))
  end.

End GridProperties.

(** ** Vocabulary of the further statements *)

(** The extension [from_file] works with: what [splitext] gives, with
    dots removed and in lower case. *)
Definition extension (gfile : string) : string :=
  lower (remove_char "." (snd (splitext gfile))).

(** The formats that name an importer. *)
Definition import_formats : list string :=
  ["egrid"; "grid"; "grdecl"; "roff"; "eclipserun"].

(** A directory with four files. *)
Definition sample_isfile (f : string) : bool :=
  str_in f ["data/reek.roff"; "data/REEK.EGRID"; "data/notes.txt";
            "data/case.grdecl"].

(** Stand-ins for the importers that only leave a trace of which one
    ran: they store a number in [_nsubs]. *)
Definition traced_import (n : Z) (g : Grid) (gfile : string)
  : Grid * ended unit :=
  (set_nsubs g n, Returns tt).

Definition traced_from_file (g : Grid) (gfile fformat : string)
  : Grid * ended unit :=
  from_file sample_isfile (traced_import 1)
            (fun g f gtype => traced_import (10 + gtype) g f)
            (fun g f _ _ _ => traced_import 3 g f)
            (traced_import 4) g gfile fformat None None None.

(** [int] on a plain decimal literal with optional minus sign; anything
    else is refused here. *)
Definition sample_int (s : string) : outcome Z :=
  match NilZero.int_of_string s with
  | Some d => Return (Z.of_int d)
  | None => Raise (ValueError ("invalid literal for int() with base 10: '"
                               ++ s ++ "'"))
  end.

(** A GRDECL file with comments and an empty line around the keyword,
    and one where the keyword is commented out. *)
Definition sample_grdecl : list string :=
  ["-- exported grid" ++ String "010" "";
   String "010" "";
   "SPECGRID" ++ String "010" "";
   "-- NX NY NZ" ++ String "010" "";
   "   " ++ String "010" "";
   "  2 1 2 1 F /" ++ String "010" "";
   "COORD" ++ String "010" ""].

Definition sample_readlines (f : string) : list string :=
  if String.eqb f "data/case.grdecl" then sample_grdecl
  else if String.eqb f "data/nokey.grdecl" then
    ["--SPECGRID" ++ String "010" ""; " SPECGRID" ++ String "010" "";
     "  2 1 2 1 F /" ++ String "010" ""]
  else if String.eqb f "data/cut.grdecl" then
    ["SPECGRID" ++ String "010" ""; "-- end" ++ String "010" ""]
  else [].

(** Stand-ins for the readers: every cell active, buffers as allocated. *)
Definition sample_grdecl_reader (nx ny nz : Z) (coord zcorn : list Q)
           (actnum : list Z) (tmpfile : list string)
  : native (Z * list Q * list Q * list Z) :=
  Some (nx * ny * nz, coord, zcorn, map (fun _ => 1) actnum).

Definition sample_scan (gtype : Z) (gfile : string) : native (Z * Z * Z) :=
  Some (3, 2, 1).

Definition sample_grid_reader (iflag ntot : Z) (coord zcorn : list Q)
           (actnum : list Z) (gfile : string)
  : native (Z * list Q * list Q * list Z) :=
  Some (ntot, coord, zcorn, map (fun _ => 1) actnum).

Definition sample_egrid_reader (iflag nx ny nz : Z) (coord zcorn : list Q)
           (actnum : list Z) (gfile : string)
  : native (Z * list Q * list Q * list Z) :=
  Some (nx * ny * nz, coord, zcorn, map (fun _ => 1) actnum).

(** The grid dimension along an axis of the index arrays. *)
Definition axis_dim (g : Grid) (axis : nat) : Z :=
  match axis with
  | O => _ncol g
  | S O => _nrow g
  | _ => _nlay g
  end.

(** The value array of the index property of an axis. *)
Definition index_values (g : Grid) (axis : nat) : list Z :=
  map (fun v => v + 1)
      (np_indices_flat (ncol g) (nrow g) (nlay g) axis).

(** The code table that labels [1..n] with decimal numerals. *)
Definition numeral_codes (n : Z) : list (Z * string) :=
  map (fun v => (v, str v)) (range_between 1 (n + 1)).

(** A stand-in for the geometrics routine: thirteen recognisable
    numbers and quality flag 1. *)
Definition sample_geometrics (nx ny nz : Z) (coord zcorn : carray Q)
           (actnum : carray Z) (option1 option2 : Z) : native (Z * list Q) :=
  Some (1, map (fun n => inject_Z (Z.of_nat n)) (seq 100 13)).

(** The name and date lists of a collection mirror its property list:
    entry by entry they are the name and the date of the property at
    the same position. *)
Definition mirrors (s : GridProperties.t) : Prop :=
  GridProperties._names s
  = GridProperties.NameList
      (map GridProperties.name (GridProperties._props s))
  /\ GridProperties._dates s
     = map GridProperties.date (GridProperties._props s).

(** No instance occurs twice in the collection. *)
Definition distinct_instances (s : GridProperties.t) : Prop :=
  NoDup (map GridProperties.oid (GridProperties._props s)).

(** Four property instances; the last bears the name of the first. *)
Definition poro : GridProperties.pobject :=
  GridProperties.mkObject 1 (sample_property "PORO" 2 2 2) PyNone.
Definition permx : GridProperties.pobject :=
  GridProperties.mkObject 2 (sample_property "PERMX" 2 2 2) PyNone.
Definition swat : GridProperties.pobject :=
  GridProperties.mkObject 3 (sample_property "SWAT" 4 3 5) (PyInt 20000101).
Definition poro_again : GridProperties.pobject :=
  GridProperties.mkObject 4 (sample_property "PORO" 2 2 2) PyNone.

(** A collection holding the first two. *)
Definition two_props : GridProperties.t :=
  fst (GridProperties.append_props
         (GridProperties.__init__ 4 3 5)
         [GridProperties.Property poro; GridProperties.Property permx]).

(** * Properties *)

(** ** Attribute updates *)

Lemma set_same_buffers (g : Grid) :
  set_p_zcorn_v (set_p_coord_v g (_p_coord_v g)) (_p_zcorn_v g) = g.
Proof. destruct g; reflexivity. Qed.

(** ** Construction *)

(** C9 (as amended).  A grid constructed without arguments has the
    dimensions 4, 3 and 5, hence 60 cells in total, but holds no
    coordinate, depth or mask buffer and no attached property, and its
    active-cell count reads the placeholder -999. *)
Theorem default_grid_is_empty (UNDEF UNDEF_LIMIT : Q) :
  let g := __init__ UNDEF UNDEF_LIMIT in
  ncol g = 4 /\ nrow g = 3 /\ nlay g = 5 /\ ntotal g = 60
  /\ _p_coord_v g = None /\ _p_zcorn_v g = None /\ _p_actnum_v g = None
  /\ props g = [] /\ _actnum_indices g = None
  /\ nactive g = -999.
Proof. cbv zeta; repeat split; reflexivity. Qed.

(** C9 (as stated) fails: the active-cell count of the default grid is
    not 60. *)
Lemma default_grid_nactive_not_60 :
  nactive (__init__ Cxtgeo.UNDEF Cxtgeo.UNDEF_LIMIT) <> 60.
Proof. unfold nactive; simpl; discriminate. Qed.

(** The default grid has no mask to read: asking for it faults. *)
Lemma default_grid_has_no_mask :
  get_actnum (__init__ Cxtgeo.UNDEF Cxtgeo.UNDEF_LIMIT) "ACTNUM" = Fault.
Proof. reflexivity. Qed.

(** ** The [props] setter *)

Lemma props_check_spec (g : Grid) (list : list GridProperty.t) :
  (forallb (dims_match g) list = true /\ props_check g list = Return tt)
  \/ (forallb (dims_match g) list = false
      /\ exists msg, props_check g list = Raise (IndexError msg)).
Proof.
  induction list as [|l rest IH]; simpl.
  - left; split; reflexivity.
  - unfold dims_match at 1 3.
    destruct (GridProperty.ncol l =? _ncol g); simpl;
      [| right; split; [reflexivity | eexists; reflexivity]].
    destruct (GridProperty.nrow l =? _nrow g); simpl;
      [| right; split; [reflexivity | eexists; reflexivity]].
    destruct (GridProperty.nlay l =? _nlay g); simpl;
      [| right; split; [reflexivity | eexists; reflexivity]].
    exact IH.
Qed.

(** C10.  Setting [props] raises [IndexError] whenever some property of
    the supplied list differs from the grid in [ncol], [nrow] or [nlay],
    and then leaves the grid, with its attached list, as it was; when no
    property differs the list is attached.  So whenever the setter
    returns, the attached list is the supplied one and each of its
    properties has the grid's dimensions. *)
Theorem props_setter_checks_dimensions (g : Grid) (list : list GridProperty.t) :
  (forallb (dims_match g) list = false ->
   exists msg, props_setter g list = (g, Raise (IndexError msg)))
  /\ (forallb (dims_match g) list = true ->
      props_setter g list = (set_props g list, Return tt))
  /\ (forall g', props_setter g list = (g', Return tt) ->
      props g' = list
      /\ Forall (fun p => GridProperty.ncol p = ncol g'
                          /\ GridProperty.nrow p = nrow g'
                          /\ GridProperty.nlay p = nlay g') (props g')).
Proof.
  unfold props_setter.
  destruct (props_check_spec g list) as [[Hall Hc] | [Hnot [msg Hc]]];
    rewrite Hc.
  - split; [rewrite Hall; discriminate |].
    split; [reflexivity |].
    intros g' Heq; inversion Heq; subst g'; clear Heq.
    split; [reflexivity |].
    unfold props, ncol, nrow, nlay; simpl.
    rewrite forallb_forall in Hall.
    apply Forall_forall; intros p Hp.
    specialize (Hall p Hp); unfold dims_match in Hall.
    apply andb_prop in Hall; destruct Hall as [Hall Hz].
    apply andb_prop in Hall; destruct Hall as [Hx Hy].
    rewrite Z.eqb_eq in Hx, Hy, Hz; auto.
  - split; [intros _; exists msg; reflexivity |].
    split; [rewrite Hnot; discriminate | discriminate].
Qed.

Lemma props_setter_checks_dimensions_witness :
  (forallb (dims_match box_grid)
           [sample_property "PORO" 2 2 2; sample_property "PERM" 2 2 3] = false
   /\ exists msg,
       props_setter box_grid
         [sample_property "PORO" 2 2 2; sample_property "PERM" 2 2 3]
       = (box_grid, Raise (IndexError msg)))
  /\ (forallb (dims_match box_grid)
              [sample_property "PORO" 2 2 2; sample_property "PERM" 2 2 2] = true
      /\ props_setter box_grid
           [sample_property "PORO" 2 2 2; sample_property "PERM" 2 2 2]
         = (set_props box_grid
              [sample_property "PORO" 2 2 2; sample_property "PERM" 2 2 2],
            Return tt)).
Proof.
  split.
  - split; [reflexivity |].
    apply (props_setter_checks_dimensions box_grid
             [sample_property "PORO" 2 2 2; sample_property "PERM" 2 2 3]).
    reflexivity.
  - split; [reflexivity |].
    apply (props_setter_checks_dimensions box_grid
             [sample_property "PORO" 2 2 2; sample_property "PERM" 2 2 2]).
    reflexivity.
Defined.

(** The message names the first property that does not fit. *)
Example props_setter_names_first_mismatch :
  props_setter box_grid
    [sample_property "PORO" 2 2 2; sample_property "PERM" 2 2 3;
     sample_property "SWAT" 9 9 9]
  = (box_grid,
     Raise (IndexError "Property NX NY NZ <PERM> does not match grid!")).
Proof. reflexivity. Qed.

(** ** Thickness threshold *)

Lemma round_half_even_small (a : Z) :
  0 <= a < 2 ^ 53 -> round_half_even a = a.
Proof.
  intros [H0 H53]; unfold round_half_even, DBL_MANT_DIG.
  assert (He : Z.max 0 (Z.log2 a + 1 - 53) = 0).
  { destruct (Z.eq_dec a 0) as [-> | Hne]; [reflexivity |].
    assert (Z.log2 a < 53) by (apply Z.log2_lt_pow2; lia).
    lia. }
  rewrite He; cbn [Z.ltb Z.compare andb].
  change (2 ^ 0) with 1; rewrite Z.div_1_r; lia.
Qed.

(** The shape of the rounding of an integer of more than 53 bits:
    quotient and remainder by the dropped power of two, and the
    direction chosen. *)
Lemma round_half_even_large (a : Z) :
  2 ^ 53 <= a ->
  exists P q r u,
    P = 2 ^ (Z.log2 a - 52) /\ 0 < P
    /\ 2 ^ Z.log2 a = 2 ^ 52 * P
    /\ a = q * P + r /\ 0 <= r < P /\ 2 ^ 52 <= q < 2 ^ 53
    /\ round_half_even a = (q + u) * P
    /\ ((u = 0 /\ (2 * r < P \/ (2 * r = P /\ Z.odd q = false)))
        \/ (u = 1 /\ (P < 2 * r \/ (2 * r = P /\ Z.odd q = true)))).
Proof.
  intros Hbig.
  assert (H53 : 0 < 2 ^ 53) by reflexivity.
  assert (Hpos : 0 < a) by lia.
  assert (Hn : 53 <= Z.log2 a) by (apply Z.log2_le_pow2; lia).
  destruct (Z.log2_spec a Hpos) as [Hlo Hhi].
  set (n := Z.log2 a) in *.
  set (P := 2 ^ (n - 52)).
  assert (HP : 0 < P) by (apply Z.pow_pos_nonneg; lia).
  assert (Hn2 : 2 ^ n = 2 ^ 52 * P).
  { unfold P; rewrite <- Z.pow_add_r by lia; f_equal; lia. }
  assert (Hn3 : 2 ^ Z.succ n = 2 ^ 53 * P).
  { unfold P; rewrite <- Z.pow_add_r by lia; f_equal; lia. }
  assert (Hhalf : P = 2 * 2 ^ (n - 52 - 1)).
  { unfold P; rewrite <- Z.pow_succ_r by lia; f_equal; lia. }
  exists P, (a / P), (a mod P).
  unfold round_half_even, DBL_MANT_DIG; fold n.
  replace (Z.max 0 (n + 1 - 53)) with (n - 52) by lia.
  fold P.
  assert (Hdm : a = a / P * P + a mod P)
    by (rewrite Z.mul_comm; apply Z.div_mod; lia).
  assert (Hr : 0 <= a mod P < P) by (apply Z.mod_pos_bound; exact HP).
  assert (Hq : 2 ^ 52 <= a / P < 2 ^ 53).
  { split.
    - apply Z.div_le_lower_bound; [exact HP | lia].
    - apply Z.div_lt_upper_bound; [exact HP | lia]. }
  set (half := 2 ^ (n - 52 - 1)) in *.
  assert (Hlt : (0 <? n - 52) = true) by (apply Z.ltb_lt; lia).
  rewrite Hlt; cbn [andb].
  assert (Hzero : forall x, (x + 0) * P = x * P) by (intros x; ring).
  destruct (Z.ltb_spec half (a mod P)) as [Hup | Hdown]; cbn [orb].
  - exists 1; repeat split; lia.
  - destruct (Z.eqb_spec (a mod P) half) as [Htie | Hno]; cbn [andb].
    + destruct (Z.odd (a / P)) eqn:Hodd;
        [exists 1 | exists 0]; repeat split; auto; lia.
    + exists 0; repeat split; auto; lia.
Qed.

(** The relative error of the rounding is at most 2^-53. *)
Lemma round_half_even_error (a : Z) :
  0 <= a -> Z.abs (round_half_even a - a) * 2 ^ 53 <= a.
Proof.
  intros H0.
  destruct (Z.lt_ge_cases a (2 ^ 53)) as [Hsmall | Hbig].
  - rewrite round_half_even_small by lia.
    rewrite Z.sub_diag; cbn [Z.abs Z.mul]; exact H0.
  - destruct (round_half_even_large a Hbig)
      as (P & q & r & u & _ & HP & _ & Ha & Hr & Hq & Hround & Hu).
    rewrite Hround.
    assert (Hqp : 2 ^ 52 * P <= q * P)
      by (apply Z.mul_le_mono_nonneg_r; lia).
    change (2 ^ 52) with 4503599627370496 in *.
    change (2 ^ 53) with 9007199254740992 in *.
    destruct Hu as [[-> Hu] | [-> Hu]].
    + replace ((q + 0) * P - a) with (- r) by lia.
      rewrite Z.abs_opp, Z.abs_eq by lia. lia.
    + replace ((q + 1) * P - a) with (P - r) by lia.
      rewrite Z.abs_eq by lia. lia.
Qed.

(** The rounding leaves the range of a [double] from
    [2^1024 - 2^970] on, and no earlier. *)
Lemma round_half_even_overflow (a : Z) :
  0 <= a ->
  (2 ^ 1024 <= round_half_even a <-> 2 ^ 1024 - 2 ^ 970 <= a).
Proof.
  intros H0.
  destruct (Z.lt_ge_cases a (2 ^ 53)) as [Hsmall | Hbig].
  - rewrite round_half_even_small by lia.
    assert (2 ^ 53 < 2 ^ 1024 - 2 ^ 970) by reflexivity.
    assert (2 ^ 53 < 2 ^ 1024) by reflexivity.
    lia.
  - destruct (round_half_even_large a Hbig)
      as (P & q & r & u & HPdef & HP & Hn & Ha & Hr & Hq & Hround & Hu).
    assert (Hpos : 0 < a) by (assert (0 < 2 ^ 53) by reflexivity; lia).
    destruct (Z.log2_spec a Hpos) as [Hlo Hhi].
    assert (Hn3 : 2 ^ Z.succ (Z.log2 a) = 2 ^ 53 * P).
    { rewrite Z.pow_succ_r by apply Z.log2_nonneg.
      rewrite Hn. change (2 ^ 53) with (2 * 2 ^ 52). ring. }
    rewrite Hround.
    assert (Hqp : 2 ^ 52 * P <= q * P)
      by (apply Z.mul_le_mono_nonneg_r; lia).
    assert (Hqp' : (q + 1) * P <= 2 ^ 53 * P)
      by (apply Z.mul_le_mono_nonneg_r; lia).
    assert (Hu01 : (q + u) * P = q * P + u * P) by ring.
    destruct (Z.lt_trichotomy (Z.log2 a) 1023) as [Hlow | [Hmid | Hhigh]].
    + assert (Hle : 2 ^ Z.succ (Z.log2 a) <= 2 ^ 1023)
        by (apply Z.pow_le_mono_r; lia).
      assert (2 ^ 1023 < 2 ^ 1024 - 2 ^ 970) by reflexivity.
      assert (2 ^ 1023 < 2 ^ 1024) by reflexivity.
      assert ((q + u) * P <= (q + 1) * P)
        by (apply Z.mul_le_mono_nonneg_r; destruct Hu as [[-> _] | [-> _]]; lia).
      lia.
    + rewrite Hmid in HPdef; change (1023 - 52) with 971 in HPdef.
      assert (H1024 : 2 ^ 1024 = 2 ^ 53 * P) by (rewrite HPdef; reflexivity).
      assert (H970 : 2 * 2 ^ 970 = P) by (rewrite HPdef; reflexivity).
      assert (Hq53 : q * P <= (2 ^ 53 - 1) * P)
        by (apply Z.mul_le_mono_nonneg_r; lia).
      rewrite H1024.
      set (h := 2 ^ 970) in *.
      set (X := q * P) in *.
      replace ((2 ^ 53 - 1) * P) with (2 ^ 53 * P - P) in Hq53 by ring.
      set (T := 2 ^ 53 * P) in *.
      rewrite Hu01.
      destruct Hu as [[-> Hu] | [-> Hu]]; split; intros Hgoal; try lia.
      exfalso.
      destruct Hu as [Hu | [Htie Heven]]; [lia |].
      assert (Hq' : q = 2 ^ 53 - 1).
      { apply (Z.mul_reg_r _ _ P); [lia |].
        fold X; replace ((2 ^ 53 - 1) * P) with (T - P) by (unfold T; ring).
        lia. }
      rewrite Hq' in Heven; discriminate.
    + assert (Hle : 2 ^ 1024 <= 2 ^ Z.log2 a)
        by (apply Z.pow_le_mono_r; lia).
      assert (0 < 2 ^ 970) by reflexivity.
      assert (0 <= u * P) by (destruct Hu as [[-> _] | [-> _]]; lia).
      lia.
Qed.

(** [float] of an integer overflows from [2^1024 - 2^970] on, and no
    earlier. *)
Lemma double_of_int_overflow (z : Z) :
  double_of_int z = None <-> 2 ^ 1024 - 2 ^ 970 <= Z.abs z.
Proof.
  unfold double_of_int, DBL_MAX_EXP.
  rewrite <- (round_half_even_overflow (Z.abs z) (Z.abs_nonneg z)).
  destruct (Z.leb_spec (2 ^ 1024) (round_half_even (Z.abs z)));
    split; intros H'; try reflexivity; try discriminate; try assumption; lia.
Qed.

(** Otherwise the result is an integer within a relative distance of
    [2^-53] of the argument, so the argument itself below [2^53]. *)
Lemma double_of_int_nearest (z : Z) (q : Q) :
  double_of_int z = Some q ->
  exists m, q = inject_Z m /\ Z.abs (m - z) * 2 ^ 53 <= Z.abs z.
Proof.
  unfold double_of_int.
  destruct (2 ^ DBL_MAX_EXP <=? round_half_even (Z.abs z)); [discriminate |].
  intros Heq; inversion Heq; clear Heq.
  exists (Z.sgn z * round_half_even (Z.abs z)); split; [reflexivity |].
  pose proof (round_half_even_error (Z.abs z) (Z.abs_nonneg z)) as Herr.
  destruct z as [|p|p]; cbn [Z.sgn Z.abs] in *.
  - rewrite round_half_even_small by (split; [lia | reflexivity]).
    cbn; lia.
  - replace (1 * round_half_even (Z.pos p) - Z.pos p)
      with (round_half_even (Z.pos p) - Z.pos p) by ring.
    exact Herr.
  - replace (-1 * round_half_even (Z.pos p) - Z.neg p)
      with (- (round_half_even (Z.pos p) - Z.pos p)) by lia.
    rewrite Z.abs_opp; exact Herr.
Qed.

(** C4.  A threshold that is neither an [int] nor a [float] makes
    [inactivate_by_dz] raise (a [ValueError] naming the type
    requirement) with the grid, and so the active mask, exactly as
    before: the native routine is never reached.  An [int] threshold of
    magnitude below [2^1024 - 2^970] is converted to the nearest
    [float] (within a relative distance of [2^-53], so exactly below
    [2^53]), the call behaves as for that [float], and it does not
    raise.  From that magnitude on the conversion itself raises
    [OverflowError], again before the native routine is reached and
    with the grid as before. *)
Theorem inactivate_by_dz_threshold_type
        (grd3d_inact_by_dz :
           Z -> Z -> Z -> carray Q -> carray Z -> Q -> Z ->
           native (carray Q * carray Z))
        (g : Grid) (threshold : pyval) :
  (isinstance_int threshold = false ->
   isinstance_float threshold = false ->
   inactivate_by_dz grd3d_inact_by_dz g threshold
   = (g, Raise (ValueError "The threshold is not a float or int")))
  /\ (isinstance_int threshold = true ->
      Z.abs (int_value threshold) < 2 ^ 1024 - 2 ^ 970 ->
      exists m,
        Z.abs (m - int_value threshold) * 2 ^ 53
        <= Z.abs (int_value threshold)
        /\ inactivate_by_dz grd3d_inact_by_dz g threshold
           = inactivate_by_dz grd3d_inact_by_dz g (PyFloat (inject_Z m))
        /\ forall e, snd (inactivate_by_dz grd3d_inact_by_dz g threshold)
                     <> Raise e)
  /\ (isinstance_int threshold = true ->
      2 ^ 1024 - 2 ^ 970 <= Z.abs (int_value threshold) ->
      exists msg,
        inactivate_by_dz grd3d_inact_by_dz g threshold
        = (g, Raise (OverflowError msg))).
Proof.
  split; [| split].
  - intros Hi Hf; unfold inactivate_by_dz; rewrite Hi, Hf; reflexivity.
  - intros Hi Hrange.
    destruct (double_of_int (int_value threshold)) as [q |] eqn:Hq.
    + destruct (double_of_int_nearest _ _ Hq) as (m & -> & Hnear).
      exists m; split; [exact Hnear |].
      unfold inactivate_by_dz, pyfloat; rewrite Hi, Hq.
      cbn [isinstance_int isinstance_float negb float_value].
      split; [reflexivity |].
      intros e.
      destruct (grd3d_inact_by_dz _ _ _ _ _ _ _) as [[zc act]|];
        discriminate.
    + apply double_of_int_overflow in Hq; lia.
  - intros Hi Hrange.
    apply double_of_int_overflow in Hrange.
    unfold inactivate_by_dz, pyfloat; rewrite Hi, Hrange.
    eexists; reflexivity.
Qed.

Lemma inactivate_by_dz_threshold_type_witness :
  (isinstance_int (PyStr "5.0") = false
   /\ isinstance_float (PyStr "5.0") = false
   /\ inactivate_by_dz Cxtgeo.grd3d_inact_by_dz two_layer_grid (PyStr "5.0")
      = (two_layer_grid, Raise (ValueError "The threshold is not a float or int")))
  /\ (isinstance_int (PyInt 5) = true
      /\ inactivate_by_dz Cxtgeo.grd3d_inact_by_dz two_layer_grid (PyInt 5)
         = inactivate_by_dz Cxtgeo.grd3d_inact_by_dz two_layer_grid
                            (PyFloat (inject_Z 5)))
  /\ (isinstance_int (PyInt (2 ^ 1024)) = true
      /\ exists msg,
          inactivate_by_dz Cxtgeo.grd3d_inact_by_dz two_layer_grid
                           (PyInt (2 ^ 1024))
          = (two_layer_grid, Raise (OverflowError msg))).
Proof.
  split; [| split].
  - split; [reflexivity | split; [reflexivity |]].
    apply (inactivate_by_dz_threshold_type
             Cxtgeo.grd3d_inact_by_dz two_layer_grid (PyStr "5.0"));
      reflexivity.
  - split; [reflexivity |].
    destruct (proj1 (proj2 (inactivate_by_dz_threshold_type
                              Cxtgeo.grd3d_inact_by_dz two_layer_grid
                              (PyInt 5)))
                    eq_refl eq_refl) as (m & Hnear & Heq & _).
    cbn [int_value] in Hnear.
    assert (Hm : m = 5).
    { change (2 ^ 53) with 9007199254740992 in Hnear; lia. }
    rewrite Hm in Heq; exact Heq.
  - split; [reflexivity |].
    apply (proj2 (proj2 (inactivate_by_dz_threshold_type
                           Cxtgeo.grd3d_inact_by_dz two_layer_grid
                           (PyInt (2 ^ 1024))))
                 eq_refl).
    vm_compute; discriminate.
Defined.

(** An [int] threshold that is not accepted: [float(10 ** 400)] raises
    before the native routine is reached. *)
Lemma inactivate_by_dz_int_not_accepted :
  isinstance_int (PyInt (10 ^ 400)) = true
  /\ isinstance_float (PyInt (10 ^ 400)) = false
  /\ inactivate_by_dz Cxtgeo.grd3d_inact_by_dz two_layer_grid
                      (PyInt (10 ^ 400))
     = (two_layer_grid,
        Raise (OverflowError "int too large to convert to float")).
Proof. vm_compute; repeat split; reflexivity. Qed.

(** ** The active mask, its count and its index cache *)

Lemma flatnonzero_from_In (l : list Z) : forall i p,
  In p (flatnonzero_from i l)
  <-> i <= p < i + Z.of_nat (List.length l) /\ mask_at l (p - i) <> 0.
Proof.
  unfold mask_at.
  induction l as [|x t IH]; intros i p; simpl flatnonzero_from.
  - simpl; split; [contradiction | lia].
  - assert (Htail :
      In p (flatnonzero_from (i + 1) t)
      <-> i + 1 <= p < i + Z.of_nat (List.length (x :: t))
          /\ nth (Z.to_nat (p - i)) (x :: t) 0 <> 0).
    { rewrite IH. simpl List.length. rewrite Nat2Z.inj_succ.
      split; intros [Hr Hn]; (split; [lia |]).
      - replace (Z.to_nat (p - i)) with (S (Z.to_nat (p - (i + 1)))) by lia.
        exact Hn.
      - replace (Z.to_nat (p - i)) with (S (Z.to_nat (p - (i + 1)))) in Hn
          by lia.
        exact Hn. }
    destruct (Z.eqb_spec x 0) as [Hx | Hx].
    + rewrite Htail. split; intros [Hr Hn]; [split; [lia | exact Hn] |].
      destruct (Z.eq_dec p i) as [-> | Hne]; [| split; [lia | exact Hn]].
      rewrite Z.sub_diag in Hn; simpl in Hn; contradiction.
    + simpl In. rewrite Htail. simpl List.length. rewrite Nat2Z.inj_succ.
      split.
      * intros [<- | [Hr Hn]]; [| split; [lia | exact Hn]].
        split; [lia |]. rewrite Z.sub_diag; simpl; exact Hx.
      * intros [Hr Hn].
        destruct (Z.eq_dec i p) as [-> | Hne]; [left; reflexivity |].
        right; split; [lia | exact Hn].
Qed.

Lemma flatnonzero_from_sorted (l : list Z) : forall i,
  StronglySorted Z.lt (flatnonzero_from i l).
Proof.
  induction l as [|x t IH]; intros i; simpl.
  - constructor.
  - destruct (x =? 0); [apply IH |].
    constructor; [apply IH |].
    apply Forall_forall; intros p Hp.
    apply flatnonzero_from_In in Hp; lia.
Qed.

(** [flatnonzero] lists, in strictly increasing order, exactly the
    positions of the array that hold a non-zero entry. *)
Lemma flatnonzero_spec (l : list Z) :
  StronglySorted Z.lt (flatnonzero l)
  /\ forall p, In p (flatnonzero l)
               <-> 0 <= p < Z.of_nat (List.length l) /\ mask_at l p <> 0.
Proof.
  split; [apply flatnonzero_from_sorted |].
  intros p; unfold flatnonzero; rewrite flatnonzero_from_In.
  rewrite Z.sub_0_r; reflexivity.
Qed.

(** On a 0/1 mask these are the positions holding 1. *)
Lemma flatnonzero_binary (l : list Z) (p : Z) :
  binary_mask l ->
  (In p (flatnonzero l)
   <-> 0 <= p < Z.of_nat (List.length l) /\ mask_at l p = 1).
Proof.
  intros Hbin; rewrite (proj2 (flatnonzero_spec l) p).
  split; intros [Hr Hm]; (split; [exact Hr |]); [| lia].
  unfold binary_mask in Hbin; rewrite Forall_forall in Hbin.
  destruct (Hbin (mask_at l p)) as [H0 | H1]; [| contradiction | exact H1].
  unfold mask_at; apply nth_In; lia.
Qed.

(** On a grid whose mask buffer has one entry per cell, [get_actnum]
    returns a property holding a copy of the mask. *)
Lemma get_actnum_copy (g : Grid) (actnum : list Z) (name : string) :
  _p_actnum_v g = Some actnum ->
  Z.of_nat (List.length actnum) = ntotal g ->
  get_actnum g name
  = Return (GridProperty.Build (_ncol g) (_nrow g) (_nlay g) name true
                               (IntArray actnum) (Some actnum)).
Proof.
  unfold ntotal; intros Hact Hlen.
  unfold get_actnum, np_zeros_int.
  destruct (Z.ltb_spec (_ncol g * _nrow g * _nlay g) 0) as [Hneg | _];
    [lia |].
  simpl bind.
  unfold GridProperty._update_values; simpl.
  rewrite Hact.
  rewrite <- Hlen, Nat2Z.id, Nat.ltb_irrefl, firstn_all.
  reflexivity.
Qed.

(** The first read of [actnum_indices] computes the positions of the
    non-zero mask entries and stores them in the cache. *)
Lemma actnum_indices_first_read (g : Grid) (actnum : list Z) :
  _actnum_indices g = None ->
  _p_actnum_v g = Some actnum ->
  Z.of_nat (List.length actnum) = ntotal g ->
  actnum_indices g
  = (set_actnum_indices g (Some (flatnonzero actnum)),
     Return (flatnonzero actnum)).
Proof.
  intros Hcache Hact Hlen; unfold actnum_indices.
  rewrite Hcache, (get_actnum_copy g actnum "ACTNUM" Hact Hlen).
  reflexivity.
Qed.

(** Once the cache is filled, [actnum_indices] returns it without
    looking at the mask. *)
Lemma actnum_indices_cached (g : Grid) (idx : list Z) :
  _actnum_indices g = Some idx -> actnum_indices g = (g, Return idx).
Proof. intros H; unfold actnum_indices; rewrite H; reflexivity. Qed.

Section AnyNativeLibrary.

Variable grd3d_inact_by_dz :
  Z -> Z -> Z -> carray Q -> carray Z -> Q -> Z ->
  native (carray Q * carray Z).
Variable grd3d_inact_outside_pol :
  list Q -> list Q -> Z -> Z -> Z -> carray Q -> carray Q -> carray Z ->
  Z -> Z -> Z -> Z -> native (Z * carray Q * carray Q * carray Z).
Variable grd3d_collapse_inact :
  Z -> Z -> Z -> carray Q -> carray Z -> native (carray Q * carray Z).
Variable grd3d_reduce_onelayer :
  Z -> Z -> Z -> carray Q -> list Q -> carray Z -> list Z -> Z ->
  native (list Q * list Z * Z).

(** Whatever the native routines write into the mask, the methods that
    mutate it in place assign neither the stored count nor the index
    cache. *)
Lemma inactivate_by_dz_keeps_count_and_cache (g : Grid) (threshold : pyval) :
  let g' := fst (inactivate_by_dz grd3d_inact_by_dz g threshold) in
  _nactive g' = _nactive g /\ _actnum_indices g' = _actnum_indices g.
Proof.
  unfold inactivate_by_dz.
  destruct (if isinstance_int threshold then _ else _) as [converted | e |];
    try (split; reflexivity).
  destruct (negb _); [split; reflexivity |].
  destruct (grd3d_inact_by_dz _ _ _ _ _ _ _) as [[zc act]|];
    split; reflexivity.
Qed.

Lemma inactivate_inside_keeps_count_and_cache
      (g : Grid) (poly : polyarg) (layer_range : option (Z * Z))
      (inside force_close : bool) :
  let g' := fst (inactivate_inside grd3d_inact_outside_pol g poly layer_range
                                   inside force_close) in
  _nactive g' = _nactive g /\ _actnum_indices g' = _actnum_indices g.
Proof.
  unfold inactivate_inside.
  destruct poly as [xc yc|]; [| split; reflexivity].
  destruct (match layer_range with Some r => r | None => _ end) as [k1 k2].
  destruct (grd3d_inact_outside_pol _ _ _ _ _ _ _ _ _ _ _ _)
    as [[[[ier co] zc] act]|]; [| split; reflexivity].
  destruct (ier =? 1); split; reflexivity.
Qed.

Lemma inactivate_outside_keeps_count_and_cache
      (g : Grid) (poly : polyarg) (layer_range : option (Z * Z)) :
  let g' := fst (inactivate_outside grd3d_inact_outside_pol g poly
                                    layer_range) in
  _nactive g' = _nactive g /\ _actnum_indices g' = _actnum_indices g.
Proof. apply inactivate_inside_keeps_count_and_cache. Qed.

Lemma collapse_inactive_cells_keeps_count_and_cache (g : Grid) :
  let g' := fst (collapse_inactive_cells grd3d_collapse_inact g) in
  _nactive g' = _nactive g /\ _actnum_indices g' = _actnum_indices g.
Proof.
  unfold collapse_inactive_cells.
  destruct (grd3d_collapse_inact _ _ _ _ _) as [[zc act]|]; split; reflexivity.
Qed.

(** [reduce_to_one_layer] replaces the mask and stores the count it is
    handed, but leaves the index cache as it was. *)
Lemma reduce_to_one_layer_keeps_cache (g : Grid) :
  _actnum_indices (fst (reduce_to_one_layer grd3d_reduce_onelayer g))
  = _actnum_indices g.
Proof.
  unfold reduce_to_one_layer.
  destruct (grd3d_reduce_onelayer _ _ _ _ _ _ _ _) as [[[zc act] n]|];
    reflexivity.
Qed.

(** A read of [actnum_indices] after [inactivate_by_dz] returns what an
    earlier read had cached. *)
Lemma actnum_indices_after_inactivate_by_dz
      (g : Grid) (threshold : pyval) (idx : list Z) :
  _actnum_indices g = Some idx ->
  snd (actnum_indices (fst (inactivate_by_dz grd3d_inact_by_dz g threshold)))
  = Return idx.
Proof.
  intros Hc.
  rewrite (actnum_indices_cached _ idx); [reflexivity |].
  rewrite (proj2 (inactivate_by_dz_keeps_count_and_cache g threshold)).
  exact Hc.
Qed.

End AnyNativeLibrary.

(** C1.  At a grid of two columns with a layer of thickness 2 over a
    layer of thickness 8, all four cells active and counted,
    [inactivate_by_dz(5)] returns and clears the mask of the two thin
    cells, so the mask sums to 2, while [nactive] still reads 4. *)
Theorem nactive_stale_after_inactivate_by_dz :
  let r := inactivate_by_dz Cxtgeo.grd3d_inact_by_dz two_layer_grid (PyInt 5) in
  nactive two_layer_grid = 4
  /\ snd r = Return tt
  /\ _p_actnum_v (fst r) = Some [0; 0; 1; 1]
  /\ np_sum [0; 0; 1; 1] = 2
  /\ nactive (fst r) = 4.
Proof. vm_compute; repeat split; reflexivity. Qed.

(** C2.  At the same grid, a first read of [actnum_indices] gives the
    positions 0 to 3; after [inactivate_by_dz(5)] has cleared the mask
    at positions 0 and 1, a second read still gives 0 to 3, although
    the positions holding 1 are now 2 and 3. *)
Theorem actnum_indices_stale_after_inactivate_by_dz :
  let first := actnum_indices two_layer_grid in
  let mutated :=
    inactivate_by_dz Cxtgeo.grd3d_inact_by_dz (fst first) (PyInt 5) in
  let second := actnum_indices (fst mutated) in
  snd first = Return [0; 1; 2; 3]
  /\ snd mutated = Return tt
  /\ _p_actnum_v (fst mutated) = Some [0; 0; 1; 1]
  /\ flatnonzero [0; 0; 1; 1] = [2; 3]
  /\ snd second = Return [0; 1; 2; 3].
Proof. vm_compute; repeat split; reflexivity. Qed.

(** ** Cell corners *)

Lemma np_axis_inside (n idx : Z) : 0 <= idx < n -> np_axis n idx = Return idx.
Proof.
  intros H; unfold np_axis.
  destruct (Z.leb_spec 0 idx); [| lia].
  destruct (Z.ltb_spec idx n); [reflexivity | lia].
Qed.

(** Reading the mask property at an in-range cell gives the mask entry
    at the cell's linear position. *)
Lemma values3d_of_mask (g : Grid) (actnum : list Z) (name : string)
      (i j k : Z) :
  Z.of_nat (List.length actnum) = ntotal g ->
  in_range g i j k ->
  GridProperty.values3d
    (GridProperty.Build (_ncol g) (_nrow g) (_nlay g) name true
                        (IntArray actnum) (Some actnum))
    (i - 1) (j - 1) (k - 1)
  = Return (NpInt (mask_at actnum (cell_index g i j k))).
Proof.
  unfold ntotal, in_range; intros Hlen (Hi & Hj & Hk).
  unfold GridProperty.values3d; simpl.
  rewrite Hlen, Z.eqb_refl; simpl.
  rewrite !np_axis_inside by lia; simpl.
  reflexivity.
Qed.

Lemma range_length (n : nat) : List.length (range n) = n.
Proof. unfold range; rewrite length_map, length_seq; reflexivity. Qed.

(** C3.  On a grid whose mask has one entry per cell, for an in-range
    cell and a corner routine that returns, [get_xyz_cell_corners]
    returns; its result is [None] exactly when [mask] is [True] and the
    cell's mask entry is 0, and is otherwise a tuple of the 24 numbers
    read from the corner routine's output array, also for an inactive
    cell when [mask] is not [True]. *)
Theorem get_xyz_cell_corners_none_iff_masked_inactive
        (grd3d_corners :
           Z -> Z -> Z -> Z -> Z -> Z -> carray Q -> carray Q -> list Q ->
           native (list Q))
        (g : Grid) (i j k : Z) (mask : pyval)
        (actnum : list Z) (pc : list Q) :
  _p_actnum_v g = Some actnum ->
  Z.of_nat (List.length actnum) = ntotal g ->
  in_range g i j k ->
  grd3d_corners i j k (ncol g) (nrow g) (nlay g)
                (_p_coord_v g) (_p_zcorn_v g) (new_doublearray 24) = Some pc ->
  exists r,
    get_xyz_cell_corners grd3d_corners g (i, j, k) mask = Return r
    /\ (r = None
        <-> is_True mask = true /\ mask_at actnum (cell_index g i j k) = 0)
    /\ (r <> None ->
        exists t, r = Some t /\ List.length t = 24%nat
                  /\ t = map (doublearray_getitem pc) (range 24)).
Proof.
  intros Hact Hlen Hin Hpc.
  assert (Hsome : forall r : option (list Q),
    r = Some (map (doublearray_getitem pc) (range 24)) ->
    r <> None ->
    exists t, r = Some t /\ List.length t = 24%nat
              /\ t = map (doublearray_getitem pc) (range 24)).
  { intros r -> _; eexists; split; [reflexivity |].
    split; [| reflexivity].
    rewrite length_map, range_length; reflexivity. }
  unfold get_xyz_cell_corners.
  destruct (is_True mask) eqn:Hmask.
  - rewrite (get_actnum_copy g actnum "ACTNUM" Hact Hlen); simpl bind.
    rewrite (values3d_of_mask g actnum "ACTNUM" i j k Hlen Hin); simpl bind.
    destruct (Z.eqb_spec (mask_at actnum (cell_index g i j k)) 0) as [Hz | Hnz].
    + exists None; split; [reflexivity |].
      split; [split; auto | intros Hne; contradiction Hne; reflexivity].
    + rewrite Hpc; simpl bind; eexists; split; [reflexivity |].
      split; [| apply Hsome; reflexivity].
      split; [discriminate | intros [_ Hz]; contradiction].
  - simpl bind. rewrite Hpc; simpl bind; eexists; split; [reflexivity |].
    split; [| apply Hsome; reflexivity].
    split; [discriminate | intros [Ht _]; discriminate].
Qed.

Lemma get_xyz_cell_corners_none_iff_masked_inactive_witness :
  _p_actnum_v thinned_grid = Some [0; 0; 1; 1]
  /\ in_range thinned_grid 1 1 1
  /\ exists r,
      get_xyz_cell_corners Cxtgeo.grd3d_corners thinned_grid (1, 1, 1)
                           (PyBool true) = Return r
      /\ (r = None
          <-> is_True (PyBool true) = true
              /\ mask_at [0; 0; 1; 1] (cell_index thinned_grid 1 1 1) = 0)
      /\ (r <> None ->
          exists t, r = Some t /\ List.length t = 24%nat
                    /\ t = map (doublearray_getitem
                                  [0; 0; 0; 100; 0; 0; 0; 100; 0; 100; 100; 0;
                                   0; 0; 2; 100; 0; 2; 0; 100; 2; 100; 100; 2]%Q)
                               (range 24)).
Proof.
  split; [reflexivity |].
  split; [unfold in_range; vm_compute; repeat split; discriminate |].
  apply (get_xyz_cell_corners_none_iff_masked_inactive
           Cxtgeo.grd3d_corners thinned_grid 1 1 1 (PyBool true) [0; 0; 1; 1]).
  - reflexivity.
  - reflexivity.
  - unfold in_range; vm_compute; repeat split; discriminate.
  - vm_compute; reflexivity.
Defined.

(** In [thinned_grid] cell (1, 1, 1) is inactive: it is skipped when
    [mask] is [True] and its corners are computed otherwise, also for
    the integer 1, which is not the object [True]. *)
Example corners_of_inactive_cell_masked :
  get_xyz_cell_corners Cxtgeo.grd3d_corners thinned_grid (1, 1, 1)
                       (PyBool true) = Return None.
Proof. vm_compute; reflexivity. Qed.

Example corners_of_inactive_cell_unmasked :
  get_xyz_cell_corners Cxtgeo.grd3d_corners thinned_grid (1, 1, 1)
                       (PyBool false)
  = Return (Some [0; 0; 0; 100; 0; 0; 0; 100; 0; 100; 100; 0;
                  0; 0; 2; 100; 0; 2; 0; 100; 2; 100; 100; 2]%Q)
  /\ get_xyz_cell_corners Cxtgeo.grd3d_corners thinned_grid (1, 1, 1)
                          (PyInt 1)
     = get_xyz_cell_corners Cxtgeo.grd3d_corners thinned_grid (1, 1, 1)
                            (PyBool false).
Proof. vm_compute; split; reflexivity. Qed.

(** ** Reduction to one layer *)

Lemma long_enough_true {A : Type} (l : list A) (n : Z) :
  n <= Z.of_nat (List.length l) -> Cxtgeo.long_enough l n = true.
Proof. intros H; unfold Cxtgeo.long_enough; apply Z.leb_le; exact H. Qed.

(** The counter kept by the reduction loop is the sum of the mask it
    builds, which holds one entry, 0 or 1, per footprint. *)
Lemma reduce_actnum_count (nx ny : Z) (nz : nat) (actnum : list Z)
      (ibs : list Z) :
  snd (Cxtgeo.reduce_actnum nx ny nz actnum ibs)
  = np_sum (fst (Cxtgeo.reduce_actnum nx ny nz actnum ibs))
  /\ binary_mask (fst (Cxtgeo.reduce_actnum nx ny nz actnum ibs))
  /\ List.length (fst (Cxtgeo.reduce_actnum nx ny nz actnum ibs))
     = List.length ibs.
Proof.
  unfold binary_mask, np_sum.
  induction ibs as [|ib rest IH]; simpl.
  - repeat split; constructor.
  - destruct (Cxtgeo.reduce_actnum nx ny nz actnum rest) as [mask nact].
    simpl in IH; destruct IH as (Hsum & Hbin & Hlen).
    destruct (Cxtgeo.column_active nx ny nz actnum ib);
      cbn [fst snd fold_right List.length];
      (split; [lia | split; [constructor; auto | congruence]]).
Qed.

(** With depth and mask buffers in place the method returns. *)
Lemma reduce_to_one_layer_returns (g : Grid) (zcorn : list Q)
      (actnum : list Z) :
  has_depths_and_mask g zcorn actnum ->
  reduce_to_one_layer Cxtgeo.grd3d_reduce_onelayer g
  = (reduced_grid g zcorn actnum, Return tt).
Proof.
  intros (Hzc & Hact & Hlzc & Hlact).
  unfold reduce_to_one_layer, Cxtgeo.grd3d_reduce_onelayer, reduced_grid.
  rewrite Hzc, Hact.
  rewrite (long_enough_true _ _ Hlzc), (long_enough_true _ _ Hlact).
  simpl andb; cbv iota zeta.
  destruct (Cxtgeo.reduce_actnum _ _ _ _ _) as [mask nact].
  reflexivity.
Qed.

(** It returns in no other case. *)
Lemma reduce_to_one_layer_returns_only_so (g g' : Grid) :
  reduce_to_one_layer Cxtgeo.grd3d_reduce_onelayer g = (g', Return tt) ->
  exists zcorn actnum, has_depths_and_mask g zcorn actnum.
Proof.
  unfold reduce_to_one_layer, Cxtgeo.grd3d_reduce_onelayer, has_depths_and_mask.
  destruct (_p_zcorn_v g) as [zcorn|]; [| discriminate].
  destruct (_p_actnum_v g) as [actnum|]; [| discriminate].
  destruct (Cxtgeo.long_enough zcorn _) eqn:Hz; [| discriminate].
  destruct (Cxtgeo.long_enough actnum _) eqn:Ha; [| discriminate].
  intros _; exists zcorn, actnum.
  unfold Cxtgeo.long_enough in Hz, Ha; rewrite Z.leb_le in Hz, Ha.
  repeat split; assumption.
Qed.

(** Whatever routine does the work: when the method returns, [nlay] is
    1, no property is attached, and the stored count is the number the
    routine reported for the arrays it filled. *)
Lemma reduce_to_one_layer_any_routine
      (grd3d_reduce_onelayer :
         Z -> Z -> Z -> carray Q -> list Q -> carray Z -> list Z -> Z ->
         native (list Q * list Z * Z))
      (g g' : Grid) :
  reduce_to_one_layer grd3d_reduce_onelayer g = (g', Return tt) ->
  nlay g' = 1 /\ props g' = [] /\ ncol g' = ncol g /\ nrow g' = nrow g
  /\ exists new_zcorn new_actnum new_num_act,
      grd3d_reduce_onelayer (_ncol g) (_nrow g) (_nlay g) (_p_zcorn_v g)
        (new_doublearray (_ncol g * _nrow g * (1 + 1) * 4))
        (_p_actnum_v g) (new_intarray (_ncol g * _nrow g * 1)) 0
      = Some (new_zcorn, new_actnum, new_num_act)
      /\ _p_zcorn_v g' = Some new_zcorn
      /\ _p_actnum_v g' = Some new_actnum
      /\ nactive g' = new_num_act.
Proof.
  unfold reduce_to_one_layer.
  destruct (grd3d_reduce_onelayer _ _ _ _ _ _ _ _) as [[[zc act] n]|];
    [| discriminate].
  intros Heq; inversion Heq; subst g'; clear Heq.
  repeat split.
  exists zc, act, n; repeat split.
Qed.

(** C5.  With depth and mask buffers in place [reduce_to_one_layer]
    returns; and whenever it returns, [nlay] is 1, the stored
    active-cell count is the sum of the new single-layer mask (one 0/1
    entry per footprint), and no property is attached. *)
Theorem reduce_to_one_layer_result (g : Grid) :
  (forall zcorn actnum,
     has_depths_and_mask g zcorn actnum ->
     exists g',
       reduce_to_one_layer Cxtgeo.grd3d_reduce_onelayer g = (g', Return tt))
  /\ (forall g',
        reduce_to_one_layer Cxtgeo.grd3d_reduce_onelayer g = (g', Return tt) ->
        nlay g' = 1
        /\ (exists mask, _p_actnum_v g' = Some mask
                         /\ List.length mask = Z.to_nat (ncol g' * nrow g')
                         /\ binary_mask mask
                         /\ nactive g' = np_sum mask)
        /\ props g' = []).
Proof.
  split.
  - intros zcorn actnum Hhas; eexists.
    apply (reduce_to_one_layer_returns g zcorn actnum Hhas).
  - intros g' Hrun.
    destruct (reduce_to_one_layer_returns_only_so g g' Hrun)
      as (zcorn & actnum & Hhas).
    rewrite (reduce_to_one_layer_returns g zcorn actnum Hhas) in Hrun.
    inversion Hrun; subst g'; clear Hrun.
    split; [reflexivity |].
    split; [| reflexivity].
    eexists; split; [reflexivity |].
    unfold nactive, ncol, nrow; simpl.
    destruct (reduce_actnum_count (_ncol g) (_nrow g) (Z.to_nat (_nlay g))
                actnum (range (Z.to_nat (_ncol g * _nrow g))))
      as (Hsum & Hbin & Hlen).
    rewrite range_length in Hlen.
    repeat split; assumption.
Qed.

Lemma reduce_to_one_layer_result_witness :
  exists g',
    reduce_to_one_layer Cxtgeo.grd3d_reduce_onelayer
      (fst (props_setter thinned_grid [sample_property "PORO" 2 1 2]))
    = (g', Return tt)
    /\ nlay g' = 1
    /\ (exists mask, _p_actnum_v g' = Some mask
                     /\ List.length mask = Z.to_nat (ncol g' * nrow g')
                     /\ binary_mask mask
                     /\ nactive g' = np_sum mask)
    /\ props g' = [].
Proof.
  destruct (proj1 (reduce_to_one_layer_result
                     (fst (props_setter thinned_grid
                                        [sample_property "PORO" 2 1 2])))
                  [0; 0; 0; 0; 0; 0; 0; 0; 2; 2; 2; 2; 2; 2; 2; 2;
                   10; 10; 10; 10; 10; 10; 10; 10]%Q
                  [0; 0; 1; 1]) as [g' Hrun].
  - unfold has_depths_and_mask.
    split; [vm_compute; reflexivity |].
    split; [vm_compute; reflexivity |].
    vm_compute; repeat split; discriminate.
  - exists g'; split; [exact Hrun |].
    apply (proj2 (reduce_to_one_layer_result
                    (fst (props_setter thinned_grid
                                       [sample_property "PORO" 2 1 2])))
                 g' Hrun).
Defined.





(** ** Translation and flipping *)

(** The native routine rejects a bad flip before touching a buffer. *)
Lemma grd3d_translate_rejects_bad_flip
      (nx ny nz : Z) (flip : Z * Z * Z) (tx ty tz : Q)
      (p_coord_v p_zcorn_v : carray Q) :
  bad_flip flip ->
  let '(fx, fy, fz) := flip in
  Cxtgeo.grd3d_translate nx ny nz fx fy fz tx ty tz p_coord_v p_zcorn_v
  = Some (-1, p_coord_v, p_zcorn_v).
Proof.
  destruct flip as [[fx fy] fz]; unfold bad_flip; intros Hbad.
  unfold Cxtgeo.grd3d_translate.
  assert (Hv : Cxtgeo.valid_flip fx && Cxtgeo.valid_flip fy
               && Cxtgeo.valid_flip fz = false).
  { unfold Cxtgeo.valid_flip.
    destruct (Z.eqb_spec fx 1), (Z.eqb_spec fx (-1)),
             (Z.eqb_spec fy 1), (Z.eqb_spec fy (-1)),
             (Z.eqb_spec fz 1), (Z.eqb_spec fz (-1));
      simpl; try reflexivity; lia. }
  rewrite Hv; reflexivity.
Qed.

(** Whatever routine does the work: if it reports a non-zero code and
    hands the buffers back as they were, the method raises and the grid
    is as before. *)
Lemma translate_coordinates_on_error
      (grd3d_translate :
         Z -> Z -> Z -> Z -> Z -> Z -> Q -> Q -> Q -> carray Q -> carray Q ->
         native (Z * carray Q * carray Q))
      (g : Grid) (tx ty tz : Q) (fx fy fz ier : Z) :
  grd3d_translate (_ncol g) (_nrow g) (_nlay g) fx fy fz tx ty tz
                  (_p_coord_v g) (_p_zcorn_v g)
  = Some (ier, _p_coord_v g, _p_zcorn_v g) ->
  ier <> 0 ->
  translate_coordinates grd3d_translate g (tx, ty, tz) (fx, fy, fz)
  = (g, Raise (PyException "Something went wrong in translate")).
Proof.
  intros Hcall Hier; unfold translate_coordinates.
  rewrite Hcall, set_same_buffers.
  destruct (Z.eqb_spec ier 0); [contradiction | reflexivity].
Qed.

(** C6.  With a flip triple holding a value other than 1 and -1,
    [translate_coordinates] raises, and the grid after the call is the
    grid before it: pillar coordinates and corner depths (and
    everything else) are untouched. *)
Theorem translate_coordinates_bad_flip
        (g : Grid) (translate : Q * Q * Q) (flip : Z * Z * Z) :
  bad_flip flip ->
  translate_coordinates Cxtgeo.grd3d_translate g translate flip
  = (g, Raise (PyException "Something went wrong in translate")).
Proof.
  intros Hbad.
  destruct translate as [[tx ty] tz].
  pose proof (grd3d_translate_rejects_bad_flip
                (_ncol g) (_nrow g) (_nlay g) flip tx ty tz
                (_p_coord_v g) (_p_zcorn_v g) Hbad) as Hcall.
  destruct flip as [[fx fy] fz].
  apply (translate_coordinates_on_error _ g tx ty tz fx fy fz (-1) Hcall).
  discriminate.
Qed.

Lemma translate_coordinates_bad_flip_witness :
  bad_flip (1, 1, 0)
  /\ translate_coordinates Cxtgeo.grd3d_translate box_grid
                           (10, 20, 5)%Q (1, 1, 0)
     = (box_grid, Raise (PyException "Something went wrong in translate")).
Proof.
  assert (Hbad : bad_flip (1, 1, 0))
    by (unfold bad_flip; right; right; split; discriminate).
  split; [exact Hbad |].
  apply (translate_coordinates_bad_flip box_grid (10, 20, 5)%Q (1, 1, 0) Hbad).
Defined.

(** With proper flips the same call goes through: the Z flip negates
    the shifted depths of the one-cell grid. *)
Example translate_coordinates_flips_depths :
  let r := translate_coordinates Cxtgeo.grd3d_translate thin_cell_grid
                                 (1, 2, 3)%Q (1, 1, -1) in
  snd r = Return tt
  /\ _p_zcorn_v (fst r) = Some [-3; -3; -3; -3; -5; -5; -5; -5]%Q.
Proof. vm_compute; split; reflexivity. Qed.

(** ** Deactivation by polygons *)

(** Without forced closing, the polygons that take part are the closed
    ones, and the routine reports 1 exactly when it left one out. *)
Lemma usable_polygons_unforced (ps : list (list (Q * Q))) :
  Cxtgeo.usable_polygons 0 ps
  = (filter Cxtgeo.is_closed ps,
     if forallb Cxtgeo.is_closed ps then 0 else 1).
Proof.
  induction ps as [|p rest IH]; [reflexivity |].
  cbn [Cxtgeo.usable_polygons filter forallb]; rewrite IH.
  destruct (Cxtgeo.is_closed p); [| reflexivity].
  destruct (forallb Cxtgeo.is_closed rest); reflexivity.
Qed.

(** Deactivation by polygons keeps the length of the mask. *)
Lemma inact_pol_loop_length
      (nx ny : Z) (coord : list Q) (polys : list (list (Q * Q)))
      (k1 k2 method : Z) (n : nat) :
  forall (ic : Z) (actnum : list Z),
    List.length (Cxtgeo.inact_pol_loop nx ny coord polys k1 k2 method ic n actnum)
    = List.length actnum.
Proof.
  induction n as [|n IH]; intros ic [|a rest]; try reflexivity.
  cbn [Cxtgeo.inact_pol_loop].
  destruct (Cxtgeo.footprint_centre nx coord _ _) as [cx cy].
  cbn [List.length]; rewrite IH; reflexivity.
Qed.

(** Whatever routine does the work: when it reports code 1 the method
    raises [RuntimeWarning], and the buffers keep what the routine
    wrote. *)
Lemma inactivate_inside_on_code_1
      (grd3d_inact_outside_pol :
         list Q -> list Q -> Z -> Z -> Z -> carray Q -> carray Q -> carray Z ->
         Z -> Z -> Z -> Z -> native (Z * carray Q * carray Q * carray Z))
      (g : Grid) (xc yc : list Q) (layer_range : option (Z * Z))
      (inside force_close : bool) (coord zcorn : carray Q) (actnum : carray Z) :
  grd3d_inact_outside_pol xc yc (_ncol g) (_nrow g) (_nlay g)
    (_p_coord_v g) (_p_zcorn_v g) (_p_actnum_v g)
    (fst (match layer_range with Some r => r | None => (1, _nlay g) end))
    (snd (match layer_range with Some r => r | None => (1, _nlay g) end))
    (if force_close then 1 else 0) (if inside then 0 else 1)
  = Some (1, coord, zcorn, actnum) ->
  inactivate_inside grd3d_inact_outside_pol g (Polygons xc yc) layer_range
                    inside force_close
  = (set_p_actnum_v (set_p_zcorn_v (set_p_coord_v g coord) zcorn) actnum,
     Raise (RuntimeWarning "Problems with one or more polygons. Not closed?")).
Proof.
  unfold inactivate_inside, nlay, ncol, nrow.
  destruct (match layer_range with Some r => r | None => _ end) as [k1 k2].
  cbn [fst snd].
  replace (if negb inside then 1 else 0) with (if inside then 0 else 1)
    by (destruct inside; reflexivity).
  intros ->; reflexivity.
Qed.

(** C7.  On a populated grid, when the polygon set holds a polygon that
    is not closed and [force_close] is off, [inactivate_inside] ends by
    raising an exception of the warning class, and the grid it leaves
    differs from the grid before only in the mask, which is the result
    of deactivating by the closed polygons of the set. *)
Theorem inactivate_inside_malformed_polygon
        (g : Grid) (coord zcorn : list Q) (actnum : list Z)
        (xc yc : list Q) (layer_range : option (Z * Z)) (inside : bool) :
  populated g coord zcorn actnum ->
  forallb Cxtgeo.is_closed (polygons_of xc yc) = false ->
  let k12 := match layer_range with Some r => r | None => (1, nlay g) end in
  exists w,
    inactivate_inside Cxtgeo.grd3d_inact_outside_pol g (Polygons xc yc)
                      layer_range inside false
    = (set_p_actnum_v g
         (Some (Cxtgeo.inact_by_polygons (ncol g) (nrow g) (nlay g) coord
                  (filter Cxtgeo.is_closed (polygons_of xc yc))
                  (fst k12) (snd k12) (if inside then 0 else 1) actnum)),
       Raise w)
    /\ is_warning w = true.
Proof.
  unfold populated, has_depths_and_mask.
  intros (Hco & Hlco & Hzc & Hact & Hlzc & Hlact) Hopen; cbv zeta.
  unfold nlay, ncol, nrow.
  exists (RuntimeWarning "Problems with one or more polygons. Not closed?").
  split; [| reflexivity].
  rewrite (inactivate_inside_on_code_1 Cxtgeo.grd3d_inact_outside_pol
             g xc yc layer_range inside false (Some coord) (Some zcorn)
             (Some (Cxtgeo.inact_by_polygons (_ncol g) (_nrow g) (_nlay g) coord
                      (filter Cxtgeo.is_closed (polygons_of xc yc))
                      (fst (match layer_range with
                            | Some r => r | None => (1, _nlay g) end))
                      (snd (match layer_range with
                            | Some r => r | None => (1, _nlay g) end))
                      (if inside then 0 else 1) actnum))).
  - rewrite <- Hco, <- Hzc.
    f_equal; destruct g; reflexivity.
  - unfold Cxtgeo.grd3d_inact_outside_pol.
    rewrite Hco, Hzc, Hact.
    rewrite (long_enough_true _ _ Hlco), (long_enough_true _ _ Hlzc),
            (long_enough_true _ _ Hlact).
    cbn [andb].
    fold (polygons_of xc yc).
    rewrite usable_polygons_unforced, Hopen.
    reflexivity.
Qed.

Lemma inactivate_inside_malformed_polygon_witness :
  forallb Cxtgeo.is_closed
    (polygons_of [0; 100; 100; 0; 0; 999; 100; 200; 200; 100; 999]%Q
                 [0; 0; 100; 100; 0; 999; 100; 100; 200; 200; 999]%Q) = false
  /\ exists w,
      inactivate_inside Cxtgeo.grd3d_inact_outside_pol box_grid mixed_polygons
                        None true false
      = (set_p_actnum_v box_grid (Some [0; 1; 1; 1; 0; 1; 1; 1]), Raise w)
      /\ is_warning w = true.
Proof.
  split; [reflexivity |].
  destruct (inactivate_inside_malformed_polygon
              box_grid
              (match _p_coord_v box_grid with Some c => c | None => [] end)
              (match _p_zcorn_v box_grid with Some c => c | None => [] end)
              [1; 1; 1; 1; 1; 1; 1; 1]
              [0; 100; 100; 0; 0; 999; 100; 200; 200; 100; 999]%Q
              [0; 0; 100; 100; 0; 999; 100; 100; 200; 200; 999]%Q
              None true) as [w [Hrun Hw]].
  - unfold populated, has_depths_and_mask.
    split; [reflexivity |].
    split; [vm_compute; discriminate |].
    split; [reflexivity |].
    split; [reflexivity |].
    vm_compute; repeat split; discriminate.
  - reflexivity.
  - exists w; split; [| exact Hw].
    unfold mixed_polygons; rewrite Hrun.
    vm_compute; reflexivity.
Defined.

(** * Further properties *)

(** ** Choosing the importer *)

Section FromFileFacts.

Variable isfile : string -> bool.
Variable _import_roff : Grid -> string -> Grid * ended unit.
Variable _import_ecl_output : Grid -> string -> Z -> Grid * ended unit.
Variable _import_ecl_run :
  Grid -> string -> option (list string) -> option (list string) ->
  option (list Z) -> Grid * ended unit.
Variable _import_ecl_grdecl : Grid -> string -> Grid * ended unit.

Variable g : Grid.
Variable initprops restartprops : option (list string).
Variable restartdates : option (list Z).

Local Abbreviation run_from_file gfile fformat :=
  (from_file isfile _import_roff _import_ecl_output _import_ecl_run
             _import_ecl_grdecl g gfile fformat
             initprops restartprops restartdates).

(** X1.  The format is validated before the file system is looked at
    and before any importer runs: a format outside the six known names
    raises [ValueError], and so does ['guess'] for a file name without
    extension; the grid is untouched in both cases. *)
Theorem from_file_validates_format_first (gfile fformat : string) :
  (str_in fformat ("guess" :: import_formats) = false ->
   exists msg,
     run_from_file gfile fformat = (g, Raises (Builtin (ValueError msg))))
  /\ (fformat = "guess" -> extension gfile = "" ->
      run_from_file gfile fformat
      = (g, Raises (Builtin (ValueError
                      "Cannot guess format without file extension")))).
Proof.
  unfold from_file, extension.
  split.
  - intros Hbad.
    assert (Hnot :
      str_in fformat ["egrid"; "grid"; "grdecl"; "roff"; "eclipserun"; "guess"]
      = false).
    { unfold str_in, import_formats in *; cbn [existsb] in *.
      destruct (fformat =? "guess")%string, (fformat =? "egrid")%string,
               (fformat =? "grid")%string, (fformat =? "grdecl")%string,
               (fformat =? "roff")%string, (fformat =? "eclipserun")%string;
        simpl in *; congruence. }
    rewrite Hnot; eexists; reflexivity.
  - intros -> Hext.
    destruct (splitext gfile) as [froot fext]; simpl snd in Hext.
    rewrite Hext; reflexivity.
Qed.

(** X2.  With ['guess'] and a file whose extension, in any letter case,
    is one of the five importer names, the call is the call with that
    name as explicit format. *)
Theorem from_file_guess_is_explicit_extension (gfile : string) :
  str_in (extension gfile) import_formats = true ->
  run_from_file gfile "guess" = run_from_file gfile (extension gfile).
Proof.
  unfold from_file, extension.
  destruct (splitext gfile) as [froot fext]; simpl snd.
  generalize (lower (remove_char "." fext)); intros e.
  unfold str_in at 1, import_formats; simpl existsb.
  intros Hin.
  destruct (String.eqb_spec e "egrid") as [He | _]; [rewrite He; reflexivity |].
  destruct (String.eqb_spec e "grid") as [He | _]; [rewrite He; reflexivity |].
  destruct (String.eqb_spec e "grdecl") as [He | _]; [rewrite He; reflexivity |].
  destruct (String.eqb_spec e "roff") as [He | _]; [rewrite He; reflexivity |].
  destruct (String.eqb_spec e "eclipserun") as [He | _]; [rewrite He; reflexivity |].
  discriminate.
Qed.

(** X3.  With ['guess'] and a file whose extension is not an importer
    name, no format error is raised: the call ends the process with
    [sys.exit(1)] when the file exists and raises [OSError] otherwise,
    the grid untouched. *)
Theorem from_file_guess_unknown_extension (gfile : string) :
  extension gfile <> "" ->
  str_in (extension gfile) import_formats = false ->
  run_from_file gfile "guess"
  = if isfile gfile then (g, Raises (SystemExit 1))
    else (g, Raises (OSError 2 "No such file or directory" gfile)).
Proof.
  unfold from_file, extension.
  destruct (splitext gfile) as [froot fext]; simpl snd.
  generalize (lower (remove_char "." fext)); intros e.
  intros Hne Hout.
  apply String.eqb_neq in Hne.
  unfold import_formats in Hout.
  rewrite Hne, Hout.
  change (str_in "guess"
            ["egrid"; "grid"; "grdecl"; "roff"; "eclipserun"; "guess"])
    with true.
  cbn [negb andb String.eqb Ascii.eqb Bool.eqb].
  destruct (isfile gfile); reflexivity.
Qed.

(** X4.  Nothing is imported from a file that does not exist: if
    [os.path.isfile] answers no throughout, every call raises and
    leaves the grid as it was, whatever the format and the importers. *)
Theorem from_file_without_files_raises (gfile fformat : string) :
  (forall f, isfile f = false) ->
  exists e,
    from_file isfile _import_roff _import_ecl_output _import_ecl_run
              _import_ecl_grdecl g gfile fformat
              initprops restartprops restartdates
    = (g, Raises e).
Proof.
  intros Hnone.
  unfold from_file.
  destruct (str_in fformat _); [| eexists; reflexivity].
  cbn [negb].
  destruct (splitext gfile) as [froot fext].
  set (e := lower (remove_char "." fext)).
  set (fmt := if (fformat =? "guess")%string then _ else fformat).
  destruct (e =? "")%string.
  - destruct (fmt =? "egrid")%string;
      [cbn [bind]; rewrite Hnone; eexists; reflexivity |].
    destruct (fmt =? "grid")%string;
      [cbn [bind]; rewrite Hnone; eexists; reflexivity |].
    destruct (fmt =? "grdecl")%string;
      [cbn [bind]; rewrite Hnone; eexists; reflexivity |].
    destruct (fmt =? "roff")%string;
      [cbn [bind]; rewrite Hnone; eexists; reflexivity |].
    destruct (fmt =? "guess")%string;
      [cbn [bind]; eexists; reflexivity |].
    cbn [bind]; rewrite Hnone; eexists; reflexivity.
  - rewrite Hnone; eexists; reflexivity.
Qed.

End FromFileFacts.

Lemma from_file_validates_format_first_witness :
  (str_in "ROFF" ("guess" :: import_formats) = false
   /\ exists msg,
       traced_from_file thin_cell_grid "data/reek.roff" "ROFF"
       = (thin_cell_grid, Raises (Builtin (ValueError msg))))
  /\ (extension "data/reek" = ""
      /\ traced_from_file thin_cell_grid "data/reek" "guess"
         = (thin_cell_grid,
            Raises (Builtin (ValueError
                      "Cannot guess format without file extension")))).
Proof.
  unfold traced_from_file.
  split; (split; [reflexivity |]).
  - apply (from_file_validates_format_first
             sample_isfile (traced_import 1)
             (fun g f gtype => traced_import (10 + gtype) g f)
             (fun g f _ _ _ => traced_import 3 g f) (traced_import 4)
             thin_cell_grid None None None "data/reek.roff" "ROFF").
    reflexivity.
  - apply (from_file_validates_format_first
             sample_isfile (traced_import 1)
             (fun g f gtype => traced_import (10 + gtype) g f)
             (fun g f _ _ _ => traced_import 3 g f) (traced_import 4)
             thin_cell_grid None None None "data/reek" "guess");
      reflexivity.
Defined.

Lemma from_file_guess_is_explicit_extension_witness :
  str_in (extension "data/REEK.EGRID") import_formats = true
  /\ traced_from_file thin_cell_grid "data/REEK.EGRID" "guess"
     = traced_from_file thin_cell_grid "data/REEK.EGRID" "egrid".
Proof.
  unfold traced_from_file.
  split; [reflexivity |].
  apply (from_file_guess_is_explicit_extension
           sample_isfile (traced_import 1)
           (fun g f gtype => traced_import (10 + gtype) g f)
           (fun g f _ _ _ => traced_import 3 g f) (traced_import 4)
           thin_cell_grid None None None "data/REEK.EGRID").
  reflexivity.
Defined.

Lemma from_file_guess_unknown_extension_witness :
  extension "data/notes.txt" <> ""
  /\ str_in (extension "data/notes.txt") import_formats = false
  /\ traced_from_file thin_cell_grid "data/notes.txt" "guess"
     = (thin_cell_grid, Raises (SystemExit 1)).
Proof.
  unfold traced_from_file.
  split; [discriminate |].
  split; [reflexivity |].
  apply (from_file_guess_unknown_extension
           sample_isfile (traced_import 1)
           (fun g f gtype => traced_import (10 + gtype) g f)
           (fun g f _ _ _ => traced_import 3 g f) (traced_import 4)
           thin_cell_grid None None None "data/notes.txt");
    [discriminate | reflexivity].
Defined.

Lemma from_file_without_files_raises_witness :
  exists e,
    from_file (fun _ => false) (traced_import 1)
              (fun g f gtype => traced_import (10 + gtype) g f)
              (fun g f _ _ _ => traced_import 3 g f) (traced_import 4)
              thin_cell_grid "data/reek.roff" "roff" None None None
    = (thin_cell_grid, Raises e).
Proof.
  apply (from_file_without_files_raises
           (fun _ => false) (traced_import 1)
           (fun g f gtype => traced_import (10 + gtype) g f)
           (fun g f _ _ _ => traced_import 3 g f) (traced_import 4)
           thin_cell_grid None None None "data/reek.roff" "roff").
  reflexivity.
Defined.

(** ** Importing into an existing grid *)

(** What the setter guarantees for the list it attaches. *)
Lemma props_setter_attached (g g1 : Grid) (list : list GridProperty.t) :
  props_setter g list = (g1, Return tt) ->
  _props g1 = list /\ _ncol g1 = _ncol g /\ _nrow g1 = _nrow g
  /\ _nlay g1 = _nlay g /\ forallb (dims_match g) list = true.
Proof.
  unfold props_setter.
  destruct (props_check_spec g list) as [[Hall Hc] | [_ [msg Hc]]];
    rewrite Hc; [| discriminate].
  intros Heq; inversion Heq; subst g1; clear Heq.
  repeat split; assumption.
Qed.

Section ImportFacts.

Variable grd3d_scan_ecl_grid_hd : Z -> string -> native (Z * Z * Z).
Variable grd3d_scan_ecl_egrid_hd : Z -> string -> native (Z * Z * Z).
Variable grd3d_import_ecl_grid :
  Z -> Z -> list Q -> list Q -> list Z -> string ->
  native (Z * list Q * list Q * list Z).
Variable grd3d_import_ecl_egrid :
  Z -> Z -> Z -> Z -> list Q -> list Q -> list Z -> string ->
  native (Z * list Q * list Q * list Z).

Local Abbreviation import_ecl_output g gfile gtype :=
  (_import_ecl_output grd3d_scan_ecl_grid_hd grd3d_scan_ecl_egrid_hd
                      grd3d_import_ecl_grid grd3d_import_ecl_egrid
                      g gfile gtype).

(** The importer assigns neither the attached properties nor the index
    cache. *)
Lemma import_ecl_output_frame (g : Grid) (gfile : string) (gtype : Z) :
  _props (fst (import_ecl_output g gfile gtype)) = _props g
  /\ _actnum_indices (fst (import_ecl_output g gfile gtype))
     = _actnum_indices g.
Proof.
  unfold _import_ecl_output.
  destruct ((gtype =? 1) || (gtype =? 3)); [split; reflexivity |].
  destruct (if gtype =? 0 then _ else _) as [[[nc nr] nl]|];
    [| split; reflexivity].
  destruct (if gtype =? 0 then _ else _) as [[[[nact co] zc] ac]|];
    split; reflexivity.
Qed.

(** X5.  Importing an Eclipse grid into a grid object that already
    carries properties and cached indices replaces dimensions and
    buffers only: the properties attached through the setter stay
    attached, so that when a dimension changes none of them matches the
    grid any more, and [actnum_indices] keeps returning the indices
    cached for the grid before the import. *)
Theorem import_keeps_properties_and_cache
        (g g1 g2 : Grid) (list : list GridProperty.t)
        (gfile : string) (gtype : Z) :
  props_setter g list = (g1, Return tt) ->
  import_ecl_output g1 gfile gtype = (g2, Returns tt) ->
  ncol g2 <> ncol g1 \/ nrow g2 <> nrow g1 \/ nlay g2 <> nlay g1 ->
  props g2 = list
  /\ Forall (fun p => dims_match g2 p = false) list
  /\ forall idx, _actnum_indices g1 = Some idx ->
                 actnum_indices g2 = (g2, Return idx).
Proof.
  unfold ncol, nrow, nlay, props.
  intros Hset Himp Hdiff.
  destruct (props_setter_attached g g1 list Hset)
    as (Hprops & Hc & Hr & Hl & Hall).
  destruct (import_ecl_output_frame g1 gfile gtype) as [Hkeep Hcache].
  rewrite Himp in Hkeep, Hcache; simpl fst in Hkeep, Hcache.
  split; [congruence |].
  split.
  - rewrite forallb_forall in Hall.
    apply Forall_forall; intros p Hp.
    specialize (Hall p Hp); unfold dims_match in *.
    apply andb_prop in Hall; destruct Hall as [Hall Hz].
    apply andb_prop in Hall; destruct Hall as [Hx Hy].
    rewrite Z.eqb_eq in Hx, Hy, Hz.
    destruct (Z.eqb_spec (GridProperty.ncol p) (_ncol g2));
      destruct (Z.eqb_spec (GridProperty.nrow p) (_nrow g2));
      destruct (Z.eqb_spec (GridProperty.nlay p) (_nlay g2));
      try reflexivity; lia.
  - intros idx Hidx.
    apply actnum_indices_cached; congruence.
Qed.

End ImportFacts.

Lemma import_keeps_properties_and_cache_witness :
  let attached := [sample_property "PORO" 2 2 2] in
  let g1 := set_actnum_indices (set_props box_grid attached)
                               (Some [0; 1; 2; 3; 4; 5; 6; 7]) in
  let g2 := fst (_import_ecl_output sample_scan sample_scan sample_grid_reader
                                    sample_egrid_reader g1 "data/REEK.EGRID" 2) in
  ncol g2 = 3
  /\ props g2 = attached
  /\ Forall (fun p => dims_match g2 p = false) attached
  /\ actnum_indices g2 = (g2, Return [0; 1; 2; 3; 4; 5; 6; 7]).
Proof.
  cbv zeta.
  split; [reflexivity |].
  destruct (import_keeps_properties_and_cache
              sample_scan sample_scan sample_grid_reader sample_egrid_reader
              (set_actnum_indices box_grid (Some [0; 1; 2; 3; 4; 5; 6; 7]))
              (set_actnum_indices (set_props box_grid
                                     [sample_property "PORO" 2 2 2])
                                  (Some [0; 1; 2; 3; 4; 5; 6; 7]))
              (fst (_import_ecl_output sample_scan sample_scan
                      sample_grid_reader sample_egrid_reader
                      (set_actnum_indices
                         (set_props box_grid [sample_property "PORO" 2 2 2])
                         (Some [0; 1; 2; 3; 4; 5; 6; 7]))
                      "data/REEK.EGRID" 2))
              [sample_property "PORO" 2 2 2] "data/REEK.EGRID" 2)
    as (Hp & Hall & Hidx).
  - reflexivity.
  - reflexivity.
  - left; vm_compute; discriminate.
  - split; [exact Hp |].
    split; [exact Hall |].
    apply Hidx; reflexivity.
Defined.

(** ** Reading the dimensions of a GRDECL file *)

Lemma find_specgrid_absent (xfile : list string) :
  (forall line, In line xfile -> String.prefix "SPECGRID" line = false) ->
  find_specgrid xfile false = (false, []).
Proof.
  induction xfile as [|line rest IH]; intros Hno; [reflexivity |].
  cbn [find_specgrid].
  rewrite (Hno line (or_introl eq_refl)).
  apply IH; intros l Hl; apply Hno; right; exact Hl.
Qed.

Lemma find_specgrid_present (pre : list string) (spec : string)
      (rest : list string) :
  (forall line, In line pre -> String.prefix "SPECGRID" line = false) ->
  String.prefix "SPECGRID" spec = true ->
  find_specgrid (pre ++ spec :: rest)%list false
  = match rest with
    | [] => (true, [])
    | next :: _ => (true, split next)
    end.
Proof.
  induction pre as [|line pre IH]; intros Hno Hspec.
  - cbn [app find_specgrid]; rewrite Hspec.
    destruct rest; reflexivity.
  - cbn [app find_specgrid].
    rewrite (Hno line (or_introl eq_refl)).
    apply IH; [| exact Hspec].
    intros l Hl; apply Hno; right; exact Hl.
Qed.

(** A line that starts with the keyword is neither comment nor blank. *)
Lemma specgrid_line_is_kept (line : string) :
  String.prefix "SPECGRID" line = true -> kept_line line = true.
Proof.
  destruct line as [|c t]; [discriminate |].
  cbn [String.prefix].
  destruct (Ascii.ascii_dec "S" c) as [<- | _]; [| discriminate].
  intros _; reflexivity.
Qed.

Lemma filter_none {A : Type} (f : A -> bool) (l : list A) :
  (forall x, In x l -> f x = false) -> filter f l = [].
Proof.
  induction l as [|x t IH]; intros H; [reflexivity |].
  cbn [filter]; rewrite (H x (or_introl eq_refl)).
  apply IH; intros y Hy; apply H; right; exact Hy.
Qed.

Section GrdeclFacts.

Variable grd3d_import_grdecl :
  Z -> Z -> Z -> list Q -> list Q -> list Z -> list string ->
  native (Z * list Q * list Q * list Z).
Variable readlines : string -> list string.
Variable int : string -> outcome Z.

Local Abbreviation import_ecl_grdecl g gfile :=
  (_import_ecl_grdecl grd3d_import_grdecl readlines int g gfile).

(** X6.  A GRDECL file in which no line that is neither comment nor
    blank starts with [SPECGRID] is imported without any effect and
    without any error: the method returns and the grid is as before. *)
Theorem grdecl_without_specgrid_changes_nothing (g : Grid) (gfile : string) :
  (forall line, In line (readlines gfile) -> kept_line line = true ->
                String.prefix "SPECGRID" line = false) ->
  import_ecl_grdecl g gfile = (g, Returns tt).
Proof.
  intros Hno; unfold _import_ecl_grdecl.
  rewrite find_specgrid_absent; [reflexivity |].
  intros line Hin; apply filter_In in Hin; destruct Hin as [Hin Hk].
  apply Hno; assumption.
Qed.

(** X7.  The dimensions are read from the first line after the first
    [SPECGRID] line that is neither a comment nor blank: with comment
    and blank lines in between, the first three words of that line,
    converted by [int], become [ncol], [nrow] and [nlay]; the reader
    fills buffers allocated for these dimensions, and count and buffers
    are stored as it leaves them, with [_nsubs] 0 and properties and
    index cache untouched. *)
Theorem grdecl_dimensions_follow_specgrid
        (g : Grid) (gfile : string)
        (pre : list string) (spec : string) (junk : list string)
        (dimline : string) (post : list string)
        (a b c : string) (more : list string) (n1 n2 n3 nact : Z)
        (coord zcorn : list Q) (actnum : list Z) :
  readlines gfile = (pre ++ spec :: junk ++ dimline :: post)%list ->
  (forall line, In line pre -> kept_line line = true ->
                String.prefix "SPECGRID" line = false) ->
  String.prefix "SPECGRID" spec = true ->
  (forall line, In line junk -> kept_line line = false) ->
  kept_line dimline = true ->
  split dimline = a :: b :: c :: more ->
  int a = Return n1 -> int b = Return n2 -> int c = Return n3 ->
  grd3d_import_grdecl n1 n2 n3
    (new_doublearray ((n1 + 1) * (n2 + 1) * 2 * 3))
    (new_doublearray (n1 * n2 * (n3 + 1) * 4))
    (new_intarray (n1 * n2 * n3))
    (filter kept_line (readlines gfile))
  = Some (nact, coord, zcorn, actnum) ->
  import_ecl_grdecl g gfile
  = (mkGrid n1 n2 n3 0 (Some coord) (Some zcorn) (Some actnum) nact
            (_actnum_indices g) (_props g) (_undef g) (_undef_limit g),
     Returns tt).
Proof.
  intros Hfile Hpre Hspec Hjunk Hdim Hsplit Ha Hb Hc Hread.
  assert (Hkept :
    filter kept_line (readlines gfile)
    = (filter kept_line pre ++ spec :: dimline :: filter kept_line post)%list).
  { rewrite Hfile, filter_app; cbn [filter].
    rewrite (specgrid_line_is_kept spec Hspec), filter_app.
    rewrite (filter_none kept_line junk Hjunk); cbn [app filter].
    rewrite Hdim; reflexivity. }
  assert (Hfind :
    find_specgrid (filter kept_line (readlines gfile)) false
    = (true, a :: b :: c :: more)).
  { rewrite Hkept, find_specgrid_present; [| | exact Hspec].
    - rewrite Hsplit; reflexivity.
    - intros line Hin; apply filter_In in Hin; destruct Hin as [Hin Hk].
      apply Hpre; assumption. }
  unfold _import_ecl_grdecl.
  rewrite Hfind; cbn [negb getitem nth_error bind].
  rewrite Ha; cbn [bind]; rewrite Hb; cbn [bind]; rewrite Hc; cbn [bind].
  destruct g as [nc nr nl ns pc pz pa na ai pr un ul].
  cbn [set_nsubs set_nactive set_p_actnum_v set_p_zcorn_v set_p_coord_v
       set_nlay set_nrow set_ncol
       _ncol _nrow _nlay _nsubs _p_coord_v _p_zcorn_v _p_actnum_v
       _nactive _actnum_indices _props _undef _undef_limit].
  rewrite Hread; reflexivity.
Qed.

(** X8.  When nothing but comments and blank lines follows the
    [SPECGRID] line, the method raises [IndexError] from indexing the
    empty word list, and the grid is as before. *)
Theorem grdecl_specgrid_at_end_raises
        (g : Grid) (gfile : string)
        (pre : list string) (spec : string) (junk : list string) :
  readlines gfile = (pre ++ spec :: junk)%list ->
  (forall line, In line pre -> kept_line line = true ->
                String.prefix "SPECGRID" line = false) ->
  String.prefix "SPECGRID" spec = true ->
  (forall line, In line junk -> kept_line line = false) ->
  import_ecl_grdecl g gfile
  = (g, Raises (Builtin (IndexError "list index out of range"))).
Proof.
  intros Hfile Hpre Hspec Hjunk.
  unfold _import_ecl_grdecl.
  rewrite Hfile, filter_app; cbn [filter].
  rewrite (specgrid_line_is_kept spec Hspec).
  rewrite (filter_none kept_line junk Hjunk).
  rewrite find_specgrid_present; [reflexivity | | exact Hspec].
  intros line Hin; apply filter_In in Hin; destruct Hin as [Hin Hk].
  apply Hpre; assumption.
Qed.

End GrdeclFacts.

Lemma grdecl_without_specgrid_changes_nothing_witness :
  _import_ecl_grdecl sample_grdecl_reader sample_readlines sample_int
                     box_grid "data/nokey.grdecl"
  = (box_grid, Returns tt).
Proof.
  apply (grdecl_without_specgrid_changes_nothing
           sample_grdecl_reader sample_readlines sample_int
           box_grid "data/nokey.grdecl").
  intros line Hin _.
  destruct Hin as [<- | [<- | [<- | []]]]; reflexivity.
Defined.

Lemma grdecl_dimensions_follow_specgrid_witness :
  _import_ecl_grdecl sample_grdecl_reader sample_readlines sample_int
                     thin_cell_grid "data/case.grdecl"
  = (mkGrid 2 1 2 0 (Some (new_doublearray 36)) (Some (new_doublearray 24))
            (Some [1; 1; 1; 1]) 4 None [] Cxtgeo.UNDEF Cxtgeo.UNDEF_LIMIT,
     Returns tt).
Proof.
  apply (grdecl_dimensions_follow_specgrid
           sample_grdecl_reader sample_readlines sample_int
           thin_cell_grid "data/case.grdecl"
           ["-- exported grid" ++ String "010" ""; String "010" ""]
           ("SPECGRID" ++ String "010" "")
           ["-- NX NY NZ" ++ String "010" ""; "   " ++ String "010" ""]
           ("  2 1 2 1 F /" ++ String "010" "")
           ["COORD" ++ String "010" ""]
           "2" "1" "2" ["1"; "F"; "/"] 2 1 2 4
           (new_doublearray 36) (new_doublearray 24) [1; 1; 1; 1]).
  - reflexivity.
  - intros line Hin _; destruct Hin as [<- | [<- | []]]; reflexivity.
  - reflexivity.
  - intros line Hin; destruct Hin as [<- | [<- | []]]; reflexivity.
  - reflexivity.
  - reflexivity.
  - reflexivity.
  - reflexivity.
  - reflexivity.
  - reflexivity.
Defined.

Lemma grdecl_specgrid_at_end_raises_witness :
  _import_ecl_grdecl sample_grdecl_reader sample_readlines sample_int
                     box_grid "data/cut.grdecl"
  = (box_grid, Raises (Builtin (IndexError "list index out of range"))).
Proof.
  apply (grdecl_specgrid_at_end_raises
           sample_grdecl_reader sample_readlines sample_int
           box_grid "data/cut.grdecl"
           [] ("SPECGRID" ++ String "010" "") ["-- end" ++ String "010" ""]).
  - reflexivity.
  - intros line [].
  - reflexivity.
  - intros line Hin; destruct Hin as [<- | []]; reflexivity.
Defined.

(** ** Index properties *)

Lemma nth_map_inside {A B : Type} (f : A -> B) (l : list A) (n : nat)
      (d : A) (e : B) :
  (n < List.length l)%nat -> nth n (map f l) e = f (nth n l d).
Proof.
  intros Hn.
  rewrite (nth_indep (map f l) e (f d)) by (rewrite length_map; exact Hn).
  apply map_nth.
Qed.

Lemma range_nth (n i : nat) :
  (i < n)%nat -> nth i (range n) 0 = Z.of_nat i.
Proof.
  intros Hi; unfold range.
  rewrite (nth_map_inside Z.of_nat (seq 0 n) i 0%nat 0)
    by (rewrite length_seq; exact Hi).
  rewrite seq_nth by exact Hi; reflexivity.
Qed.

(** Reading a concatenation of blocks of equal length. *)
Lemma nth_flat_map_blocks (f : Z -> list Z) (m : nat) :
  (forall x, List.length (f x) = m) ->
  forall (n s q r : nat),
    (q < n)%nat -> (r < m)%nat ->
    nth (q * m + r) (flat_map f (map Z.of_nat (seq s n))) 0
    = nth r (f (Z.of_nat (s + q))) 0.
Proof.
  intros Hlen.
  induction n as [|n IH]; intros s q r Hq Hr; [lia |].
  cbn [seq map flat_map].
  destruct q as [|q].
  - rewrite app_nth1 by (rewrite Hlen; lia).
    rewrite Nat.add_0_r; reflexivity.
  - rewrite app_nth2 by (rewrite Hlen; lia).
    rewrite Hlen.
    replace (S q * m + r - m)%nat with (q * m + r)%nat by lia.
    rewrite IH by lia.
    replace (S s + q)%nat with (s + S q)%nat by lia; reflexivity.
Qed.

Lemma flat_map_blocks_length (f : Z -> list Z) (m : nat) (l : list Z) :
  (forall x, List.length (f x) = m) ->
  List.length (flat_map f l) = (List.length l * m)%nat.
Proof.
  intros Hlen; induction l as [|x t IH]; [reflexivity |].
  cbn [flat_map List.length]; rewrite length_app, Hlen, IH; lia.
Qed.

Lemma np_indices_row_length (ncol : Z) (pick : Z -> Z) :
  List.length (map pick (range (Z.to_nat ncol))) = Z.to_nat ncol.
Proof. rewrite length_map, range_length; reflexivity. Qed.

Lemma np_indices_flat_length (ncol nrow nlay : Z) (axis : nat) :
  List.length (np_indices_flat ncol nrow nlay axis)
  = (Z.to_nat nlay * (Z.to_nat nrow * Z.to_nat ncol))%nat.
Proof.
  unfold np_indices_flat.
  rewrite (flat_map_blocks_length _ (Z.to_nat nrow * Z.to_nat ncol)).
  - rewrite range_length; reflexivity.
  - intros k.
    rewrite (flat_map_blocks_length _ (Z.to_nat ncol)).
    + rewrite range_length; reflexivity.
    + intros j; apply np_indices_row_length.
Qed.

Lemma nth_flat_map_range (f : Z -> list Z) (m n q r : nat) :
  (forall x, List.length (f x) = m) ->
  (q < n)%nat -> (r < m)%nat ->
  nth (q * m + r) (flat_map f (range n)) 0 = nth r (f (Z.of_nat q)) 0.
Proof.
  intros Hlen Hq Hr; unfold range.
  rewrite (nth_flat_map_blocks f m Hlen n 0 q r Hq Hr); reflexivity.
Qed.

(** The flattened index array holds, at the position of the triple
    [(i, j, k)], the component that the axis selects. *)
Lemma np_indices_flat_nth (ncol nrow nlay : Z) (axis i j k : nat) :
  (i < Z.to_nat ncol)%nat -> (j < Z.to_nat nrow)%nat ->
  (k < Z.to_nat nlay)%nat ->
  nth (k * (Z.to_nat nrow * Z.to_nat ncol) + (j * Z.to_nat ncol + i))
      (np_indices_flat ncol nrow nlay axis) 0
  = Z.of_nat (match axis with O => i | S O => j | _ => k end).
Proof.
  intros Hi Hj Hk; unfold np_indices_flat.
  rewrite (nth_flat_map_range _ (Z.to_nat nrow * Z.to_nat ncol));
    [| | exact Hk | nia].
  - rewrite (nth_flat_map_range _ (Z.to_nat ncol));
      [| intros x; apply np_indices_row_length | exact Hj | exact Hi].
    rewrite (nth_map_inside _ _ i 0 0) by (rewrite range_length; exact Hi).
    rewrite range_nth by exact Hi.
    destruct axis as [|[|axis]]; reflexivity.
  - intros x.
    rewrite (flat_map_blocks_length _ (Z.to_nat ncol)).
    + rewrite range_length; reflexivity.
    + intros y; apply np_indices_row_length.
Qed.

(** The position of an in-range cell, in natural numbers. *)
Lemma cell_index_nat (g : Grid) (i j k : Z) :
  in_range g i j k ->
  Z.to_nat (cell_index g i j k)
  = (Z.to_nat (k - 1) * (Z.to_nat (_nrow g) * Z.to_nat (_ncol g))
     + (Z.to_nat (j - 1) * Z.to_nat (_ncol g) + Z.to_nat (i - 1)))%nat.
Proof.
  unfold in_range, cell_index; intros (Hi & Hj & Hk).
  apply Nat2Z.inj.
  assert (0 <= (k - 1) * _nrow g * _ncol g) as Hk0
    by (apply Z.mul_nonneg_nonneg; [apply Z.mul_nonneg_nonneg |]; lia).
  assert (0 <= (j - 1) * _ncol g) as Hj0
    by (apply Z.mul_nonneg_nonneg; lia).
  rewrite Z2Nat.id by lia.
  rewrite !Nat2Z.inj_add, !Nat2Z.inj_mul, !Z2Nat.id by lia.
  ring.
Qed.

Lemma fold_min_spec (t : list Z) : forall x,
  In (fold_left Z.min t x) (x :: t)
  /\ forall y, In y (x :: t) -> fold_left Z.min t x <= y.
Proof.
  induction t as [|a t IH]; intros x; cbn [fold_left].
  - split; [left; reflexivity |].
    intros y [<- | []]; lia.
  - destruct (IH (Z.min x a)) as [Hin Hle]; split.
    + destruct Hin as [Hm | Hm]; [| right; right; exact Hm].
      rewrite <- Hm.
      destruct (Z.min_spec x a) as [[_ ->] | [_ ->]];
        [left | right; left]; reflexivity.
    + intros y [<- | [<- | Hy]].
      * specialize (Hle (Z.min x a) (or_introl eq_refl)); lia.
      * specialize (Hle (Z.min x a) (or_introl eq_refl)); lia.
      * apply Hle; right; exact Hy.
Qed.

Lemma fold_max_spec (t : list Z) : forall x,
  In (fold_left Z.max t x) (x :: t)
  /\ forall y, In y (x :: t) -> y <= fold_left Z.max t x.
Proof.
  induction t as [|a t IH]; intros x; cbn [fold_left].
  - split; [left; reflexivity |].
    intros y [<- | []]; lia.
  - destruct (IH (Z.max x a)) as [Hin Hle]; split.
    + destruct Hin as [Hm | Hm]; [| right; right; exact Hm].
      rewrite <- Hm.
      destruct (Z.max_spec x a) as [[_ ->] | [_ ->]];
        [right; left | left]; reflexivity.
    + intros y [<- | [<- | Hy]].
      * specialize (Hle (Z.max x a) (or_introl eq_refl)); lia.
      * specialize (Hle (Z.max x a) (or_introl eq_refl)); lia.
      * apply Hle; right; exact Hy.
Qed.

(** Minimum and maximum of an array whose entries fill a range. *)
Lemma np_min_max_of_range (a : list Z) (lo hi : Z) :
  In lo a -> In hi a -> (forall v, In v a -> lo <= v <= hi) ->
  np_min a = Return lo /\ np_max a = Return hi.
Proof.
  intros Hlo Hhi Hall.
  destruct a as [|x t]; [contradiction |].
  unfold np_min, np_max.
  destruct (fold_min_spec t x) as [Hmin_in Hmin_le].
  destruct (fold_max_spec t x) as [Hmax_in Hmax_le].
  pose proof (Hall _ Hmin_in); pose proof (Hall _ Hmax_in).
  pose proof (Hmin_le _ Hlo); pose proof (Hmax_le _ Hhi).
  split; f_equal; lia.
Qed.

Lemma range_In (n : nat) (x : Z) :
  In x (range n) <-> 0 <= x < Z.of_nat n.
Proof.
  unfold range; rewrite in_map_iff; split.
  - intros (m & <- & Hm); apply in_seq in Hm; lia.
  - intros Hx; exists (Z.to_nat x); split; [lia |].
    apply in_seq; lia.
Qed.

Lemma flat_position_bound (c r l i j k : nat) :
  (i < c)%nat -> (j < r)%nat -> (k < l)%nat ->
  (k * (r * c) + (j * c + i) < l * (r * c))%nat.
Proof.
  intros Hi Hj Hk.
  assert (j * c + i < r * c)%nat as Hrow.
  { pose proof (Nat.mul_le_mono_r (S j) r c ltac:(lia)) as Hm.
    cbn [Nat.mul] in Hm; lia. }
  pose proof (Nat.mul_le_mono_r (S k) l (r * c) ltac:(lia)) as Hm.
  cbn [Nat.mul] in Hm; lia.
Qed.

(** The entries of an index array lie between 1 and the dimension of
    its axis, and both ends occur. *)
Lemma index_values_fill_range (g : Grid) (axis : nat) :
  1 <= _ncol g -> 1 <= _nrow g -> 1 <= _nlay g ->
  In 1 (index_values g axis) /\ In (axis_dim g axis) (index_values g axis)
  /\ forall v, In v (index_values g axis) -> 1 <= v <= axis_dim g axis.
Proof.
  unfold index_values, ncol, nrow, nlay; intros Hc Hr Hl.
  split; [| split].
  - apply in_map_iff; exists 0; split; [reflexivity |].
    pose proof (np_indices_flat_nth (_ncol g) (_nrow g) (_nlay g) axis
                  0 0 0 ltac:(lia) ltac:(lia) ltac:(lia)) as Hnth.
    replace (Z.of_nat (match axis with O => 0 | S O => 0 | _ => 0 end)%nat)
      with 0 in Hnth by (destruct axis as [|[|axis]]; reflexivity).
    rewrite <- Hnth; apply nth_In.
    rewrite np_indices_flat_length; apply flat_position_bound; lia.
  - apply in_map_iff; exists (axis_dim g axis - 1); split; [lia |].
    pose proof (np_indices_flat_nth (_ncol g) (_nrow g) (_nlay g) axis
                  (Z.to_nat (_ncol g - 1)) (Z.to_nat (_nrow g - 1))
                  (Z.to_nat (_nlay g - 1))
                  ltac:(lia) ltac:(lia) ltac:(lia)) as Hnth.
    replace (axis_dim g axis - 1)
      with (Z.of_nat (match axis with
                      | O => Z.to_nat (_ncol g - 1)
                      | S O => Z.to_nat (_nrow g - 1)
                      | _ => Z.to_nat (_nlay g - 1)
                      end))
      by (destruct axis as [|[|axis]]; cbn [axis_dim]; lia).
    rewrite <- Hnth; apply nth_In.
    rewrite np_indices_flat_length; apply flat_position_bound; lia.
  - intros v Hv; apply in_map_iff in Hv; destruct Hv as (w & <- & Hw).
    unfold np_indices_flat in Hw.
    apply in_flat_map in Hw; destruct Hw as (k & Hk & Hw).
    apply in_flat_map in Hw; destruct Hw as (j & Hj & Hw).
    apply in_map_iff in Hw; destruct Hw as (i & <- & Hi).
    apply range_In in Hk, Hj, Hi.
    destruct axis as [|[|axis]]; cbn [axis_dim]; lia.
Qed.

Lemma dict_set_fresh (d : list (Z * string)) (k : Z) (v : string) :
  ~ In k (map fst d) -> dict_set Z.eqb d k v = (d ++ [(k, v)])%list.
Proof.
  induction d as [|[k' v'] rest IH]; intros Hfresh; [reflexivity |].
  cbn [dict_set app]; cbn [map fst In] in Hfresh.
  destruct (Z.eqb_spec k' k) as [-> | _]; [tauto |].
  rewrite IH by tauto; reflexivity.
Qed.

Lemma index_codes_fold (l : list Z) : forall (d : list (Z * string)) (n : Z),
  NoDup l -> (forall x, In x l -> ~ In x (map fst d)) ->
  fold_left
    (fun acc i => (dict_set Z.eqb (fst acc) i (str i), snd acc + 1)) l (d, n)
  = ((d ++ map (fun v => (v, str v)) l)%list, n + Z.of_nat (List.length l)).
Proof.
  induction l as [|x t IH]; intros d n Hnd Hfresh.
  - cbn; rewrite app_nil_r; f_equal; lia.
  - cbn [fold_left fst snd].
    rewrite dict_set_fresh by (apply Hfresh; left; reflexivity).
    inversion Hnd as [|? ? Hx Ht]; subst.
    rewrite IH; [| exact Ht |].
    + rewrite <- app_assoc; cbn [app map List.length].
      f_equal; lia.
    + intros y Hy Hin.
      rewrite map_app in Hin; apply in_app_or in Hin.
      destruct Hin as [Hin | [<- | []]].
      * apply (Hfresh y); [right; exact Hy | exact Hin].
      * apply Hx; exact Hy.
Qed.

Lemma range_between_NoDup (lo hi : Z) : NoDup (range_between lo hi).
Proof.
  unfold range_between.
  generalize (Z.to_nat (hi - lo)) as len, 0%nat as s.
  induction len as [|len IH]; intros s; cbn [seq map]; constructor.
  - intros Hin; apply in_map_iff in Hin; destruct Hin as (m & Heq & Hm).
    apply in_seq in Hm; lia.
  - apply IH.
Qed.

(** The loop over the codes labels every value from [lo] up to [hi]
    with its numeral and counts them. *)
Lemma index_codes_spec (lo hi : Z) :
  lo <= hi ->
  index_codes lo hi
  = (map (fun v => (v, str v)) (range_between lo hi), hi - lo).
Proof.
  intros Hle; unfold index_codes.
  rewrite index_codes_fold;
    [| apply range_between_NoDup | intros x _ []].
  cbn [app]; f_equal.
  unfold range_between; rewrite length_map, length_seq; lia.
Qed.

(** One index property of a grid with at least one cell. *)
Lemma index_property_spec (g : Grid) (axis : nat) (name : string) :
  1 <= _ncol g -> 1 <= _nrow g -> 1 <= _nlay g ->
  index_property g axis name
  = Return (mkCoded
              (GridProperty.Build (_ncol g) (_nrow g) (_nlay g) name true
                                  (IntArray (index_values g axis)) None)
              (numeral_codes (axis_dim g axis)) (axis_dim g axis)).
Proof.
  intros Hc Hr Hl; unfold index_property, ncol, nrow, nlay.
  destruct (Z.ltb_spec (_ncol g) 0); [lia |].
  destruct (Z.ltb_spec (_nrow g) 0); [lia |].
  destruct (Z.ltb_spec (_nlay g) 0); [lia |].
  cbn [orb].
  destruct (index_values_fill_range g axis Hc Hr Hl) as (Hone & Hd & Hall).
  destruct (np_min_max_of_range _ 1 (axis_dim g axis) Hone Hd Hall)
    as [Hmin Hmax].
  unfold index_values, ncol, nrow, nlay in Hmin, Hmax.
  rewrite Hmin, Hmax; cbn [bind].
  rewrite index_codes_spec
    by (destruct axis as [|[|axis]]; cbn [axis_dim]; lia).
  unfold numeral_codes, index_values, ncol, nrow, nlay.
  repeat f_equal; lia.
Qed.

Lemma get_indices_spec (g : Grid) (names : string * string * string) :
  1 <= _ncol g -> 1 <= _nrow g -> 1 <= _nlay g ->
  get_indices g names
  = Return
      (map (fun an =>
              mkCoded
                (GridProperty.Build (_ncol g) (_nrow g) (_nlay g) (snd an) true
                                    (IntArray (index_values g (fst an))) None)
                (numeral_codes (axis_dim g (fst an))) (axis_dim g (fst an)))
           [(0%nat, fst (fst names)); (1%nat, snd (fst names));
            (2%nat, snd names)]).
Proof.
  intros Hc Hr Hl; destruct names as [[name0 name1] name2].
  unfold get_indices.
  rewrite !index_property_spec by assumption.
  reflexivity.
Qed.

(** X9.  For every cell of the grid, the three properties returned by
    [get_indices] hold, at the cell's linear position, the cell's own
    column, row and layer number (counted from 1). *)
Theorem get_indices_values_at_cell
        (g : Grid) (names : string * string * string) (i j k : Z) :
  in_range g i j k ->
  exists i_index j_index k_index,
    get_indices g names = Return [i_index; j_index; k_index]
    /\ np_item (GridProperty.values (property i_index)) (cell_index g i j k)
       = NpInt i
    /\ np_item (GridProperty.values (property j_index)) (cell_index g i j k)
       = NpInt j
    /\ np_item (GridProperty.values (property k_index)) (cell_index g i j k)
       = NpInt k.
Proof.
  intros Hin.
  assert (Hdims : 1 <= _ncol g /\ 1 <= _nrow g /\ 1 <= _nlay g)
    by (unfold in_range in Hin; lia).
  destruct Hdims as (Hc & Hr & Hl).
  rewrite (get_indices_spec g names Hc Hr Hl).
  do 3 eexists; split; [reflexivity |].
  cbn [property GridProperty.values np_item fst snd].
  rewrite (cell_index_nat g i j k Hin).
  unfold index_values, ncol, nrow, nlay.
  assert (Hpos :
    (Z.to_nat (k - 1) * (Z.to_nat (_nrow g) * Z.to_nat (_ncol g))
     + (Z.to_nat (j - 1) * Z.to_nat (_ncol g) + Z.to_nat (i - 1))
     < List.length (np_indices_flat (_ncol g) (_nrow g) (_nlay g) 0))%nat).
  { rewrite np_indices_flat_length; unfold in_range in Hin.
    apply flat_position_bound; lia. }
  unfold in_range in Hin.
  repeat split.
  - rewrite (nth_map_inside _ _ _ 0 0) by exact Hpos.
    rewrite np_indices_flat_nth by lia.
    f_equal; lia.
  - rewrite (nth_map_inside _ _ _ 0 0)
      by (rewrite np_indices_flat_length in *; exact Hpos).
    rewrite np_indices_flat_nth by lia.
    f_equal; lia.
  - rewrite (nth_map_inside _ _ _ 0 0)
      by (rewrite np_indices_flat_length in *; exact Hpos).
    rewrite np_indices_flat_nth by lia.
    f_equal; lia.
Qed.

Lemma get_indices_values_at_cell_witness :
  in_range box_grid 2 1 2
  /\ exists i_index j_index k_index,
      get_indices box_grid ("I", "J", "K")
      = Return [i_index; j_index; k_index]
      /\ np_item (GridProperty.values (property i_index))
                 (cell_index box_grid 2 1 2) = NpInt 2
      /\ np_item (GridProperty.values (property j_index))
                 (cell_index box_grid 2 1 2) = NpInt 1
      /\ np_item (GridProperty.values (property k_index))
                 (cell_index box_grid 2 1 2) = NpInt 2.
Proof.
  assert (Hin : in_range box_grid 2 1 2)
    by (unfold in_range; vm_compute; repeat split; discriminate).
  split; [exact Hin |].
  apply (get_indices_values_at_cell box_grid ("I", "J", "K") 2 1 2 Hin).
Defined.

(** X10.  On a grid with at least one cell, the code table of each
    index property lists the numbers from 1 to the dimension of its
    axis, in order, each labelled with its decimal numeral, and the
    code count is that dimension. *)
Theorem get_indices_code_tables
        (g : Grid) (names : string * string * string) :
  1 <= ncol g -> 1 <= nrow g -> 1 <= nlay g ->
  exists i_index j_index k_index,
    get_indices g names = Return [i_index; j_index; k_index]
    /\ _codes i_index = numeral_codes (ncol g) /\ _ncodes i_index = ncol g
    /\ _codes j_index = numeral_codes (nrow g) /\ _ncodes j_index = nrow g
    /\ _codes k_index = numeral_codes (nlay g) /\ _ncodes k_index = nlay g.
Proof.
  unfold ncol, nrow, nlay; intros Hc Hr Hl.
  rewrite (get_indices_spec g names Hc Hr Hl).
  do 3 eexists; split; [reflexivity |].
  repeat split.
Qed.

Lemma get_indices_code_tables_witness :
  exists i_index j_index k_index,
    get_indices two_layer_grid ("I", "J", "K")
    = Return [i_index; j_index; k_index]
    /\ _codes i_index = [(1, "1"); (2, "2")] /\ _ncodes i_index = 2
    /\ _codes j_index = [(1, "1")] /\ _ncodes j_index = 1
    /\ _codes k_index = [(1, "1"); (2, "2")] /\ _ncodes k_index = 2.
Proof.
  apply (get_indices_code_tables two_layer_grid ("I", "J", "K"));
    vm_compute; discriminate.
Defined.

(** X11.  The index properties carry the names asked for, in the order
    column, row, layer, and they can always be attached to the grid
    they come from: the [props] setter accepts them. *)
Theorem get_indices_can_be_attached
        (g : Grid) (names : string * string * string) :
  1 <= ncol g -> 1 <= nrow g -> 1 <= nlay g ->
  exists ilist,
    get_indices g names = Return ilist
    /\ map (fun p => GridProperty.name (property p)) ilist
       = [fst (fst names); snd (fst names); snd names]
    /\ props_setter g (map property ilist)
       = (set_props g (map property ilist), Return tt).
Proof.
  unfold ncol, nrow, nlay; intros Hc Hr Hl.
  rewrite (get_indices_spec g names Hc Hr Hl).
  eexists; split; [reflexivity |].
  split; [reflexivity |].
  unfold props_setter; cbn [map fst snd property props_check
                            GridProperty.ncol GridProperty.nrow
                            GridProperty.nlay].
  rewrite !Z.eqb_refl; reflexivity.
Qed.

Lemma get_indices_can_be_attached_witness :
  exists ilist,
    get_indices box_grid ("IX", "JY", "KZ") = Return ilist
    /\ map (fun p => GridProperty.name (property p)) ilist
       = ["IX"; "JY"; "KZ"]
    /\ props_setter box_grid (map property ilist)
       = (set_props box_grid (map property ilist), Return tt).
Proof.
  apply (get_indices_can_be_attached box_grid ("IX", "JY", "KZ"));
    vm_compute; discriminate.
Defined.

(** X12.  On a grid without cells (no dimension negative, one of them
    zero) [get_indices] raises [ValueError]: the minimum of an empty
    index array is undefined. *)
Theorem get_indices_of_empty_grid_raises
        (g : Grid) (names : string * string * string) :
  0 <= ncol g -> 0 <= nrow g -> 0 <= nlay g ->
  ncol g * nrow g * nlay g = 0 ->
  exists msg, get_indices g names = Raise (ValueError msg).
Proof.
  intros Hc Hr Hl Hzero; destruct names as [[name0 name1] name2].
  unfold get_indices, index_property at 1.
  destruct (Z.ltb_spec (ncol g) 0); [lia |].
  destruct (Z.ltb_spec (nrow g) 0); [lia |].
  destruct (Z.ltb_spec (nlay g) 0); [lia |].
  cbn [orb].
  assert (Hnil : np_indices_flat (ncol g) (nrow g) (nlay g) 0 = []).
  { apply length_zero_iff_nil; rewrite np_indices_flat_length.
    apply Z.mul_eq_0 in Hzero; destruct Hzero as [Hzero | Hzero];
      [apply Z.mul_eq_0 in Hzero; destruct Hzero as [Hzero | Hzero] |];
      rewrite Hzero; cbn [Z.to_nat]; lia. }
  rewrite Hnil; eexists; reflexivity.
Qed.

Lemma get_indices_of_empty_grid_raises_witness :
  exists msg,
    get_indices (set_nlay box_grid 0) ("I", "J", "K")
    = Raise (ValueError msg).
Proof.
  apply (get_indices_of_empty_grid_raises (set_nlay box_grid 0)
                                          ("I", "J", "K"));
    vm_compute; try discriminate; reflexivity.
Defined.

(** ** Geometrics as list and as dictionary *)

(** X13.  The two return shapes of [get_geometrics] agree: the list has
    14 entries, the dictionary has the 14 documented keys in the
    documented order, and looking up the n-th key gives the n-th entry
    of the list. *)
Theorem get_geometrics_dict_matches_list
        (grd3d_geometrics :
           Z -> Z -> Z -> carray Q -> carray Q -> carray Z -> Z -> Z ->
           native (Z * list Q))
        (g : Grid) (allcells cellcenter : bool) (glist : list pyval) :
  get_geometrics grd3d_geometrics g allcells cellcenter false
  = Return (AsList glist) ->
  List.length glist = 14%nat
  /\ exists gdict,
      get_geometrics grd3d_geometrics g allcells cellcenter true
      = Return (AsDict gdict)
      /\ map fst gdict = gkeys
      /\ forall n key, nth_error gkeys n = Some key ->
                       dict_get String.eqb gdict key = nth_error glist n.
Proof.
  unfold get_geometrics.
  destruct (grd3d_geometrics _ _ _ _ _ _ _ _) as [[quality ptr_x]|];
    [| discriminate].
  cbn [of_native bind].
  intros Heq; inversion Heq; subst glist; clear Heq.
  split; [reflexivity |].
  eexists; split; [reflexivity |].
  split; [reflexivity |].
  intros n key Hkey.
  do 14 (destruct n as [|n];
         [cbn in Hkey; inversion Hkey; subst key; reflexivity |]).
  destruct n; discriminate.
Qed.

Lemma get_geometrics_dict_matches_list_witness :
  exists gdict,
    get_geometrics sample_geometrics box_grid true true true
    = Return (AsDict gdict)
    /\ map fst gdict = gkeys
    /\ dict_get String.eqb gdict "avg_dz" = Some (PyFloat (inject_Z 112))
    /\ dict_get String.eqb gdict "grid_regularity_flag" = Some (PyInt 1).
Proof.
  destruct (get_geometrics_dict_matches_list
              sample_geometrics box_grid true true
              (map (fun n => PyFloat (inject_Z (Z.of_nat n))) (seq 100 13)
               ++ [PyInt 1])%list eq_refl)
    as (_ & gdict & Hrun & Hkeys & Hget).
  exists gdict; split; [exact Hrun |].
  split; [exact Hkeys |].
  split.
  - apply (Hget 12%nat "avg_dz"); reflexivity.
  - apply (Hget 13%nat "grid_regularity_flag"); reflexivity.
Defined.

(** ** Looking up an attached property *)

(** X14.  [get_prop_by_name] returns [None] exactly when no attached
    property bears the name, and otherwise the first attached property
    that bears it. *)
Theorem get_prop_by_name_finds_first (g : Grid) (name : string) :
  (get_prop_by_name g name = None <-> ~ In name (propnames g))
  /\ forall obj,
      get_prop_by_name g name = Some obj ->
      GridProperty.name obj = name
      /\ exists before after,
          props g = (before ++ obj :: after)%list
          /\ ~ In name (map GridProperty.name before).
Proof.
  unfold get_prop_by_name, propnames, props.
  induction (_props g) as [|p rest [IHnone IHsome]]; cbn [find map In].
  - split; [tauto | discriminate].
  - destruct (String.eqb_spec (GridProperty.name p) name) as [Heq | Hne].
    + split; [split; [discriminate | tauto] |].
      intros obj Hobj; inversion Hobj; subst obj.
      split; [exact Heq |].
      exists [], rest; split; [reflexivity | tauto].
    + split; [rewrite IHnone; tauto |].
      intros obj Hobj.
      destruct (IHsome obj Hobj) as (Hname & before & after & Hsplit & Hfirst).
      split; [exact Hname |].
      exists (p :: before), after; split; [rewrite Hsplit; reflexivity |].
      cbn [map In]; tauto.
Qed.

Lemma get_prop_by_name_finds_first_witness :
  let g := set_props box_grid [sample_property "PORO" 2 2 2;
                               sample_property "PERMX" 2 2 2;
                               sample_property "SWAT" 2 2 2] in
  get_prop_by_name g "SWAT" = Some (sample_property "SWAT" 2 2 2)
  /\ get_prop_by_name g "KLOGH" = None
  /\ exists before after,
      props g = (before ++ sample_property "SWAT" 2 2 2 :: after)%list
      /\ ~ In "SWAT" (map GridProperty.name before).
Proof.
  cbv zeta.
  split; [reflexivity |].
  split; [reflexivity |].
  apply (proj2 (get_prop_by_name_finds_first
                  (set_props box_grid [sample_property "PORO" 2 2 2;
                                       sample_property "PERMX" 2 2 2;
                                       sample_property "SWAT" 2 2 2])
                  "SWAT")
               (sample_property "SWAT" 2 2 2) eq_refl).
Defined.

(** ** Attaching after a reduction *)

(** X15.  Once [reduce_to_one_layer] has returned on a grid with more
    than one layer, a property that fitted the grid before can no longer
    be attached: the setter raises [IndexError] and the property list
    stays empty.  This holds whatever the native routine computes. *)
Theorem reduced_grid_rejects_former_properties
        (grd3d_reduce_onelayer :
           Z -> Z -> Z -> carray Q -> list Q -> carray Z -> list Z -> Z ->
           native (list Q * list Z * Z))
        (g g' : Grid) (p : GridProperty.t) :
  reduce_to_one_layer grd3d_reduce_onelayer g = (g', Return tt) ->
  dims_match g p = true ->
  nlay g <> 1 ->
  props g' = []
  /\ exists msg, props_setter g' [p] = (g', Raise (IndexError msg)).
Proof.
  intros Hrun Hfit Hlayers.
  destruct (reduce_to_one_layer_any_routine _ g g' Hrun)
    as (Hone & Hprops & Hc & Hr & _).
  split; [exact Hprops |].
  unfold dims_match in Hfit.
  apply andb_prop in Hfit; destruct Hfit as [Hfit Hz].
  apply andb_prop in Hfit; destruct Hfit as [Hx Hy].
  rewrite Z.eqb_eq in Hx, Hy, Hz.
  unfold ncol, nrow, nlay in *.
  unfold props_setter; cbn [props_check].
  rewrite Hc, Hr, Hone, Hx, Hy, !Z.eqb_refl; cbn [negb orb].
  destruct (Z.eqb_spec (GridProperty.nlay p) 1) as [H1 | _]; [congruence |].
  cbn [negb]; eexists; reflexivity.
Qed.

Lemma reduced_grid_rejects_former_properties_witness :
  dims_match box_grid (sample_property "PORO" 2 2 2) = true
  /\ exists msg,
      props_setter
        (fst (reduce_to_one_layer Cxtgeo.grd3d_reduce_onelayer box_grid))
        [sample_property "PORO" 2 2 2]
      = (fst (reduce_to_one_layer Cxtgeo.grd3d_reduce_onelayer box_grid),
         Raise (IndexError msg)).
Proof.
  split; [reflexivity |].
  apply (reduced_grid_rejects_former_properties
           Cxtgeo.grd3d_reduce_onelayer box_grid
           (fst (reduce_to_one_layer Cxtgeo.grd3d_reduce_onelayer box_grid))
           (sample_property "PORO" 2 2 2)).
  - vm_compute; reflexivity.
  - reflexivity.
  - vm_compute; discriminate.
Defined.

(** ** Reading the active indices *)

(** X16.  On a grid whose index cache is empty and whose mask has one
    entry per cell, [actnum_indices] returns the positions of the
    non-zero mask entries in strictly increasing order, changes nothing
    of the grid but the cache, and a second read returns the same
    sequence and changes nothing at all. *)
Theorem actnum_indices_reads_mask (g : Grid) (actnum : list Z) :
  _actnum_indices g = None ->
  _p_actnum_v g = Some actnum ->
  Z.of_nat (List.length actnum) = ntotal g ->
  exists idx,
    actnum_indices g = (set_actnum_indices g (Some idx), Return idx)
    /\ StronglySorted Z.lt idx
    /\ (forall p, In p idx <-> 0 <= p < ntotal g /\ mask_at actnum p <> 0)
    /\ actnum_indices (set_actnum_indices g (Some idx))
       = (set_actnum_indices g (Some idx), Return idx).
Proof.
  intros Hcache Hact Hlen.
  exists (flatnonzero actnum).
  split; [apply actnum_indices_first_read; assumption |].
  destruct (flatnonzero_spec actnum) as [Hsorted Hmem].
  split; [exact Hsorted |].
  split; [intros p; rewrite <- Hlen; apply Hmem |].
  apply actnum_indices_cached; reflexivity.
Qed.

Lemma actnum_indices_reads_mask_witness :
  actnum_indices thinned_grid
  = (set_actnum_indices thinned_grid (Some [2; 3]), Return [2; 3])
  /\ exists idx,
      actnum_indices thinned_grid
      = (set_actnum_indices thinned_grid (Some idx), Return idx)
      /\ StronglySorted Z.lt idx
      /\ (forall p, In p idx
                    <-> 0 <= p < ntotal thinned_grid
                        /\ mask_at [0; 0; 1; 1] p <> 0)
      /\ actnum_indices (set_actnum_indices thinned_grid (Some idx))
         = (set_actnum_indices thinned_grid (Some idx), Return idx).
Proof.
  split; [vm_compute; reflexivity |].
  apply (actnum_indices_reads_mask thinned_grid [0; 0; 1; 1]);
    vm_compute; reflexivity.
Defined.

(** ** The property collection *)

Lemma present_iff (prop : GridProperties.pobject)
      (l : list GridProperties.pobject) :
  GridProperties.present prop l = true
  <-> In (GridProperties.oid prop) (map GridProperties.oid l).
Proof.
  unfold GridProperties.present; rewrite existsb_exists, in_map_iff.
  split; intros (o & H1 & H2).
  - exists o; split; [apply Z.eqb_eq; exact H2 | exact H1].
  - exists o; split; [exact H2 | apply Z.eqb_eq; exact H1].
Qed.

Lemma append_props_known (s : GridProperties.t)
      (prop : GridProperties.pobject) (rest : list GridProperties.element) :
  GridProperties.present prop (GridProperties._props s) = true ->
  GridProperties.append_props s (GridProperties.Property prop :: rest)
  = GridProperties.append_props s rest.
Proof. intros H; cbn [GridProperties.append_props]; rewrite H; reflexivity. Qed.

Lemma append_props_new (s : GridProperties.t)
      (prop : GridProperties.pobject) (rest : list GridProperties.element)
      (l : list string) :
  GridProperties._names s = GridProperties.NameList l ->
  GridProperties.present prop (GridProperties._props s) = false ->
  GridProperties.append_props s (GridProperties.Property prop :: rest)
  = GridProperties.append_props
      (GridProperties.mk
         (GridProperty.ncol (GridProperties.fields prop))
         (GridProperty.nrow (GridProperties.fields prop))
         (GridProperty.nlay (GridProperties.fields prop))
         (GridProperties._props s ++ [prop])
         (GridProperties.NameList (l ++ [GridProperties.name prop]))
         (GridProperties._dates s ++ [GridProperties.date prop]))
      rest.
Proof.
  intros Hnames Hnew; cbn [GridProperties.append_props].
  rewrite Hnew; cbn [negb GridProperties._names].
  rewrite Hnames; reflexivity.
Qed.

(** X17.  [append_props] keeps a collection consistent, whether it
    returns or raises: if names and dates mirror the property list and
    no instance occurs twice before the call, the same holds after it. *)
Theorem append_props_keeps_consistency
        (proplist : list GridProperties.element) :
  forall s : GridProperties.t,
    mirrors s -> distinct_instances s ->
    mirrors (fst (GridProperties.append_props s proplist))
    /\ distinct_instances (fst (GridProperties.append_props s proplist)).
Proof.
  induction proplist as [|[prop|] rest IH]; intros s Hm Hd.
  - split; assumption.
  - destruct (GridProperties.present prop (GridProperties._props s)) eqn:Hp.
    + rewrite append_props_known by exact Hp; apply IH; assumption.
    + destruct Hm as [Hn Hdates].
      rewrite (append_props_new s prop rest _ Hn Hp).
      apply IH.
      * unfold mirrors; cbn.
        rewrite !map_app, Hdates; split; reflexivity.
      * unfold distinct_instances in *; cbn.
        rewrite map_app; cbn [map].
        apply NoDup_app; [exact Hd | repeat constructor; intros [] |].
        intros x Hx [<- | []].
        apply present_iff in Hx; congruence.
  - split; assumption.
Qed.

Lemma append_props_keeps_consistency_witness :
  mirrors (GridProperties.__init__ 4 3 5)
  /\ distinct_instances (GridProperties.__init__ 4 3 5)
  /\ GridProperties._names two_props
     = GridProperties.NameList ["PORO"; "PERMX"]
  /\ mirrors
       (fst (GridProperties.append_props
               two_props
               [GridProperties.Property swat; GridProperties.Property poro;
                GridProperties.Other; GridProperties.Property poro_again]))
  /\ distinct_instances
       (fst (GridProperties.append_props
               two_props
               [GridProperties.Property swat; GridProperties.Property poro;
                GridProperties.Other; GridProperties.Property poro_again])).
Proof.
  assert (Hm0 : mirrors (GridProperties.__init__ 4 3 5))
    by (split; reflexivity).
  assert (Hd0 : distinct_instances (GridProperties.__init__ 4 3 5))
    by constructor.
  split; [exact Hm0 |].
  split; [exact Hd0 |].
  split; [reflexivity |].
  apply (append_props_keeps_consistency
           [GridProperties.Property swat; GridProperties.Property poro;
            GridProperties.Other; GridProperties.Property poro_again]
           two_props).
  - apply (append_props_keeps_consistency
             [GridProperties.Property poro; GridProperties.Property permx]
             (GridProperties.__init__ 4 3 5) Hm0 Hd0).
  - apply (append_props_keeps_consistency
             [GridProperties.Property poro; GridProperties.Property permx]
             (GridProperties.__init__ 4 3 5) Hm0 Hd0).
Defined.

Lemma append_props_app (l1 l2 : list GridProperties.element) :
  forall s : GridProperties.t,
    GridProperties.append_props s (l1 ++ l2)
    = match GridProperties.append_props s l1 with
      | (s1, Returns _) => GridProperties.append_props s1 l2
      | stopped => stopped
      end.
Proof.
  induction l1 as [|[prop|] rest IH]; intros s.
  - reflexivity.
  - cbn [app GridProperties.append_props].
    destruct (GridProperties.present prop (GridProperties._props s));
      cbn [negb]; [apply IH |].
    destruct (GridProperties._names s) as [l | str];
      cbn [GridProperties.names_append GridProperties._names];
      [apply IH | reflexivity].
  - reflexivity.
Qed.

(** X18.  [append_props] works through its list in order and rolls
    nothing back: appending [l1 ++ l2] is appending [l1] and, if that
    returns, appending [l2]; so an entry that is no [GridProperty]
    raises [ValueError] only after every entry before it has been
    added. *)
Theorem append_props_in_sequence
        (s : GridProperties.t) (l1 l2 : list GridProperties.element) :
  GridProperties.append_props s (l1 ++ l2)
  = match GridProperties.append_props s l1 with
    | (s1, Returns _) => GridProperties.append_props s1 l2
    | stopped => stopped
    end
  /\ forall s1,
      GridProperties.append_props s l1 = (s1, Returns tt) ->
      GridProperties.append_props s (l1 ++ GridProperties.Other :: l2)
      = (s1, Raises (Builtin (ValueError
                       "Input property is not a valid GridProperty object"))).
Proof.
  split; [apply append_props_app |].
  intros s1 Hrun; rewrite append_props_app, Hrun; reflexivity.
Qed.

Lemma append_props_in_sequence_witness :
  GridProperties.append_props
    (GridProperties.__init__ 4 3 5)
    [GridProperties.Property poro; GridProperties.Property permx;
     GridProperties.Other; GridProperties.Property swat]
  = (two_props,
     Raises (Builtin (ValueError
               "Input property is not a valid GridProperty object"))).
Proof.
  apply (proj2 (append_props_in_sequence
                  (GridProperties.__init__ 4 3 5)
                  [GridProperties.Property poro; GridProperties.Property permx]
                  [GridProperties.Property swat])
               two_props).
  reflexivity.
Defined.

Lemma append_props_monotone (proplist : list GridProperties.element)
      (o : GridProperties.pobject) :
  forall s : GridProperties.t,
    GridProperties.present o (GridProperties._props s) = true ->
    GridProperties.present
      o (GridProperties._props (fst (GridProperties.append_props s proplist)))
    = true.
Proof.
  induction proplist as [|[prop|] rest IH]; intros s Ho; try exact Ho.
  cbn [GridProperties.append_props].
  destruct (GridProperties.present prop (GridProperties._props s));
    cbn [negb]; [apply IH; exact Ho |].
  assert (Hgrown :
    GridProperties.present o (GridProperties._props s ++ [prop]) = true).
  { unfold GridProperties.present in *.
    rewrite existsb_app, Ho; reflexivity. }
  destruct (GridProperties._names s) as [l | str];
    cbn [GridProperties.names_append GridProperties._names];
    [apply IH; exact Hgrown | exact Hgrown].
Qed.

Lemma append_props_all_present (proplist : list GridProperties.element) :
  forall s s1 : GridProperties.t,
    GridProperties.append_props s proplist = (s1, Returns tt) ->
    Forall (fun e => exists o, e = GridProperties.Property o
                               /\ GridProperties.present
                                    o (GridProperties._props s1) = true)
           proplist.
Proof.
  induction proplist as [|[prop|] rest IH]; intros s s1 Hrun.
  - constructor.
  - cbn [GridProperties.append_props] in Hrun.
    destruct (GridProperties.present prop (GridProperties._props s)) eqn:Hp;
      cbn [negb] in Hrun.
    + constructor; [| apply (IH s s1 Hrun)].
      exists prop; split; [reflexivity |].
      pose proof (append_props_monotone rest prop s Hp) as Hm.
      rewrite Hrun in Hm; exact Hm.
    + destruct (GridProperties._names s) as [l | str];
        cbn [GridProperties.names_append GridProperties._names] in Hrun;
        [| discriminate].
      constructor; [| apply (IH _ s1 Hrun)].
      exists prop; split; [reflexivity |].
      match type of Hrun with
      | GridProperties.append_props ?s2 rest = _ =>
          pose proof (append_props_monotone rest prop s2) as Hm
      end.
      rewrite Hrun in Hm; apply Hm.
      unfold GridProperties.present; cbn.
      rewrite existsb_app; cbn.
      rewrite Z.eqb_refl, orb_true_r; reflexivity.
  - discriminate.
Qed.

Lemma append_props_nothing_new (proplist : list GridProperties.element)
      (s : GridProperties.t) :
  Forall (fun e => exists o, e = GridProperties.Property o
                             /\ GridProperties.present
                                  o (GridProperties._props s) = true)
         proplist ->
  GridProperties.append_props s proplist = (s, Returns tt).
Proof.
  induction 1 as [|e rest (o & -> & Ho) _ IH]; [reflexivity |].
  rewrite append_props_known by exact Ho; exact IH.
Qed.

(** X19.  Appending is idempotent: once [append_props] has returned for
    a list, appending the same list again returns and changes nothing,
    since every instance is taken at most once. *)
Theorem append_props_twice_is_once
        (s s1 : GridProperties.t) (proplist : list GridProperties.element) :
  GridProperties.append_props s proplist = (s1, Returns tt) ->
  GridProperties.append_props s1 proplist = (s1, Returns tt).
Proof.
  intros Hrun.
  apply append_props_nothing_new.
  apply (append_props_all_present proplist s s1 Hrun).
Qed.

Lemma append_props_twice_is_once_witness :
  GridProperties.append_props
    two_props [GridProperties.Property poro; GridProperties.Property permx]
  = (two_props, Returns tt).
Proof.
  apply (append_props_twice_is_once
           (GridProperties.__init__ 4 3 5) two_props
           [GridProperties.Property poro; GridProperties.Property permx]).
  reflexivity.
Defined.

(** Looking a name up in a list of instances. *)
Lemma find_by_name_absent (l : list GridProperties.pobject) (name : string) :
  ~ In name (map GridProperties.name l) ->
  find (fun prop => String.eqb (GridProperties.name prop) name) l = None.
Proof.
  induction l as [|p rest IH]; intros Hno; [reflexivity |].
  cbn [find]; cbn [map In] in Hno.
  destruct (String.eqb_spec (GridProperties.name p) name); [tauto |].
  apply IH; tauto.
Qed.

Lemma find_by_name_first (before : list GridProperties.pobject)
      (o : GridProperties.pobject) (after : list GridProperties.pobject)
      (name : string) :
  GridProperties.name o = name ->
  ~ In name (map GridProperties.name before) ->
  find (fun prop => String.eqb (GridProperties.name prop) name)
       (before ++ o :: after)
  = Some o.
Proof.
  intros Ho; induction before as [|p rest IH]; intros Hno.
  - cbn [app find]; rewrite Ho, String.eqb_refl; reflexivity.
  - cbn [app find]; cbn [map In] in Hno.
    destruct (String.eqb_spec (GridProperties.name p) name); [tauto |].
    apply IH; tauto.
Qed.

(** X20.  Lookup by name in a collection: for a name that no property
    bears, [collection[name]] raises [KeyError] and [get_prop_by_name]
    raises [ValueError] or, with [raiseserror=False], returns [None];
    for a name that is borne, all of them return the first property
    bearing it. *)
Theorem collection_lookup_by_name (s : GridProperties.t) (name : string) :
  (~ In name (map GridProperties.name (GridProperties._props s)) ->
   GridProperties.__getitem__ s name
   = Raises (KeyError ("Key " ++ name ++ " does not exist"))
   /\ GridProperties.get_prop_by_name s name true
      = Raises (Builtin (ValueError
                  ("Cannot find property with name <" ++ name ++ ">")))
   /\ GridProperties.get_prop_by_name s name false = Returns None)
  /\ (forall before o after,
        GridProperties._props s = (before ++ o :: after)%list ->
        GridProperties.name o = name ->
        ~ In name (map GridProperties.name before) ->
        GridProperties.__getitem__ s name = Returns o
        /\ forall raiseserror,
            GridProperties.get_prop_by_name s name raiseserror
            = Returns (Some o)).
Proof.
  unfold GridProperties.__getitem__, GridProperties.get_prop_by_name.
  split.
  - intros Hno; rewrite (find_by_name_absent _ _ Hno).
    repeat split.
  - intros before o after Hsplit Ho Hfirst.
    rewrite Hsplit, (find_by_name_first before o after name Ho Hfirst).
    split; [reflexivity | intros b; reflexivity].
Qed.

Lemma collection_lookup_by_name_witness :
  GridProperties.__getitem__ two_props "SWAT"
  = Raises (KeyError "Key SWAT does not exist")
  /\ GridProperties.get_prop_by_name two_props "SWAT" true
     = Raises (Builtin (ValueError "Cannot find property with name <SWAT>"))
  /\ GridProperties.get_prop_by_name two_props "SWAT" false = Returns None
  /\ GridProperties.__getitem__ two_props "PERMX" = Returns permx.
Proof.
  destruct (collection_lookup_by_name two_props "SWAT") as [Habsent _].
  destruct (collection_lookup_by_name two_props "PERMX") as [_ Hfound].
  destruct Habsent as (Hitem & Hraise & Hnone).
  - cbn; intros [H | [H | []]]; discriminate.
  - split; [exact Hitem |].
    split; [exact Hraise |].
    split; [exact Hnone |].
    apply (Hfound [poro] permx []); [reflexivity | reflexivity |].
    cbn; intros [H | []]; discriminate.
Defined.

(** X21.  Append, then look up: adding an instance whose name is new to
    a collection with a list of names returns; the instance is then
    found under its name, it is the last of the properties, and the
    collection has taken over its dimensions. *)
Theorem append_props_then_lookup
        (s : GridProperties.t) (l : list string) (o : GridProperties.pobject) :
  GridProperties._names s = GridProperties.NameList l ->
  ~ In (GridProperties.oid o)
       (map GridProperties.oid (GridProperties._props s)) ->
  ~ In (GridProperties.name o)
       (map GridProperties.name (GridProperties._props s)) ->
  exists s1,
    GridProperties.append_props s [GridProperties.Property o]
    = (s1, Returns tt)
    /\ GridProperties.__getitem__ s1 (GridProperties.name o) = Returns o
    /\ GridProperties.props s1 = Some (GridProperties._props s ++ [o])%list
    /\ GridProperties.names s1
       = GridProperties.NameList (l ++ [GridProperties.name o])
    /\ GridProperties._ncol s1 = GridProperty.ncol (GridProperties.fields o)
    /\ GridProperties._nrow s1 = GridProperty.nrow (GridProperties.fields o)
    /\ GridProperties._nlay s1 = GridProperty.nlay (GridProperties.fields o).
Proof.
  intros Hnames Hid Hname.
  assert (Hnew :
    GridProperties.present o (GridProperties._props s) = false).
  { destruct (GridProperties.present o (GridProperties._props s)) eqn:Hp;
      [| reflexivity].
    apply present_iff in Hp; contradiction. }
  rewrite (append_props_new s o [] l Hnames Hnew).
  cbn [GridProperties.append_props].
  eexists; split; [reflexivity |].
  split.
  - unfold GridProperties.__getitem__, GridProperties.get_prop_by_name.
    cbn [GridProperties._props].
    rewrite (find_by_name_first _ o [] _ eq_refl Hname); reflexivity.
  - split; [| repeat split].
    unfold GridProperties.props; cbn [GridProperties._props].
    destruct (GridProperties._props s); reflexivity.
Qed.

Lemma append_props_then_lookup_witness :
  exists s1,
    GridProperties.append_props two_props [GridProperties.Property swat]
    = (s1, Returns tt)
    /\ GridProperties.__getitem__ s1 "SWAT" = Returns swat
    /\ GridProperties.props s1 = Some [poro; permx; swat]
    /\ GridProperties.names s1
       = GridProperties.NameList ["PORO"; "PERMX"; "SWAT"]
    /\ GridProperties._ncol s1 = 4
    /\ GridProperties._nrow s1 = 3
    /\ GridProperties._nlay s1 = 5.
Proof.
  apply (append_props_then_lookup two_props ["PORO"; "PERMX"] swat).
  - reflexivity.
  - cbn; intros [H | [H | []]]; discriminate.
  - cbn; intros [H | [H | []]]; discriminate.
Defined.

Lemma nodup_length_le (l : list string) :
  (List.length (nodup string_dec l) <= List.length l)%nat.
Proof.
  induction l as [|a t IH]; [apply Nat.le_refl |].
  cbn [nodup List.length].
  destruct (in_dec string_dec a t); cbn [List.length]; lia.
Qed.

Lemma nodup_length_full (l : list string) :
  List.length (nodup string_dec l) = List.length l <-> NoDup l.
Proof.
  induction l as [|a t IH]; [split; [constructor | reflexivity] |].
  cbn [nodup List.length].
  pose proof (nodup_length_le t) as Hle.
  destruct (in_dec string_dec a t) as [Hin | Hout]; cbn [List.length].
  - split; [lia |].
    intros Hnd; inversion Hnd; contradiction.
  - split.
    + intros Hlen; constructor; [exact Hout |].
      apply IH; lia.
    + intros Hnd; inversion Hnd; subst; f_equal; apply IH; assumption.
Qed.

(** X22.  The [names] setter, called with a non-empty argument (or on a
    collection without properties), stores its argument only if it has
    as many entries as there are properties and, for a list, no name
    twice; a wrong number of names raises [ValueError] and leaves the
    collection as it was. *)
Theorem names_setter_validates
        (s : GridProperties.t) (nameslist : GridProperties.names_value) :
  GridProperties.names_len nameslist <> 0%nat
  \/ GridProperties._props s = [] ->
  (GridProperties.names_len nameslist
   <> List.length (GridProperties._props s) ->
   GridProperties.names_setter s nameslist
   = (s, Raises (Builtin (ValueError
                   "Number of names does not match number of properties"))))
  /\ (forall s1,
        GridProperties.names_setter s nameslist = (s1, Returns tt) ->
        s1 = GridProperties.set_names s nameslist
        /\ GridProperties.names_len nameslist
           = List.length (GridProperties._props s)
        /\ forall l, nameslist = GridProperties.NameList l -> NoDup l).
Proof.
  intros Hcase; unfold GridProperties.names_setter.
  assert (Hbranch :
    (if (GridProperties.names_len nameslist =? 0)%nat
     then GridProperties._props s else []) = []).
  { destruct (Nat.eqb_spec (GridProperties.names_len nameslist) 0);
      [| reflexivity].
    destruct Hcase as [Hne | Hempty]; [contradiction | exact Hempty]. }
  rewrite Hbranch.
  destruct (Nat.eqb_spec (GridProperties.names_len nameslist)
                         (List.length (GridProperties._props s)))
    as [Hlen | Hlen]; cbn [negb].
  - split; [intros Hne; contradiction |].
    destruct (Nat.ltb_spec (GridProperties.names_distinct nameslist)
                           (GridProperties.names_len nameslist))
      as [Hdup | Hdistinct]; [discriminate |].
    intros s1 Heq; inversion Heq; subst s1; clear Heq.
    split; [reflexivity |].
    split; [exact Hlen |].
    intros l ->; cbn in Hdistinct.
    apply nodup_length_full.
    pose proof (nodup_length_le l); lia.
  - split; [intros _; reflexivity | discriminate].
Qed.

Lemma names_setter_validates_witness :
  (GridProperties.names_setter
     two_props (GridProperties.NameList ["PHIT"])
   = (two_props,
      Raises (Builtin (ValueError
                "Number of names does not match number of properties"))))
  /\ (GridProperties.names_setter
        two_props (GridProperties.NameList ["PHIT"; "KLOGH"])
      = (GridProperties.set_names
           two_props (GridProperties.NameList ["PHIT"; "KLOGH"]),
         Returns tt)
      /\ NoDup ["PHIT"; "KLOGH"]).
Proof.
  split.
  - apply (proj1 (names_setter_validates
                    two_props (GridProperties.NameList ["PHIT"])
                    (or_introl (fun H => Nat.neq_succ_0 _ H)))).
    cbn; discriminate.
  - split; [reflexivity |].
    apply (proj2 (names_setter_validates
                    two_props (GridProperties.NameList ["PHIT"; "KLOGH"])
                    (or_introl (fun H => Nat.neq_succ_0 _ H)))
                 (GridProperties.set_names
                    two_props (GridProperties.NameList ["PHIT"; "KLOGH"]))
                 eq_refl).
    reflexivity.
Defined.

(** X23.  [append_props] does not look at names: a new instance whose
    name is already borne in a consistent collection is added all the
    same.  Lookup by that name keeps returning the earlier property,
    and the list of names now held is one that the [names] setter
    itself refuses, for its duplicate. *)
Theorem append_props_admits_duplicate_names
        (s : GridProperties.t) (o earlier : GridProperties.pobject) :
  mirrors s ->
  ~ In (GridProperties.oid o)
       (map GridProperties.oid (GridProperties._props s)) ->
  GridProperties.__getitem__ s (GridProperties.name o) = Returns earlier ->
  exists s1,
    GridProperties.append_props s [GridProperties.Property o]
    = (s1, Returns tt)
    /\ In o (GridProperties._props s1)
    /\ GridProperties.__getitem__ s1 (GridProperties.name o) = Returns earlier
    /\ GridProperties.names_setter s1 (GridProperties.names s1)
       = (s1, Raises (Builtin (ValueError
                 "List of names contains duplicates; names must be unique"))).
Proof.
  intros [Hnames Hdates] Hid Hfound.
  assert (Hnew :
    GridProperties.present o (GridProperties._props s) = false).
  { destruct (GridProperties.present o (GridProperties._props s)) eqn:Hp;
      [| reflexivity].
    apply present_iff in Hp; contradiction. }
  unfold GridProperties.__getitem__, GridProperties.get_prop_by_name in Hfound.
  destruct (find _ (GridProperties._props s)) as [found |] eqn:Hfind;
    [| discriminate].
  inversion Hfound; subst found; clear Hfound.
  destruct (find_some _ _ Hfind) as [Hin Heqb].
  apply String.eqb_eq in Heqb.
  rewrite (append_props_new s o [] _ Hnames Hnew).
  cbn [GridProperties.append_props].
  eexists; split; [reflexivity |].
  split; [cbn; apply in_or_app; right; left; reflexivity |].
  split.
  - unfold GridProperties.__getitem__, GridProperties.get_prop_by_name.
    cbn [GridProperties._props].
    assert (Hfind' :
      find (fun prop =>
              String.eqb (GridProperties.name prop) (GridProperties.name o))
           (GridProperties._props s ++ [o]) = Some earlier).
    { clear - Hfind.
      induction (GridProperties._props s) as [|p rest IH];
        [discriminate |].
      cbn [app find] in *.
      destruct (String.eqb (GridProperties.name p) (GridProperties.name o));
        [exact Hfind | apply IH; exact Hfind]. }
    rewrite Hfind'; reflexivity.
  - unfold GridProperties.names_setter, GridProperties.names.
    cbn [GridProperties._names GridProperties._props
         GridProperties.names_len GridProperties.names_distinct].
    rewrite !length_app, length_map; cbn [List.length].
    destruct (Nat.eqb_spec
                (List.length (GridProperties._props s) + 1) 0) as [H0 | _];
      [lia |].
    rewrite Nat.eqb_refl; cbn [negb].
    assert (Hdup :
      ~ NoDup (map GridProperties.name (GridProperties._props s)
               ++ [GridProperties.name o])).
    { intros Hnd.
      apply NoDup_remove_2 in Hnd; apply Hnd.
      rewrite app_nil_r, <- Heqb.
      apply in_map; exact Hin. }
    pose proof (nodup_length_le
                  (map GridProperties.name (GridProperties._props s)
                   ++ [GridProperties.name o])) as Hle.
    rewrite length_app, length_map in Hle; cbn [List.length] in Hle.
    destruct (Nat.ltb_spec
                (List.length
                   (nodup string_dec
                      (map GridProperties.name (GridProperties._props s)
                       ++ [GridProperties.name o])))
                (List.length (GridProperties._props s) + 1))
      as [_ | Hge]; [reflexivity |].
    exfalso; apply Hdup, nodup_length_full.
    rewrite length_app, length_map; cbn [List.length]; lia.
Qed.

Lemma append_props_admits_duplicate_names_witness :
  exists s1,
    GridProperties.append_props two_props [GridProperties.Property poro_again]
    = (s1, Returns tt)
    /\ In poro_again (GridProperties._props s1)
    /\ GridProperties.__getitem__ s1 "PORO" = Returns poro
    /\ GridProperties.names_setter s1 (GridProperties.names s1)
       = (s1, Raises (Builtin (ValueError
                 "List of names contains duplicates; names must be unique"))).
Proof.
  apply (append_props_admits_duplicate_names two_props poro_again poro).
  - split; reflexivity.
  - cbn; intros [H | [H | []]]; discriminate.
  - reflexivity.
Defined.

(** X24.  The empty-argument form of the [names] setter takes a name
    from the first property only: with a falsy argument, properties
    present and a list of names held, it appends the first property's
    name to the names already held and returns; the names of the other
    properties are not taken, and the names held before are not
    replaced.  So afterwards there are as many names as properties only
    if exactly one name was missing before. *)
Theorem names_setter_default_takes_first_name
        (s : GridProperties.t) (nameslist : GridProperties.names_value)
        (first : GridProperties.pobject) (others : list GridProperties.pobject)
        (held : list string) :
  GridProperties.names_len nameslist = 0%nat ->
  GridProperties._props s = first :: others ->
  GridProperties._names s = GridProperties.NameList held ->
  exists s1,
    GridProperties.names_setter s nameslist = (s1, Returns tt)
    /\ GridProperties._props s1 = first :: others
    /\ GridProperties._names s1
       = GridProperties.NameList (held ++ [GridProperties.name first])
    /\ (GridProperties.names_len (GridProperties._names s1)
        = List.length (GridProperties._props s1)
        <-> List.length held = List.length others).
Proof.
  intros Hfalsy Hprops Hheld.
  exists (GridProperties.set_names
            s (GridProperties.NameList (held ++ [GridProperties.name first]))).
  split; [| split; [| split]].
  - unfold GridProperties.names_setter.
    rewrite Hfalsy, Hprops; cbn [Nat.eqb].
    rewrite Hheld; reflexivity.
  - exact Hprops.
  - reflexivity.
  - cbn [GridProperties.set_names GridProperties._names
         GridProperties._props GridProperties.names_len].
    rewrite Hprops, length_app; cbn [List.length]; lia.
Qed.

Lemma names_setter_default_takes_first_name_witness :
  exists s1,
    GridProperties.names_setter two_props (GridProperties.NameStr "")
    = (s1, Returns tt)
    /\ GridProperties._props s1 = [poro; permx]
    /\ GridProperties._names s1
       = GridProperties.NameList ["PORO"; "PERMX"; "PORO"]
    /\ (GridProperties.names_len (GridProperties._names s1)
        = List.length (GridProperties._props s1)
        <-> List.length ["PORO"; "PERMX"] = List.length [permx]).
Proof.
  apply (names_setter_default_takes_first_name
           two_props (GridProperties.NameStr "") poro [permx]
           ["PORO"; "PERMX"]);
    reflexivity.
Defined.
